(** * Session tracker: metrics engine, session lifecycle and aggregator

    A shallow embedding of [tracker.py].  The values that the tracker
    stores in a session record are modelled by [value]; a session record
    (a Python [dict] with string keys) is a [gmap string value]; Python
    floats are IEEE binary64 numbers, i.e. Rocq's primitive floats, and
    [round(x, 2)] is computed on their exact binary value; exceptions are
    explicit in the [result] monad.  The two files of the tracker form the
    [store] that the commands transform; the answers of the operator to
    the prompts are arguments of the commands.  The library parsers
    [float] and [datetime.fromisoformat] are a parameter, [PyRuntime], of
    which [Ascii_runtime] is an instance.

    The first part holds the definitions, the second the properties. *)

From Stdlib Require Import ZArith Floats Ascii String List Lia.
From stdpp Require Import gmap strings list fin_maps pretty.

Open Scope Z_scope.

(** ** Exceptions and the result monad *)

Inductive exn : Set :=
| ValueError | TypeError | AttributeError | OverflowError
| ZeroDivisionError | KeyError.

Inductive result (A : Type) : Type :=
| Ok (a : A)
| Raise (e : exn).

Arguments Ok {A} a.
Arguments Raise {A} e.

#[global] Instance result_ret : MRet result := fun A a => Ok a.

#[global] Instance result_bind : MBind result := fun A B f m =>
  match m with
  | Ok a => f a
  | Raise e => Raise e
  end.

(** [try: ... except ValueError: return None] *)
Definition except_ValueError {A} (m : result A) : result (option A) :=
  match m with
  | Ok a => Ok (Some a)
  | Raise ValueError => Ok None
  | Raise e => Raise e
  end.

(** [try: ... except Exception: ...] *)
Definition except_Exception {A} (m : result A) : option A :=
  match m with
  | Ok a => Some a
  | Raise _ => None
  end.

(** ** Python floats *)

Module PyFloat.

(** The float nearest to an integer (round half to even), as [float(n)]
    computes it for a Python [int]. *)
Definition float_of_Z (n : Z) : float :=
  SF2Prim (binary_normalize prec emax n 0 false).

(** The float nearest to the rational [num / den] with [0 <= num] and
    [0 < den], negated when [neg]: the quotient is computed with more than
    64 significant bits and a sticky bit, then rounded once. *)
Definition nearest_float (neg : bool) (num den : Z) : float :=
  if num =? 0 then (if neg then PrimFloat.neg_zero else PrimFloat.zero)
  else
    let k := Z.max 0 (66 + Z.log2 den - Z.log2 num) in
    let n' := Z.shiftl num k in
    let q := n' / den in
    let r := n' mod den in
    let m := 2 * q + (if r =? 0 then 0 else 1) in
    SF2Prim (binary_normalize prec emax (if neg then - m else m) (- k - 1) neg).

(** [num / den] rounded to an integer, ties to even. *)
Definition round_half_even (num den : Z) : Z :=
  let q := num / den in
  let r := num mod den in
  match 2 * r ?= den with
  | Lt => q
  | Gt => q + 1
  | Eq => if Z.even q then q else q + 1
  end.

(** [round(x, 2)]: the exact binary value of [x] is rounded to two decimal
    places, ties to even, and the decimal result is converted back to the
    nearest float.  Infinities and NaN round to themselves. *)
Definition round2 (x : float) : float :=
  match Prim2SF x with
  | S754_finite s m e =>
      let n := if 0 <=? e
               then Z.pos m * 2 ^ e * 100
               else round_half_even (Z.pos m * 100) (2 ^ (- e)) in
      nearest_float s n 100
  | _ => x
  end.

(** [int(x)] for a float: truncation toward zero. *)
Definition int_of_float (x : float) : result Z :=
  match Prim2SF x with
  | S754_zero _ => Ok 0
  | S754_infinity _ => Raise OverflowError
  | S754_nan => Raise ValueError
  | S754_finite s m e =>
      let a := if 0 <=? e then Z.pos m * 2 ^ e else Z.pos m / 2 ^ (- e) in
      Ok (if s then - a else a)
  end.

(** [round(x)] for a float: the nearest integer, ties to even. *)
Definition round_int (x : float) : result Z :=
  match Prim2SF x with
  | S754_zero _ => Ok 0
  | S754_infinity _ => Raise OverflowError
  | S754_nan => Raise ValueError
  | S754_finite s m e =>
      let a := if 0 <=? e then Z.pos m * 2 ^ e
               else round_half_even (Z.pos m) (2 ^ (- e)) in
      Ok (if s then - a else a)
  end.

(** An [int] operand of a float operation is converted first; integers
    beyond the float range raise [OverflowError]. *)
Definition float_of_int (n : Z) : result float :=
  let f := float_of_Z n in
  if PrimFloat.is_infinity f then Raise OverflowError else Ok f.

(** [a / b] on floats. *)
Definition truediv (a b : float) : result float :=
  if (b =? 0)%float then Raise ZeroDivisionError else Ok (a / b)%float.

(** [a / n] for a float [a] and an int [n]. *)
Definition truediv_int (a : float) (n : Z) : result float :=
  if n =? 0 then Raise ZeroDivisionError
  else b ← float_of_int n; Ok (a / b)%float.

(** Truth value of a float: zero (of either sign) is false. *)
Definition truthy (x : float) : bool := negb (x =? 0)%float.

(** [x or 0.0] for an optional float. *)
Definition or_zero (x : option float) : float :=
  match x with
  | Some f => if truthy f then f else 0%float
  | None => 0%float
  end.

End PyFloat.

(** ** Strings *)

Definition replace_comma_char (c : ascii) : ascii :=
  if Ascii.eqb c "," then "."%char else c.

(** [s.replace(",", ".")] *)
Fixpoint replace_comma (s : string) : string :=
  match s with
  | EmptyString => EmptyString
  | String c s' => String (replace_comma_char c) (replace_comma s')
  end.

Definition lower_char (c : ascii) : ascii :=
  let n := N_of_ascii c in
  if ((65 <=? n) && (n <=? 90))%N then ascii_of_N (n + 32) else c.

(** [s.lower()] on the ASCII letters. *)
Fixpoint lower (s : string) : string :=
  match s with
  | EmptyString => EmptyString
  | String c s' => String (lower_char c) (lower s')
  end.

(** ** Values stored in a session record

    What the tracker writes into a record and reads back from its files:
    [None], integers, floats and strings. *)

Inductive value : Type :=
| VNone
| VInt (n : Z)
| VFloat (f : float)
| VStr (s : string).

(** A session record: a [dict] keyed by field name. *)
Abbreviation record := (gmap string value).

(** [d.get(k)] and [d.get(k, dflt)] *)
Definition get (d : record) (k : string) : value := default VNone (d !! k).
Definition get_or (d : record) (k : string) (dflt : value) : value :=
  default dflt (d !! k).

(** [d[k]] *)
Definition getitem (d : record) (k : string) : result value :=
  match d !! k with
  | Some v => Ok v
  | None => Raise KeyError
  end.

(** Truth value of a stored value. *)
Definition truthy (v : value) : bool :=
  match v with
  | VNone => false
  | VInt n => negb (n =? 0)
  | VFloat f => PyFloat.truthy f
  | VStr s => negb (String.eqb s "")
  end.

(** [v or ""] *)
Definition or_empty (v : value) : value := if truthy v then v else VStr "".

(** [v in ("", None)] *)
Definition in_empty_or_None (v : value) : bool :=
  match v with
  | VNone => true
  | VStr s => String.eqb s ""
  | _ => false
  end.

(** [v is None] *)
Definition is_None (v : value) : bool :=
  match v with VNone => true | _ => false end.

(** [v.lower()]: only strings have the method. *)
Definition value_lower (v : value) : result string :=
  match v with
  | VStr s => Ok (lower s)
  | _ => Raise AttributeError
  end.

(** ** Dates and times *)

(** A [datetime]: the wall-clock reading as microseconds since the
    midnight that opens the day of proleptic Gregorian ordinal 0 (the date
    of ordinal 1 is 0001-01-01), together with the UTC offset, in
    microseconds, of an aware datetime. *)
Record datetime : Type := {
  wall_us : Z;
  utcoffset : option Z
}.

Definition US_PER_SECOND : Z := 1000000.
Definition US_PER_DAY : Z := 86400 * US_PER_SECOND.

(** [date.min.toordinal()] and [date.max.toordinal()] *)
Definition MINORDINAL : Z := 1.
Definition MAXORDINAL : Z := 3652059.

(** [datetime(d.year, d.month, d.day, h, mi, s)] for the date of ordinal
    [ord]. *)
Definition mk_datetime (ord h mi s : Z) : datetime :=
  {| wall_us := ord * US_PER_DAY + (h * 3600 + mi * 60 + s) * US_PER_SECOND;
     utcoffset := None |}.

(** [dt.date()], as its ordinal. *)
Definition toordinal (dt : datetime) : Z := wall_us dt / US_PER_DAY.

(** [dt + timedelta(days=n)]: the result must be a representable date. *)
Definition add_days (dt : datetime) (n : Z) : result datetime :=
  let w := wall_us dt + n * US_PER_DAY in
  if (MINORDINAL <=? w / US_PER_DAY) && (w / US_PER_DAY <=? MAXORDINAL)
  then Ok {| wall_us := w; utcoffset := utcoffset dt |}
  else Raise OverflowError.

(** [a - b] as a [timedelta] in microseconds; naive and aware datetimes do
    not mix. *)
Definition dt_sub (a b : datetime) : result Z :=
  match utcoffset a, utcoffset b with
  | None, None => Ok (wall_us a - wall_us b)
  | Some oa, Some ob => Ok ((wall_us a - oa) - (wall_us b - ob))
  | _, _ => Raise TypeError
  end.

(** [a <= b] *)
Definition dt_le (a b : datetime) : result bool :=
  d ← dt_sub a b; Ok (d <=? 0).

(** [td.total_seconds()] *)
Definition total_seconds (td : Z) : float :=
  PyFloat.nearest_float (td <? 0) (Z.abs td) US_PER_SECOND.

(** Calendar arithmetic of the [datetime] module, used to print dates. *)
Definition is_leap (y : Z) : bool :=
  (y mod 4 =? 0) && (negb (y mod 100 =? 0) || (y mod 400 =? 0)).

Definition days_before_year (y : Z) : Z :=
  let y1 := y - 1 in y1 * 365 + y1 / 4 - y1 / 100 + y1 / 400.

Definition days_in_month (y m : Z) : Z :=
  if m =? 2 then (if is_leap y then 29 else 28)
  else if (m =? 4) || (m =? 6) || (m =? 9) || (m =? 11) then 30 else 31.

Definition DAYS_BEFORE_MONTH : list Z :=
  [0; 0; 31; 59; 90; 120; 151; 181; 212; 243; 273; 304; 334].

Definition days_before_month (y m : Z) : Z :=
  nth (Z.to_nat m) DAYS_BEFORE_MONTH 0 + (if (2 <? m) && is_leap y then 1 else 0).

Definition ymd2ord (y m d : Z) : Z :=
  days_before_year y + days_before_month y m + d.

Definition ord2ymd (ord : Z) : Z * Z * Z :=
  let n := ord - 1 in
  let n400 := n / 146097 in let n := n mod 146097 in
  let n100 := n / 36524 in let n := n mod 36524 in
  let n4 := n / 1461 in let n := n mod 1461 in
  let n1 := n / 365 in let n := n mod 365 in
  let year := n400 * 400 + 1 + n100 * 100 + n4 * 4 + n1 in
  if (n1 =? 4) || (n100 =? 4) then (year - 1, 12, 31)
  else
    let leapyear := (n1 =? 3) && (negb (n4 =? 24) || (n100 =? 3)) in
    let month := Z.shiftr (n + 50) 5 in
    let preceding :=
      nth (Z.to_nat month) DAYS_BEFORE_MONTH 0
      + (if (2 <? month) && leapyear then 1 else 0) in
    if n <? preceding
    then
      let month' := month - 1 in
      let dim := (if month' =? 2 then (if leapyear then 29 else 28)
                  else days_in_month year month') in
      (year, month', n - (preceding - dim) + 1)
    else (year, month, n - preceding + 1).

Definition digit_char (d : Z) : ascii := ascii_of_N (48 + Z.to_N (d mod 10)).

(** [n] in decimal, zero padded to [w] digits. *)
Fixpoint zero_pad (w : nat) (n : Z) (acc : string) : string :=
  match w with
  | O => acc
  | S w' => zero_pad w' (n / 10) (String (digit_char n) acc)
  end.

(** [dt.isoformat()] *)
Definition isoformat (dt : datetime) : string :=
  let '(y, m, d) := ord2ymd (toordinal dt) in
  let us := wall_us dt mod US_PER_DAY in
  let sec := us / US_PER_SECOND in
  let frac := us mod US_PER_SECOND in
  let date_part :=
    zero_pad 4 y "" +:+ "-" +:+ zero_pad 2 m "" +:+ "-" +:+ zero_pad 2 d "" in
  let time_part :=
    zero_pad 2 (sec / 3600) "" +:+ ":" +:+ zero_pad 2 (sec / 60 mod 60) ""
    +:+ ":" +:+ zero_pad 2 (sec mod 60) "" in
  let frac_part := if frac =? 0 then "" else "." +:+ zero_pad 6 frac "" in
  let off_part :=
    match utcoffset dt with
    | None => ""
    | Some o =>
        let a := Z.abs o in
        let s := a / US_PER_SECOND in
        let f := a mod US_PER_SECOND in
        (if o <? 0 then "-" else "+") +:+ zero_pad 2 (s / 3600) "" +:+ ":"
        +:+ zero_pad 2 (s / 60 mod 60) ""
        +:+ (if (s mod 60 =? 0) && (f =? 0) then ""
             else ":" +:+ zero_pad 2 (s mod 60) ""
                  +:+ (if f =? 0 then "" else "." +:+ zero_pad 6 f ""))
    end in
  date_part +:+ "T" +:+ time_part +:+ frac_part +:+ off_part.

(** ** The Python runtime the tracker calls into

    [float(s)] and [datetime.fromisoformat(s)] are library parsers whose
    accepted grammar belongs to the interpreter; [None] stands for the
    [ValueError] they raise.  The tracker is modelled over any such pair. *)
Class PyRuntime : Type := {
  float_of_str : string -> option float;
  fromisoformat : string -> option datetime
}.

(** [s.upper()] on the ASCII letters. *)
Definition upper_char (c : ascii) : ascii :=
  let n := N_of_ascii c in
  if ((97 <=? n) && (n <=? 122))%N then ascii_of_N (n - 32) else c.

Fixpoint upper (s : string) : string :=
  match s with
  | EmptyString => EmptyString
  | String c s' => String (upper_char c) (upper s')
  end.

(** ** Helpers of the tracker *)

Section Helpers.
Context `{RT : PyRuntime}.

(** [dt_from_iso]: [datetime.fromisoformat] wants a string. *)
Definition dt_from_iso (v : value) : result datetime :=
  match v with
  | VStr s =>
      match fromisoformat s with
      | Some d => Ok d
      | None => Raise ValueError
      end
  | _ => Raise TypeError
  end.

(** [duration_minutes] *)
Definition duration_minutes (start_iso end_iso : value) : result Z :=
  s ← dt_from_iso start_iso;
  e ← dt_from_iso end_iso;
  td ← dt_sub e s;
  q ← PyFloat.truediv_int (total_seconds td) 60;
  mins ← PyFloat.round_int q;
  Ok (Z.max mins 0).

(** [safe_div] *)
Definition safe_div (a b : float) : option float :=
  if (b =? 0)%float then None else Some (a / b)%float.

(** [float(str(v).replace(",", "."))].  The text of a float reads back as
    the same float and the text of an int as the nearest float; the text
    of [None] is not a number. *)
Definition float_of_text (v : value) : result float :=
  match v with
  | VNone => Raise ValueError
  | VInt n => Ok (PyFloat.float_of_Z n)
  | VFloat f => Ok f
  | VStr s =>
      match float_of_str (replace_comma s) with
      | Some f => Ok f
      | None => Raise ValueError
      end
  end.

(** [_to_float]; the only exception the conversion can raise is the
    [ValueError] that the handler turns into [None]. *)
Definition _to_float (v : value) : option float :=
  if in_empty_or_None v then None
  else match float_of_text v with
       | Ok f => Some f
       | Raise _ => None
       end.

(** [_to_int]; [int(x)] raises [ValueError] on NaN, which is handled, and
    [OverflowError] on an infinity, which is not. *)
Definition _to_int (v : value) : result (option Z) :=
  if in_empty_or_None v then Ok None
  else except_ValueError (f ← float_of_text v; PyFloat.int_of_float f).

End Helpers.

(** ** Computations *)

Definition FORMATS : list string := ["cash"; "mtt"; "spin"].

(** [fmt in ("mtt", "spin")] *)
Definition is_mtt_or_spin (fmt : string) : bool :=
  String.eqb fmt "mtt" || String.eqb fmt "spin".

(** The keys whose [None] is replaced by the empty string. *)
Definition NORMALIZED_KEYS : list string :=
  ["tables"; "hands"; "bb_value"; "bb_profit"; "bb_per_100"; "buyin_total";
   "prize_total"; "roi"].

Definition normalize_key (session : record) (k : string) : record :=
  if is_None (get session k) then <[k := VStr ""]> session else session.

Definition normalize_empties (session : record) : record :=
  fold_left normalize_key NORMALIZED_KEYS session.

Section Computations.
Context `{RT : PyRuntime}.

(** The duration block of [compute_metrics]. *)
Definition fill_duration (session : record) : result record :=
  if in_empty_or_None (get session "duration_min") then
    if truthy (get session "start_ts") && truthy (get session "end_ts") then
      st ← getitem session "start_ts";
      en ← getitem session "end_ts";
      d ← duration_minutes st en;
      Ok (<["duration_min" := VInt d]> session)
    else Ok session
  else Ok session.

(** The profit block: buy-in and prize first, bankroll delta otherwise. *)
Definition fill_profit (fmt : string) (buyin prize br_s br_e : option float)
    (session : record) : record :=
  match is_mtt_or_spin fmt, buyin, prize with
  | true, Some b, Some p =>
      <["profit" := VFloat (PyFloat.round2 (p - b))]> session
  | _, _, _ =>
      match br_s, br_e with
      | Some s, Some e =>
          <["profit" := VFloat (PyFloat.round2 (e - s))]> session
      | _, _ => session
      end
  end.

(** The cash block: [bb_profit] and [bb_per_100]. *)
Definition fill_cash (fmt : string) (session : record) : result record :=
  if String.eqb fmt "cash" then
    hands ← _to_int (get session "hands");
    let bb_value := _to_float (get session "bb_value") in
    let profit := _to_float (get session "profit") in
    match profit, bb_value with
    | Some p, Some bbv =>
        if (0 <? bbv)%float then
          bb_profit ← PyFloat.truediv p bbv;
          let session :=
            <["bb_profit" := VFloat (PyFloat.round2 bb_profit)]> session in
          match hands with
          | Some h =>
              if 0 <? h then
                q ← PyFloat.truediv_int bb_profit h;
                Ok (<["bb_per_100" := VFloat (PyFloat.round2 (q * 100))]>
                      session)
              else Ok session
          | None => Ok session
          end
        else Ok session
    | _, _ => Ok session
    end
  else Ok session.

(** The ROI block. *)
Definition fill_roi (fmt : string) (buyin : option float)
    (session : record) : result record :=
  if is_mtt_or_spin fmt then
    let profit := _to_float (get session "profit") in
    match buyin, profit with
    | Some b, Some p =>
        if (0 <? b)%float then
          q ← PyFloat.truediv p b;
          Ok (<["roi" := VFloat (PyFloat.round2 (q * 100))]> session)
        else Ok session
    | _, _ => Ok session
    end
  else Ok session.

(** [compute_metrics] *)
Definition compute_metrics (session : record) : result record :=
  fmt ← value_lower (get_or session "format" (VStr ""));
  let currency := or_empty (get_or session "currency" (VStr "")) in
  session ← fill_duration session;
  let buyin := _to_float (get session "buyin_total") in
  let prize := _to_float (get session "prize_total") in
  let br_s := _to_float (get session "bankroll_start") in
  let br_e := _to_float (get session "bankroll_end") in
  let session := fill_profit fmt buyin prize br_s br_e session in
  session ← fill_cash fmt session;
  session ← fill_roi fmt buyin session;
  let session := normalize_empties session in
  Ok (<["currency" := currency]> session).

End Computations.

(** ** Storage: the active-session file and the CSV file *)

Definition POKER_ROOM : string := "PokerOK".

Definition CSV_FIELDS : list string :=
  ["id"; "poker_room"; "format"; "stake"; "currency"; "start_ts"; "end_ts";
   "duration_min"; "bankroll_start"; "bankroll_end"; "profit"; "tables";
   "note"; "hands"; "bb_value"; "bb_profit"; "bb_per_100"; "buyin_total";
   "prize_total"; "roi"].

(** The active-session file: missing, present but not readable as JSON, or
    holding one record. *)
Inductive active_file : Type :=
| NoFile
| Unreadable
| Draft (d : record).

(** The two files the tracker owns; [csv] lists the rows in file order. *)
Record store : Type := {
  active : active_file;
  csv : list record
}.

(** What the commands write to standard error. *)
Inductive message : Set :=
| MsgActiveUnreadable
| MsgAlreadyActive
| MsgRemoveActiveHint
| MsgNoActive
| MsgBbValueZero
| MsgEndNotAfterStart
| MsgBadDate
| MsgBadTime.

(** The result of a command: the exit status (or the exception that ended
    the process), the messages on standard error and the files afterwards. *)
Record outcome : Type := {
  status : result Z;
  stderr : list message;
  final : store
}.

(** [load_active] *)
Definition load_active (st : store) : option record * list message :=
  match active st with
  | NoFile => (None, [])
  | Unreadable => (None, [MsgActiveUnreadable])
  | Draft d => (Some d, [])
  end.

(** [save_active] *)
Definition save_active (st : store) (data : record) : store :=
  {| active := Draft data; csv := csv st |}.

(** [clear_active] *)
Definition clear_active (st : store) : store :=
  {| active := NoFile; csv := csv st |}.

(** [append_row]: the row is the record restricted to the CSV columns, a
    missing column being the empty string. *)
Definition csv_row (row : record) : record :=
  list_to_map (map (fun k => (k, get_or row k (VStr ""))) CSV_FIELDS).

Definition append_row (st : store) (row : record) : store :=
  {| active := active st; csv := csv st ++ [csv_row row] |}.

(** Truth value of an optional [dict]: [None] and the empty [dict] are
    false. *)
Definition dict_truthy (d : option record) : bool :=
  match d with
  | Some d => negb (Nat.eqb (size d) 0)
  | None => false
  end.

(** ** Commands *)

(** The answers of the operator to the prompts of [start]; the prompts
    have validated them. *)
Record start_inputs : Type := {
  si_format : string;
  si_stake : string;
  si_currency : string;
  si_bankroll_start : float;
  si_tables : option Z;
  si_note : string
}.

(** The answers to the prompts of [end]; an optional answer is [None] when
    the operator declined to give it. *)
Record end_inputs : Type := {
  ei_bankroll_end : float;
  ei_hands : option Z;
  ei_bb_value : option float;
  ei_buyin_prize : option (float * float);
  ei_note_end : string
}.

(** The keys [end] writes before it validates the stamps. *)
Definition END_KEYS : list string :=
  ["hands"; "bb_value"; "buyin_total"; "prize_total"; "note";
   "bankroll_end"; "end_ts"].

(** [base_note + " | "] *)
Definition note_prefix (base_note : value) : result string :=
  if truthy base_note then
    match base_note with
    | VStr s => Ok (s +:+ " | ")
    | _ => Raise TypeError
    end
  else Ok "".

Section Commands.
Context `{RT : PyRuntime}.

(** [cmd_start]; [uuid] and [now_ts] are the results of [uuid.uuid4()] and
    [iso_now()]. *)
Definition cmd_start (inp : start_inputs) (uuid now_ts : string) (st : store)
    : outcome :=
  let '(active, errs) := load_active st in
  if dict_truthy active then
    {| status := Ok 2;
       stderr := errs ++ [MsgAlreadyActive; MsgRemoveActiveHint];
       final := st |}
  else
    let session : record :=
      list_to_map
        [("id", VStr uuid);
         ("poker_room", VStr POKER_ROOM);
         ("format", VStr (si_format inp));
         ("stake", VStr (si_stake inp));
         ("currency", VStr (upper (si_currency inp)));
         ("start_ts", VStr now_ts);
         ("end_ts", VStr "");
         ("duration_min", VStr "");
         ("bankroll_start", VFloat (si_bankroll_start inp));
         ("bankroll_end", VStr "");
         ("profit", VStr "");
         ("tables", match si_tables inp with Some t => VInt t | None => VStr "" end);
         ("note", VStr (si_note inp));
         ("hands", VStr "");
         ("bb_value", VStr "");
         ("bb_profit", VStr "");
         ("bb_per_100", VStr "");
         ("buyin_total", VStr "");
         ("prize_total", VStr "");
         ("roi", VStr "")] in
    {| status := Ok 0; stderr := errs; final := save_active st session |}.

(** The format-specific answers of [end] written into the draft. *)
Definition end_cash_inputs (inp : end_inputs) (active : record)
    : record * list message :=
  let active :=
    match ei_hands inp with
    | Some hands => <["hands" := VInt hands]> active
    | None => active
    end in
  match ei_bb_value inp with
  | Some bb_value =>
      if (bb_value =? 0)%float then (active, [MsgBbValueZero])
      else (<["bb_value" := VFloat bb_value]> active, [])
  | None => (active, [])
  end.

Definition end_mtt_spin_inputs (inp : end_inputs) (active : record) : record :=
  match ei_buyin_prize inp with
  | Some (buyin_total, prize_total) =>
      <["prize_total" := VFloat prize_total]>
        (<["buyin_total" := VFloat buyin_total]> active)
  | None => active
  end.

(** The chronological validation of [cmd_end]: [Some true] when the end is
    not after the start, [None] when the comparison raised. *)
Definition end_not_after_start (active : record) : option bool :=
  except_Exception
    (en ← getitem active "end_ts";
     e ← dt_from_iso en;
     st ← getitem active "start_ts";
     s ← dt_from_iso st;
     dt_le e s).

(** The first half of [cmd_end]: the answers of the operator, the closing
    note, the final bankroll and the end stamp are written into the draft
    in memory.  [now_ts] is the result of [iso_now()]. *)
Definition end_collect (inp : end_inputs) (now_ts : string) (active : record)
    : result (record * list message) :=
  fmt ← value_lower (or_empty (get active "format"));
  let bankroll_end := ei_bankroll_end inp in
  let '(active, errs) :=
    if String.eqb fmt "cash" then end_cash_inputs inp active
    else (active, []) in
  let active :=
    if is_mtt_or_spin fmt then end_mtt_spin_inputs inp active else active in
  active ←
    (if negb (String.eqb (ei_note_end inp) "") then
       p ← note_prefix (get_or active "note" (VStr ""));
       Ok (<["note" := VStr (p +:+ ei_note_end inp)]> active)
     else Ok active);
  let active := <["bankroll_end" := VFloat bankroll_end]> active in
  let active := <["end_ts" := VStr now_ts]> active in
  Ok (active, errs).

(** The second half of [cmd_end]: metrics, the CSV row, the draft file. *)
Definition end_finish (st : store) (errs : list message) (active : record)
    : outcome :=
  match compute_metrics active with
  | Raise e => {| status := Raise e; stderr := errs; final := st |}
  | Ok session =>
      {| status := Ok 0;
         stderr := errs;
         final := clear_active (append_row st session) |}
  end.

(** [cmd_end] *)
Definition cmd_end (inp : end_inputs) (now_ts : string) (st : store)
    : outcome :=
  let '(active, errs) := load_active st in
  if negb (dict_truthy active) then
    {| status := Ok 2; stderr := errs ++ [MsgNoActive]; final := st |}
  else
    match end_collect inp now_ts (default ∅ active) with
    | Raise e => {| status := Raise e; stderr := errs; final := st |}
    | Ok (active, errs') =>
        let errs := errs ++ errs' in
        match end_not_after_start active with
        | Some true =>
            {| status := Ok 2;
               stderr := errs ++ [MsgEndNotAfterStart];
               final := st |}
        | _ => end_finish st errs active
        end
    end.

End Commands.

(** How the operator gave the time of a one-shot session: clock times on
    the session date (the results of [parse_time_hh_mm], [None] when one of
    them did not parse), or a duration counted back from [now]. *)
Inductive time_entry : Type :=
| ByTimes (times : option ((Z * Z) * (Z * Z)))
| ByDuration (dur_min : Z) (now : datetime).

(** The answers to the prompts of [log]; [li_date] is the result of
    [parse_date_yyyy_mm_dd] as an ordinal, [None] when it raised. *)
Record log_inputs : Type := {
  li_format : string;
  li_stake : string;
  li_currency : string;
  li_date : option Z;
  li_time : time_entry;
  li_bankroll_start : float;
  li_bankroll_end : float;
  li_tables : option Z;
  li_note : string;
  li_hands : option Z;
  li_bb_value : option float;
  li_buyin_prize : option (float * float)
}.

(** [dt + timedelta(microseconds=us)] *)
Definition add_us (dt : datetime) (us : Z) : result datetime :=
  let w := wall_us dt + us in
  if (MINORDINAL <=? w / US_PER_DAY) && (w / US_PER_DAY <=? MAXORDINAL)
  then Ok {| wall_us := w; utcoffset := utcoffset dt |}
  else Raise OverflowError.

Section OneShot.
Context `{RT : PyRuntime}.

(** The start and end stamps and the duration of a one-shot session given
    by clock times on day [d]. *)
Definition log_times (d sh sm eh em : Z) : result (string * string * Z) :=
  let start_dt := mk_datetime d sh sm 0 in
  let end_dt := mk_datetime d eh em 0 in
  crossed ← dt_le end_dt start_dt;
  end_dt ← (if crossed : bool then add_days end_dt 1 else Ok end_dt);
  let start_ts := isoformat start_dt in
  let end_ts := isoformat end_dt in
  dur_min ← duration_minutes (VStr start_ts) (VStr end_ts);
  Ok (start_ts, end_ts, dur_min).

(** The same for a session given by its duration. *)
Definition log_duration (dur_min : Z) (now : datetime)
    : result (string * string * Z) :=
  let end_dt := now in
  start_dt ← add_us end_dt (- (dur_min * 60 * US_PER_SECOND));
  Ok (isoformat start_dt, isoformat end_dt, dur_min).

(** [cmd_log] *)
Definition cmd_log (inp : log_inputs) (uuid : string) (st : store) : outcome :=
  let fmt := li_format inp in
  match li_date inp with
  | None => {| status := Ok 2; stderr := [MsgBadDate]; final := st |}
  | Some d =>
      let stamps :=
        match li_time inp with
        | ByTimes None => Ok None
        | ByTimes (Some ((sh, sm), (eh, em))) =>
            t ← log_times d sh sm eh em; Ok (Some t)
        | ByDuration dur_min now =>
            t ← log_duration dur_min now; Ok (Some t)
        end in
      match stamps with
      | Raise e => {| status := Raise e; stderr := []; final := st |}
      | Ok None => {| status := Ok 2; stderr := [MsgBadTime]; final := st |}
      | Ok (Some (start_ts, end_ts, dur_min)) =>
          let session : record :=
            list_to_map
              [("id", VStr uuid);
               ("poker_room", VStr POKER_ROOM);
               ("format", VStr fmt);
               ("stake", VStr (li_stake inp));
               ("currency", VStr (upper (li_currency inp)));
               ("start_ts", VStr start_ts);
               ("end_ts", VStr end_ts);
               ("duration_min", VInt dur_min);
               ("bankroll_start", VFloat (li_bankroll_start inp));
               ("bankroll_end", VFloat (li_bankroll_end inp));
               ("profit", VStr "");
               ("tables", match li_tables inp with
                          | Some t => VStr (pretty t)
                          | None => VStr ""
                          end);
               ("note", VStr (li_note inp));
               ("hands", VStr "");
               ("bb_value", VStr "");
               ("bb_profit", VStr "");
               ("bb_per_100", VStr "");
               ("buyin_total", VStr "");
               ("prize_total", VStr "");
               ("roi", VStr "")] in
          let session :=
            if String.eqb fmt "cash" then
              let session :=
                match li_hands inp with
                | Some hands => <["hands" := VInt hands]> session
                | None => session
                end in
              match li_bb_value inp with
              | Some bb_value =>
                  if (0 <? bb_value)%float
                  then <["bb_value" := VFloat bb_value]> session
                  else session
              | None => session
              end
            else session in
          let session :=
            if is_mtt_or_spin fmt then
              match li_buyin_prize inp with
              | Some (buyin_total, prize_total) =>
                  <["prize_total" := VFloat prize_total]>
                    (<["buyin_total" := VFloat buyin_total]> session)
              | None => session
              end
            else session in
          match compute_metrics session with
          | Raise e => {| status := Raise e; stderr := []; final := st |}
          | Ok session =>
              {| status := Ok 0; stderr := []; final := append_row st session |}
          end
      end
  end.

End OneShot.

(** ** Aggregation *)

(** The per-format accumulator of [cmd_stats]. *)
Record agg : Type := {
  ag_sessions : Z;
  ag_profit : float;
  ag_minutes : Z;
  ag_hands : Z;
  ag_bb_profit : float;
  ag_buyin : float;
  ag_prize : float
}.

Definition agg_zero : agg :=
  {| ag_sessions := 0; ag_profit := 0; ag_minutes := 0; ag_hands := 0;
     ag_bb_profit := 0; ag_buyin := 0; ag_prize := 0 |}.

(** The running totals of the aggregation loop. *)
Record totals : Type := {
  total_profit : float;
  total_minutes : Z;
  ag : gmap string agg
}.

Definition totals_zero : totals :=
  {| total_profit := 0; total_minutes := 0;
     ag := list_to_map (map (fun f => (f, agg_zero)) FORMATS) |}.

(** [n or 0] for an optional int. *)
Definition int_or_zero (n : option Z) : Z := default 0 n.

Section Stats.
Context `{RT : PyRuntime}.

(** Whether the filter loop of [cmd_stats] keeps a row. *)
Definition keeps_row (fmt_filter : option string) (from_d to_d : option Z)
    (r : record) : result bool :=
  other_format ←
    match fmt_filter with
    | Some f =>
        if String.eqb f "" then Ok false
        else
          fmt ← value_lower (get_or r "format" (VStr ""));
          Ok (negb (String.eqb fmt f))
    | None => Ok false
    end;
  if other_format : bool then Ok false
  else
    match except_Exception (dt_from_iso (get_or r "start_ts" (VStr ""))) with
    | None => Ok false
    | Some dt =>
        let d := toordinal dt in
        if match from_d with Some f => d <? f | None => false end then Ok false
        else if match to_d with Some t => t <? d | None => false end
        then Ok false
        else Ok true
    end.

Fixpoint filter_rows (fmt_filter : option string) (from_d to_d : option Z)
    (rows : list record) : result (list record) :=
  match rows with
  | [] => Ok []
  | r :: rows' =>
      keep ← keeps_row fmt_filter from_d to_d r;
      filt ← filter_rows fmt_filter from_d to_d rows';
      Ok (if keep : bool then r :: filt else filt)
  end.

(** One round of the aggregation loop. *)
Definition aggregate_row (t : totals) (r : record) : result totals :=
  fmt ← value_lower (or_empty (get r "format"));
  let profit := PyFloat.or_zero (_to_float (get r "profit")) in
  dur ← _to_int (get r "duration_min");
  let dur := int_or_zero dur in
  let total_profit := (total_profit t + profit)%float in
  let total_minutes := total_minutes t + dur in
  let ag :=
    alter (fun a =>
      {| ag_sessions := ag_sessions a + 1;
         ag_profit := (ag_profit a + profit)%float;
         ag_minutes := ag_minutes a + dur;
         ag_hands := ag_hands a; ag_bb_profit := ag_bb_profit a;
         ag_buyin := ag_buyin a; ag_prize := ag_prize a |}) fmt (ag t) in
  ag ←
    (if String.eqb fmt "cash" then
       hands ← _to_int (get r "hands");
       let hands := int_or_zero hands in
       let bb_profit := PyFloat.or_zero (_to_float (get r "bb_profit")) in
       Ok (alter (fun a =>
             {| ag_sessions := ag_sessions a; ag_profit := ag_profit a;
                ag_minutes := ag_minutes a;
                ag_hands := ag_hands a + hands;
                ag_bb_profit := (ag_bb_profit a + bb_profit)%float;
                ag_buyin := ag_buyin a; ag_prize := ag_prize a |}) "cash" ag)
     else Ok ag);
  let ag :=
    if is_mtt_or_spin fmt then
      let buyin := PyFloat.or_zero (_to_float (get r "buyin_total")) in
      let prize := PyFloat.or_zero (_to_float (get r "prize_total")) in
      alter (fun a =>
        {| ag_sessions := ag_sessions a; ag_profit := ag_profit a;
           ag_minutes := ag_minutes a; ag_hands := ag_hands a;
           ag_bb_profit := ag_bb_profit a;
           ag_buyin := (ag_buyin a + buyin)%float;
           ag_prize := (ag_prize a + prize)%float |}) fmt ag
    else ag in
  Ok {| total_profit := total_profit; total_minutes := total_minutes;
        ag := ag |}.

(** The aggregation loop over the filtered rows. *)
Fixpoint aggregate (t : totals) (filt : list record) : result totals :=
  match filt with
  | [] => Ok t
  | r :: filt' => t' ← aggregate_row t r; aggregate t' filt'
  end.

(** The bb/100 of the cash breakdown. *)
Definition breakdown_bb100 (a : agg) : result (option float) :=
  let hands := ag_hands a in
  let bb_profit := ag_bb_profit a in
  if 0 <? hands then
    q ← PyFloat.truediv_int bb_profit hands; Ok (Some (q * 100)%float)
  else Ok None.

(** The ROI of the mtt and spin breakdowns. *)
Definition breakdown_roi (a : agg) : result (option float) :=
  let buyin := ag_buyin a in
  let prize := ag_prize a in
  let profit_from_totals := (prize - buyin)%float in
  if (0 <? buyin)%float then
    q ← PyFloat.truediv profit_from_totals buyin; Ok (Some (q * 100)%float)
  else Ok None.

(** [minutes / 60.0 if minutes else 0.0] *)
Definition hours_of (minutes : Z) : result float :=
  if minutes =? 0 then Ok 0%float
  else m ← PyFloat.float_of_int minutes; PyFloat.truediv m 60.

(** [profit / hours if hours > 0 else None] *)
Definition per_hour (profit hours : float) : result (option float) :=
  if (0 <? hours)%float then
    q ← PyFloat.truediv profit hours; Ok (Some q)
  else Ok None.

(** What the breakdown reports for one format; [fg_rate] is the bb/100
    of the cash format and the ROI of the others. *)
Record figures : Type := {
  fg_sessions : Z;
  fg_profit : float;
  fg_minutes : Z;
  fg_per_hour : option float;
  fg_rate : option float
}.

(** One round of the breakdown loop of [cmd_stats], for format [f] of
    [FORMATS]: nothing when no row of that format was counted. *)
Definition breakdown (t : totals) (f : string) : result (option figures) :=
  a ← match ag t !! f with
      | Some a => Ok a
      | None => Raise KeyError
      end;
  let s := ag_sessions a in
  if s =? 0 then Ok None
  else
    let minutes := ag_minutes a in
    hours ← hours_of minutes;
    let prof := ag_profit a in
    pph_f ← per_hour prof hours;
    rate ← (if String.eqb f "cash" then breakdown_bb100 a
            else if is_mtt_or_spin f then breakdown_roi a
            else Ok None);
    Ok (Some {| fg_sessions := s; fg_profit := prof; fg_minutes := minutes;
                fg_per_hour := pph_f; fg_rate := rate |}).

End Stats.

(** ** A concrete runtime: the parsers on ASCII text

    [float(s)] on ASCII input: surrounding white space, an optional sign,
    then [inf], [infinity] or [nan] in any case, or a decimal number whose
    digits may be grouped by single underscores, with an optional
    exponent.  [fromisoformat] on the stamps the tracker writes itself,
    [YYYY-MM-DDTHH:MM:SS]. *)

Module Ascii_runtime.

Definition is_space (c : ascii) : bool :=
  let n := N_of_ascii c in
  (((9 <=? n) && (n <=? 13)) || ((28 <=? n) && (n <=? 32)))%N.

Definition is_digit (c : ascii) : bool :=
  let n := N_of_ascii c in ((48 <=? n) && (n <=? 57))%N.

Definition digit_val (c : ascii) : Z := Z.of_N (N_of_ascii c) - 48.

Fixpoint lstrip (s : list ascii) : list ascii :=
  match s with
  | c :: s' => if is_space c then lstrip s' else s
  | [] => []
  end.

Definition strip (s : list ascii) : list ascii :=
  rev (lstrip (rev (lstrip s))).

(** The digits after the first one of a [digitpart]: [(["_"] digit)*].
    Returns the value, the number of digits read and the rest. *)
Fixpoint more_digits (s : list ascii) (acc : Z) (n : Z)
    : Z * Z * list ascii :=
  match s with
  | c :: s' =>
      if is_digit c then more_digits s' (acc * 10 + digit_val c) (n + 1)
      else if Ascii.eqb c "_" then
        match s' with
        | c' :: s'' =>
            if is_digit c'
            then more_digits s'' (acc * 10 + digit_val c') (n + 1)
            else (acc, n, s)
        | [] => (acc, n, s)
        end
      else (acc, n, s)
  | [] => (acc, n, s)
  end.

(** [digitpart ::= digit (["_"] digit)*], continuing the value [acc]. *)
Definition digitpart (s : list ascii) (acc : Z) : option (Z * Z * list ascii) :=
  match s with
  | c :: s' =>
      if is_digit c then Some (more_digits s' (acc * 10 + digit_val c) 1)
      else None
  | [] => None
  end.

(** [number ::= [digitpart] "." digitpart | digitpart ["."]]: the digits as
    one integer and the count of those after the point. *)
Definition number (s : list ascii) : option (Z * Z * list ascii) :=
  match digitpart s 0 with
  | Some (ip, _, rest) =>
      match rest with
      | c :: rest' =>
          if Ascii.eqb c "." then
            match digitpart rest' ip with
            | Some (m, nfrac, rest'') => Some (m, nfrac, rest'')
            | None => Some (ip, 0, rest')
            end
          else Some (ip, 0, rest)
      | [] => Some (ip, 0, rest)
      end
  | None =>
      match s with
      | c :: rest' => if Ascii.eqb c "." then digitpart rest' 0 else None
      | [] => None
      end
  end.

Definition sign (s : list ascii) : bool * list ascii :=
  match s with
  | c :: s' =>
      if Ascii.eqb c "-" then (true, s')
      else if Ascii.eqb c "+" then (false, s')
      else (false, s)
  | [] => (false, s)
  end.

(** [exponent ::= ("e" | "E") [sign] digitpart] *)
Definition exponent (s : list ascii) : option (Z * list ascii) :=
  match s with
  | [] => Some (0, [])
  | c :: s' =>
      if Ascii.eqb c "e" || Ascii.eqb c "E" then
        let '(neg, s'') := sign s' in
        match digitpart s'' 0 with
        | Some (e, _, rest) => Some (if neg then - e else e, rest)
        | None => None
        end
      else Some (0, s)
  end.

Definition parse_float (s : string) : option float :=
  let '(neg, body) := sign (strip (list_ascii_of_string s)) in
  let word := lower (string_of_list_ascii body) in
  if String.eqb word "inf" || String.eqb word "infinity"
  then Some (if neg then neg_infinity else infinity)
  else if String.eqb word "nan" then Some nan
  else
    match number body with
    | Some (m, nfrac, rest) =>
        match exponent rest with
        | Some (e, []) =>
            let e10 := e - nfrac in
            Some (if 0 <=? e10
                  then PyFloat.nearest_float neg (m * 10 ^ e10) 1
                  else PyFloat.nearest_float neg m (10 ^ (- e10)))
        | _ => None
        end
    | None => None
    end.

(** Exactly [w] digits. *)
Fixpoint digits (w : nat) (s : list ascii) (acc : Z) : option (Z * list ascii) :=
  match w with
  | O => Some (acc, s)
  | S w' =>
      match s with
      | c :: s' =>
          if is_digit c then digits w' s' (acc * 10 + digit_val c) else None
      | [] => None
      end
  end.

Definition expect (c : ascii) (s : list ascii) : option (list ascii) :=
  match s with
  | c' :: s' => if Ascii.eqb c c' then Some s' else None
  | [] => None
  end.

Definition parse_iso (s : string) : option datetime :=
  '(y, s) ← digits 4 (list_ascii_of_string s) 0;
  s ← expect "-" s;
  '(m, s) ← digits 2 s 0;
  s ← expect "-" s;
  '(d, s) ← digits 2 s 0;
  s ← expect "T" s;
  '(h, s) ← digits 2 s 0;
  s ← expect ":" s;
  '(mi, s) ← digits 2 s 0;
  s ← expect ":" s;
  '(sec, s) ← digits 2 s 0;
  match s with
  | [] =>
      if (1 <=? y) && (1 <=? m) && (m <=? 12) && (1 <=? d)
         && (d <=? days_in_month y m) && (h <=? 23) && (mi <=? 59)
         && (sec <=? 59)
      then Some (mk_datetime (ymd2ord y m d) h mi sec)
      else None
  | _ => None
  end.

#[export] Instance runtime : PyRuntime :=
  {| float_of_str := parse_float; fromisoformat := parse_iso |}.

End Ascii_runtime.

(** ** Inputs on which the computations raise no exception *)

Definition is_ok {A} (m : result A) : bool :=
  match m with Ok _ => true | Raise _ => false end.

Section Readiness.
Context `{RT : PyRuntime}.

(** The format is a string (or missing). *)
Definition format_ready (s : record) : bool :=
  is_ok (value_lower (get_or s "format" (VStr ""))).

(** The duration is given, or there are no two stamps to derive it from,
    or the stamps are readable and comparable. *)
Definition duration_ready (s : record) : bool :=
  negb (in_empty_or_None (get s "duration_min"))
  || negb (truthy (get s "start_ts") && truthy (get s "end_ts"))
  || is_ok (duration_minutes (get s "start_ts") (get s "end_ts")).

(** The hand count, when there is one, is a finite number. *)
Definition hands_ready (s : record) : bool :=
  match _to_int (get s "hands") with
  | Ok (Some n) => is_ok (PyFloat.float_of_int n)
  | Ok None => true
  | Raise _ => false
  end.

Definition metrics_ready (s : record) : bool :=
  format_ready s && duration_ready s && hands_ready s.

(** The draft has a textual (or no) format, and a textual (or no) note
    when a closing note is appended. *)
Definition end_ready (inp : end_inputs) (d : record) : bool :=
  is_ok (value_lower (or_empty (get d "format")))
  && (String.eqb (ei_note_end inp) ""
      || is_ok (note_prefix (get_or d "note" (VStr "")))).

(** A row the aggregation loop reads without an exception. *)
Definition row_ready (r : record) : bool :=
  match value_lower (or_empty (get r "format")) with
  | Ok fmt =>
      is_ok (_to_int (get r "duration_min"))
      && (if String.eqb fmt "cash" then is_ok (_to_int (get r "hands"))
          else true)
  | Raise _ => false
  end.

End Readiness.

(** ** The aggregation as the specification words it

    The ROI and the bb/100 of a format are computed from the sums of the
    raw columns over the rows of that format, in file order. *)

Section Spec_totals.
Context `{RT : PyRuntime}.

(** The format of a row, lower-cased. *)
Definition row_format (r : record) : option string :=
  except_Exception (value_lower (or_empty (get r "format"))).

Definition rows_of_format (f : string) (rows : list record) : list record :=
  filter (fun r => row_format r = Some f) rows.

Definition float_sum (l : list float) : float := fold_left PrimFloat.add l 0%float.

Definition Z_sum (l : list Z) : Z := fold_left Z.add l 0.

(** The hand count and the minutes of a row, zero when absent. *)
Definition int_field (k : string) (r : record) : Z :=
  match _to_int (get r k) with
  | Ok n => int_or_zero n
  | Raise _ => 0
  end.

Definition float_column (k : string) (rows : list record) : list float :=
  map (fun r => PyFloat.or_zero (_to_float (get r k))) rows.

Definition int_column (k : string) (rows : list record) : list Z :=
  map (int_field k) rows.

(** The accumulator of format [f] after one more row of that format. *)
Definition count_row (f : string) (a : agg) (r : record) : agg :=
  let cash := String.eqb f "cash" in
  let tourney := is_mtt_or_spin f in
  {| ag_sessions := ag_sessions a + 1;
     ag_profit := (ag_profit a + PyFloat.or_zero (_to_float (get r "profit")))%float;
     ag_minutes := ag_minutes a + int_field "duration_min" r;
     ag_hands := if cash then ag_hands a + int_field "hands" r else ag_hands a;
     ag_bb_profit :=
       if cash
       then (ag_bb_profit a + PyFloat.or_zero (_to_float (get r "bb_profit")))%float
       else ag_bb_profit a;
     ag_buyin :=
       if tourney
       then (ag_buyin a + PyFloat.or_zero (_to_float (get r "buyin_total")))%float
       else ag_buyin a;
     ag_prize :=
       if tourney
       then (ag_prize a + PyFloat.or_zero (_to_float (get r "prize_total")))%float
       else ag_prize a |}.

(** ROI = ((summed prize - summed buyin) / summed buyin) * 100 if the
    summed buyin is positive, else absent. *)
Definition spec_roi (f : string) (rows : list record) : result (option float) :=
  let summed_buyin := float_sum (float_column "buyin_total" (rows_of_format f rows)) in
  let summed_prize := float_sum (float_column "prize_total" (rows_of_format f rows)) in
  if (0 <? summed_buyin)%float then
    q ← PyFloat.truediv (summed_prize - summed_buyin) summed_buyin;
    Ok (Some (q * 100)%float)
  else Ok None.

(** bb/100 = (summed bb_profit / summed hands) * 100 if the summed hands
    are positive, else absent. *)
Definition spec_bb100 (rows : list record) : result (option float) :=
  let summed_hands := Z_sum (int_column "hands" (rows_of_format "cash" rows)) in
  let summed_bb_profit :=
    float_sum (float_column "bb_profit" (rows_of_format "cash" rows)) in
  if 0 <? summed_hands then
    q ← PyFloat.truediv_int summed_bb_profit summed_hands;
    Ok (Some (q * 100)%float)
  else Ok None.

End Spec_totals.

(** The general raw inputs of a session, which no block of
    [compute_metrics] assigns. *)
Definition RAW_KEYS : list string :=
  ["id"; "poker_room"; "format"; "stake"; "start_ts"; "end_ts";
   "bankroll_start"; "bankroll_end"; "note"].

(** ** Records that read alike

    [b] reads like [a] at key [k] when it holds the same entry, or the
    empty string where [a] holds [None] or nothing: what the closing
    normalisation of [compute_metrics] does to a record. *)
Definition reads_like (a b : record) (k : string) : Prop :=
  b !! k = a !! k \/ (is_None (get a k) = true /\ b !! k = Some (VStr "")).

(** ** Sessions used as examples *)

Module Examples.

(** A cash session: bankroll 100 to 150, 200 hands, big blind 0.10. *)
Definition cash_session : record :=
  list_to_map
    [("format", VStr "cash"); ("duration_min", VInt 90);
     ("bankroll_start", VFloat 100); ("bankroll_end", VFloat 150);
     ("hands", VInt 200);
     ("bb_value", VFloat (PyFloat.nearest_float false 1 10))].

(** A tournament session: buy-ins 10, prizes 25, while the bankroll went
    from 100 to 150. *)
Definition mtt_session : record :=
  list_to_map
    [("format", VStr "mtt"); ("duration_min", VInt 120);
     ("bankroll_start", VFloat 100); ("bankroll_end", VFloat 150);
     ("buyin_total", VFloat 10); ("prize_total", VFloat 25)].

(** A cash session whose profit is not a multiple of the big blind:
    bankroll 100 to 101, 50 hands, big blind 3. *)
Definition cash_thirds : record :=
  list_to_map
    [("format", VStr "cash"); ("duration_min", VInt 30);
     ("bankroll_start", VFloat 100); ("bankroll_end", VFloat 101);
     ("hands", VInt 50); ("bb_value", VFloat 3)].

(** A cash session for which the operator gave a zero big blind and no
    hand count, as [start] and [end] leave the record. *)
Definition cash_no_bb : record :=
  list_to_map
    [("format", VStr "cash"); ("duration_min", VInt 45);
     ("bankroll_start", VFloat 100); ("bankroll_end", VFloat 150);
     ("hands", VStr ""); ("bb_value", VFloat 0);
     ("bb_profit", VStr ""); ("bb_per_100", VStr "")].

(** An empty tracker, and the answers of an operator who starts a cash
    session and ends it with a bankroll of 150 after 200 hands. *)
Definition store_empty : store := {| active := NoFile; csv := [] |}.

Definition start_example : start_inputs :=
  {| si_format := "cash"; si_stake := "NL10"; si_currency := "usd";
     si_bankroll_start := 100; si_tables := Some 2; si_note := "" |}.

Definition end_example : end_inputs :=
  {| ei_bankroll_end := 150; ei_hands := Some 200;
     ei_bb_value := Some (PyFloat.nearest_float false 1 10);
     ei_buyin_prize := None; ei_note_end := "good table" |}.

(** The draft that [start] writes for these answers at 20:00. *)
Definition draft_example : record :=
  list_to_map
    [("id", VStr "id-1"); ("poker_room", VStr "PokerOK");
     ("format", VStr "cash"); ("stake", VStr "NL10");
     ("currency", VStr "USD"); ("start_ts", VStr "2025-12-01T20:00:00");
     ("end_ts", VStr ""); ("duration_min", VStr "");
     ("bankroll_start", VFloat 100); ("bankroll_end", VStr "");
     ("profit", VStr ""); ("tables", VInt 2); ("note", VStr "");
     ("hands", VStr ""); ("bb_value", VStr ""); ("bb_profit", VStr "");
     ("bb_per_100", VStr ""); ("buyin_total", VStr "");
     ("prize_total", VStr ""); ("roi", VStr "")].

Definition store_started : store :=
  {| active := Draft draft_example; csv := [] |}.

(** The same draft after its start stamp was damaged in the file. *)
Definition store_damaged : store :=
  {| active := Draft (<["start_ts" := VStr "yesterday evening"]> draft_example);
     csv := [] |}.

(** Two cash rows as read from the CSV file: 100 hands with 10 big blinds
    won (bb/100 of 10) and 300 hands with none won (bb/100 of 0). *)
Definition cash_rows : list record :=
  [list_to_map
     [("format", VStr "cash"); ("start_ts", VStr "2025-12-01T20:00:00");
      ("duration_min", VStr "60"); ("profit", VStr "1.0");
      ("hands", VStr "100"); ("bb_profit", VStr "10.0");
      ("bb_per_100", VStr "10.0")];
   list_to_map
     [("format", VStr "cash"); ("start_ts", VStr "2025-12-02T20:00:00");
      ("duration_min", VStr "180"); ("profit", VStr "0.0");
      ("hands", VStr "300"); ("bb_profit", VStr "0.0");
      ("bb_per_100", VStr "0.0")]].

(** The answers of an operator who logs a session from 23:00 to 01:30 on
    the last day of the calendar. *)
Definition log_last_day : log_inputs :=
  {| li_format := "cash"; li_stake := "NL10"; li_currency := "";
     li_date := Some MAXORDINAL;
     li_time := ByTimes (Some ((23, 0), (1, 30)));
     li_bankroll_start := 100; li_bankroll_end := 150;
     li_tables := None; li_note := ""; li_hands := None;
     li_bb_value := None; li_buyin_prize := None |}.

End Examples.

(** ** Further notions for the properties of the whole tracker *)

(** The keys that the blocks of [compute_metrics] assign. *)
Definition DERIVED_KEYS : list string :=
  ["duration_min"; "profit"; "bb_profit"; "bb_per_100"; "roi"; "currency"].

(** An entry after the closing normalisation: the empty string for [None]
    or nothing, the entry itself otherwise. *)
Definition normalized_entry (s : record) (k : string) : option value :=
  if is_None (get s k) then Some (VStr "") else s !! k.

(** Whether the filter loop of [cmd_stats] keeps a row, as a truth value;
    a row on which the loop raises is not kept. *)
Definition kept `{RT : PyRuntime} (fmt_filter : option string)
    (from_d to_d : option Z) (r : record) : bool :=
  match keeps_row fmt_filter from_d to_d r with
  | Ok b => b
  | Raise _ => false
  end.

(** A row passes the filters: it has the format asked for, when one is
    asked for, and a start stamp that reads as a date within the bounds. *)
Definition passes `{RT : PyRuntime} (fmt_filter : option string)
    (from_d to_d : option Z) (r : record) : Prop :=
  (forall f, fmt_filter = Some f -> f ≠ "" ->
     value_lower (get_or r "format" (VStr "")) = Ok f)
  /\ exists dt,
       dt_from_iso (get_or r "start_ts" (VStr "")) = Ok dt
       /\ (forall f, from_d = Some f -> f <= toordinal dt)
       /\ (forall t, to_d = Some t -> toordinal dt <= t).

(** The two halves of [cmd_log] by name: the stamps and the duration that
    the time entry of the operator gives on session date [d], and the
    record that the command builds from them (the general answers first,
    then those of the format) and hands to [compute_metrics]. *)
Definition log_stamps `{RT : PyRuntime} (inp : log_inputs) (d : Z)
    : result (option (string * string * Z)) :=
  match li_time inp with
  | ByTimes None => Ok None
  | ByTimes (Some ((sh, sm), (eh, em))) =>
      t ← log_times d sh sm eh em; Ok (Some t)
  | ByDuration dur_min now =>
      t ← log_duration dur_min now; Ok (Some t)
  end.

Definition log_general (inp : log_inputs) (uuid start_ts end_ts : string)
    (dur_min : Z) : record :=
  list_to_map
    [("id", VStr uuid);
     ("poker_room", VStr POKER_ROOM);
     ("format", VStr (li_format inp));
     ("stake", VStr (li_stake inp));
     ("currency", VStr (upper (li_currency inp)));
     ("start_ts", VStr start_ts);
     ("end_ts", VStr end_ts);
     ("duration_min", VInt dur_min);
     ("bankroll_start", VFloat (li_bankroll_start inp));
     ("bankroll_end", VFloat (li_bankroll_end inp));
     ("profit", VStr "");
     ("tables", match li_tables inp with
                | Some t => VStr (pretty t)
                | None => VStr ""
                end);
     ("note", VStr (li_note inp));
     ("hands", VStr "");
     ("bb_value", VStr "");
     ("bb_profit", VStr "");
     ("bb_per_100", VStr "");
     ("buyin_total", VStr "");
     ("prize_total", VStr "");
     ("roi", VStr "")].

Definition log_session (inp : log_inputs) (uuid start_ts end_ts : string)
    (dur_min : Z) : record :=
  let fmt := li_format inp in
  let session := log_general inp uuid start_ts end_ts dur_min in
  let session :=
    if String.eqb fmt "cash" then
      let session :=
        match li_hands inp with
        | Some hands => <["hands" := VInt hands]> session
        | None => session
        end in
      match li_bb_value inp with
      | Some bb_value =>
          if (0 <? bb_value)%float
          then <["bb_value" := VFloat bb_value]> session
          else session
      | None => session
      end
    else session in
  if is_mtt_or_spin fmt then
    match li_buyin_prize inp with
    | Some (buyin_total, prize_total) =>
        <["prize_total" := VFloat prize_total]>
          (<["buyin_total" := VFloat buyin_total]> session)
    | None => session
    end
  else session.

(** The same answers with another session date. *)
Definition with_date (inp : log_inputs) (d : option Z) : log_inputs :=
  {| li_format := li_format inp; li_stake := li_stake inp;
     li_currency := li_currency inp; li_date := d; li_time := li_time inp;
     li_bankroll_start := li_bankroll_start inp;
     li_bankroll_end := li_bankroll_end inp; li_tables := li_tables inp;
     li_note := li_note inp; li_hands := li_hands inp;
     li_bb_value := li_bb_value inp; li_buyin_prize := li_buyin_prize inp |}.

(** ** Durations checked second by second *)

(** The minutes that [duration_minutes] computes from a distance in
    microseconds between two stamps. *)
Definition minutes_between (td : Z) : result Z :=
  q ← PyFloat.truediv_int (total_seconds td) 60;
  mins ← PyFloat.round_int q;
  Ok (Z.max mins 0).

(** For a distance of [secs] whole seconds the minutes are the quotient
    by 60 rounded to the nearest integer, halves to the even one, and
    zero when that is negative. *)
Definition rounds_to_minute (secs : Z) : bool :=
  match minutes_between (secs * US_PER_SECOND) with
  | Ok m => m =? Z.max (PyFloat.round_half_even secs 60) 0
  | Raise _ => false
  end.

(** [p] holds on the [n] integers from [lo] on. *)
Fixpoint all_from (n : nat) (lo : Z) (p : Z -> bool) : bool :=
  match n with
  | O => true
  | S n' => p lo && all_from n' (lo + 1) p
  end.

(** ** The receipt and the status report *)

(** [v == s] for a stored value and a string literal. *)
Definition is_text (v : value) (s : string) : bool :=
  match v with
  | VStr t => String.eqb t s
  | _ => false
  end.

(** [(v or "").strip()]: only strings have the method. *)
Definition or_empty_strip (v : value) : result unit :=
  match or_empty v with
  | VStr _ => Ok tt
  | _ => Raise AttributeError
  end.

Section Reports.
Context `{RT : PyRuntime}.

(** [_print_session_receipt], as far as it can raise: the duration and,
    for a cash session, the hand count are converted by [_to_int], and the
    note is stripped; the conversions by [_to_float] and the formatting of
    the lines raise nothing. *)
Definition _print_session_receipt (session : record) : result unit :=
  let fmt := get_or session "format" (VStr "") in
  dur ← _to_int (get session "duration_min");
  _ ← (if is_text fmt "cash"
       then hands ← _to_int (get session "hands"); Ok tt
       else Ok tt);
  or_empty_strip (get session "note").

(** The minutes that [cmd_status] shows as elapsed at time [now]:
    [max(mins, 0)], where [mins] is 0 when the start stamp does not read
    or cannot be subtracted. *)
Definition status_elapsed (start_ts : value) (now : datetime) : Z :=
  let mins :=
    match (start_dt ← dt_from_iso start_ts;
           td ← dt_sub now start_dt;
           q ← PyFloat.truediv_int (total_seconds td) 60;
           PyFloat.round_int q) with
    | Ok mins => mins
    | Raise _ => 0
    end in
  Z.max mins 0.

(** What [cmd_status] prints about the draft; [x or '-'] is printed for
    the currency, the tables and the note. *)
Record status_lines : Type := {
  sl_start : value;
  sl_elapsed : Z;
  sl_format : value;
  sl_stake : value;
  sl_currency : value;
  sl_br_start : option float;
  sl_tables : value;
  sl_note : value
}.

(** [x or '-'] *)
Definition or_dash (v : value) : value := if truthy v then v else VStr "-".

(** [cmd_status]; [now] is [datetime.now().replace(microsecond=0)]. *)
Definition cmd_status (now : datetime) (st : store)
    : outcome * option status_lines :=
  let '(active, errs) := load_active st in
  if negb (dict_truthy active) then
    ({| status := Ok 0; stderr := errs; final := st |}, None)
  else
    let active := default ∅ active in
    let start_ts := get_or active "start_ts" (VStr "") in
    let fmt := get_or active "format" (VStr "") in
    let stake := get_or active "stake" (VStr "") in
    let currency := get_or active "currency" (VStr "") in
    let br_s := _to_float (get active "bankroll_start") in
    let tables := get_or active "tables" (VStr "") in
    let note := get_or active "note" (VStr "") in
    ({| status := Ok 0; stderr := errs; final := st |},
     Some {| sl_start := start_ts;
             sl_elapsed := status_elapsed start_ts now;
             sl_format := fmt; sl_stake := stake;
             sl_currency := or_dash currency;
             sl_br_start := br_s;
             sl_tables := or_dash tables;
             sl_note := or_dash note |}).

End Reports.

(** ** The [stats] command *)

(** [a / b] for two ints: the quotient is rounded once to the nearest
    float; a quotient beyond the float range raises [OverflowError]. *)
Definition int_truediv (a b : Z) : result float :=
  if b =? 0 then Raise ZeroDivisionError
  else
    let q := PyFloat.nearest_float (xorb (a <? 0) (b <? 0)) (Z.abs a) (Z.abs b) in
    if PrimFloat.is_infinity q then Raise OverflowError else Ok q.

(** The options of [stats]; an option that was not given is [None]. *)
Record stats_args : Type := {
  sa_from : option string;
  sa_to : option string;
  sa_format : option string
}.

(** Truth value of an optional string. *)
Definition given (a : option string) : bool :=
  match a with
  | Some s => negb (String.eqb s "")
  | None => false
  end.

(** What [stats] writes to standard error. *)
Inductive stats_message : Set :=
| MsgBadFrom
| MsgBadTo
| MsgBadFormat.

(** The figures that [stats] prints: the overall lines, then one
    breakdown for each format that has a session. *)
Record stats_report : Type := {
  sr_sessions : Z;
  sr_profit : float;
  sr_minutes : Z;
  sr_avg : Z;
  sr_per_hour : option float;
  sr_formats : list (string * figures)
}.

Record stats_outcome : Type := {
  so_status : Z;
  so_stderr : list stats_message;
  so_report : option stats_report
}.

Section Stats_command.
Context `{RT : PyRuntime}.

(** [parse_date_yyyy_mm_dd], as the ordinal of the date; [None] stands
    for the exception that [strptime] raises. *)
Variable parse_date_yyyy_mm_dd : string -> option Z.

(** A date bound of the filter: [Some None] when the option was not
    given, [None] when it does not parse. *)
Definition date_bound (a : option string) : option (option Z) :=
  if given a then
    match parse_date_yyyy_mm_dd (default "" a) with
    | Some d => Some (Some d)
    | None => None
    end
  else Some None.

(** [args.format.lower() if args.format else None] *)
Definition format_filter (a : option string) : option string :=
  if given a then Some (lower (default "" a)) else None.

(** [fmt_filter and fmt_filter not in FORMATS] *)
Definition unknown_format (fmt_filter : option string) : bool :=
  match fmt_filter with
  | Some f => negb (String.eqb f "") && negb (bool_decide (f ∈ FORMATS))
  | None => false
  end.

(** The breakdown loop over the formats. *)
Fixpoint breakdowns (t : totals) (fs : list string)
    : result (list (string * figures)) :=
  match fs with
  | [] => Ok []
  | f :: fs' =>
      b ← breakdown t f;
      rest ← breakdowns t fs';
      Ok (match b with Some g => (f, g) :: rest | None => rest end)
  end.

(** The figures of [stats] for the filtered rows, of which there is at
    least one. *)
Definition stats_figures (filt : list record) : result stats_report :=
  let total_sessions := Z.of_nat (length filt) in
  t ← aggregate totals_zero filt;
  total_hours ← hours_of (total_minutes t);
  pph ← per_hour (total_profit t) total_hours;
  q ← int_truediv (total_minutes t) total_sessions;
  avg ← PyFloat.round_int q;
  formats ← breakdowns t FORMATS;
  Ok {| sr_sessions := total_sessions; sr_profit := total_profit t;
        sr_minutes := total_minutes t; sr_avg := avg; sr_per_hour := pph;
        sr_formats := formats |}.

(** [cmd_stats] on the rows that [read_rows] returned. *)
Definition cmd_stats (args : stats_args) (rows : list record)
    : result stats_outcome :=
  match rows with
  | [] => Ok {| so_status := 0; so_stderr := []; so_report := None |}
  | _ =>
      match date_bound (sa_from args) with
      | None =>
          Ok {| so_status := 2; so_stderr := [MsgBadFrom]; so_report := None |}
      | Some from_d =>
          match date_bound (sa_to args) with
          | None =>
              Ok {| so_status := 2; so_stderr := [MsgBadTo];
                    so_report := None |}
          | Some to_d =>
              let fmt_filter := format_filter (sa_format args) in
              if unknown_format fmt_filter then
                Ok {| so_status := 2; so_stderr := [MsgBadFormat];
                      so_report := None |}
              else
                filt ← filter_rows fmt_filter from_d to_d rows;
                match filt with
                | [] =>
                    Ok {| so_status := 0; so_stderr := [];
                          so_report := None |}
                | _ =>
                    report ← stats_figures filt;
                    Ok {| so_status := 0; so_stderr := [];
                          so_report := Some report |}
                end
          end
      end
  end.

End Stats_command.


(** The options of [stats] are refused: a date bound that is given and
    does not parse, or a format that is given and is none of the three. *)
Definition refused (parse : string -> option Z) (args : stats_args) : Prop :=
  date_bound parse (sa_from args) = None
  \/ date_bound parse (sa_to args) = None
  \/ unknown_format (format_filter (sa_format args)) = true.

(** ** Prompts

    A command talks to the operator through [input()].  An interaction
    takes the lines that the operator is still to type and gives the
    messages written to standard error, together with the value read and
    the lines left, or with nothing when the input ended first: [input()]
    then raises [EOFError], which ends the command. *)

Inductive prompt_message : Set :=
| MsgEmptyValue
| MsgBadChoice
| MsgNotNumber
| MsgNotInteger
| MsgBelowMin
| MsgYesOrNo.

Definition console (A : Type) : Type :=
  list string -> list prompt_message * option (A * list string).

Definition console_ret {A} (a : A) : console A :=
  fun lines => ([], Some (a, lines)).

Definition console_bind {A B} (m : console A) (k : A -> console B)
    : console B :=
  fun lines =>
    match m lines with
    | (ms, Some (a, rest)) => let '(ms', r) := k a rest in (ms ++ ms', r)
    | (ms, None) => (ms, None)
    end.

(** [_print_err(m); continue]: the message, then the rest of the loop. *)
Definition again {A} (m : prompt_message)
    (r : list prompt_message * option (A * list string))
    : list prompt_message * option (A * list string) :=
  (m :: r.1, r.2).

(** The string methods and the integer parser of the interpreter:
    [str.strip], [str.lower] and [int(s)], [None] standing for the
    [ValueError] of the last. *)
Class PyText : Type := {
  strip : string -> string;
  text_lower : string -> string;
  int_of_str : string -> option Z
}.

(** A prompt that gave a value read one line for each message and one
    more, the accepted one, before the lines it left. *)
Definition reads (lines : list string) (ms : list prompt_message)
    (rest : list string) (accepted : string -> Prop) : Prop :=
  exists used line,
    lines = used ++ line :: rest /\ length used = length ms /\ accepted line.

(** The default of a prompt in place of a blank answer. *)
Definition default_or (default : option string) (raw : string) : string :=
  match default with
  | Some d => d
  | None => raw
  end.

Section Prompts.
Context `{RT : PyRuntime} `{TX : PyText}.

(** [prompt_str]: one round of the loop for each line read. *)
Fixpoint prompt_str (default : option string) (allow_empty : bool)
    (lines : list string) : list prompt_message * option (string * list string) :=
  match lines with
  | [] => ([], None)
  | line :: rest =>
      let raw := strip line in
      let raw :=
        match default with
        | Some d => if String.eqb raw "" then d else raw
        | None => raw
        end in
      if String.eqb raw "" && negb allow_empty
      then again MsgEmptyValue (prompt_str default allow_empty rest)
      else ([], Some (raw, rest))
  end.

(** [prompt_choice]; its loop and the loop of the [prompt_str] it calls
    both read one line in each round, so the two are one recursion on the
    lines. *)
Fixpoint prompt_choice (choices : list string) (default : option string)
    (lines : list string) : list prompt_message * option (string * list string) :=
  match lines with
  | [] => ([], None)
  | line :: rest =>
      let raw := strip line in
      let raw :=
        match default with
        | Some d => if String.eqb raw "" then d else raw
        | None => raw
        end in
      if String.eqb raw ""
      then again MsgEmptyValue (prompt_choice choices default rest)
      else
        let raw_l := text_lower (strip raw) in
        if bool_decide (raw_l ∈ choices) then ([], Some (raw_l, rest))
        else again MsgBadChoice (prompt_choice choices default rest)
  end.

(** [min_value is not None and val < min_value] *)
Definition below_float (min_value : option float) (val : float) : bool :=
  match min_value with
  | Some m => (val <? m)%float
  | None => false
  end.

Definition below_int (min_value : option Z) (val : Z) : bool :=
  match min_value with
  | Some m => val <? m
  | None => false
  end.

(** [prompt_float] *)
Fixpoint prompt_float (default min_value : option float)
    (lines : list string) : list prompt_message * option (float * list string) :=
  match lines with
  | [] => ([], None)
  | line :: rest =>
      let raw := strip line in
      let retry m := again m (prompt_float default min_value rest) in
      let parsed :=
        match float_of_str (replace_comma raw) with
        | Some val =>
            if below_float min_value val then retry MsgBelowMin
            else ([], Some (val, rest))
        | None => retry MsgNotNumber
        end in
      match default with
      | Some d =>
          if String.eqb raw "" then
            if below_float min_value d then retry MsgBelowMin
            else ([], Some (d, rest))
          else parsed
      | None => parsed
      end
  end.

(** [prompt_int] *)
Fixpoint prompt_int (default min_value : option Z)
    (lines : list string) : list prompt_message * option (Z * list string) :=
  match lines with
  | [] => ([], None)
  | line :: rest =>
      let raw := strip line in
      let retry m := again m (prompt_int default min_value rest) in
      let parsed :=
        match int_of_str raw with
        | Some val =>
            if below_int min_value val then retry MsgBelowMin
            else ([], Some (val, rest))
        | None => retry MsgNotInteger
        end in
      match default with
      | Some d =>
          if String.eqb raw "" then
            if below_int min_value d then retry MsgBelowMin
            else ([], Some (d, rest))
          else parsed
      | None => parsed
      end
  end.

(** [prompt_yes_no]; the Russian answers are accepted beside the English
    ones. *)
Fixpoint prompt_yes_no (default : bool) (lines : list string)
    : list prompt_message * option (bool * list string) :=
  match lines with
  | [] => ([], None)
  | line :: rest =>
      let raw := text_lower (strip line) in
      if String.eqb raw "" then ([], Some (default, rest))
      else if bool_decide (raw ∈ ["y"; "yes"; "д"; "да"])
      then ([], Some (true, rest))
      else if bool_decide (raw ∈ ["n"; "no"; "н"; "нет"])
      then ([], Some (false, rest))
      else again MsgYesOrNo (prompt_yes_no default rest)
  end.

(** The questions of [cmd_start], in the order in which it asks them. *)
Definition ask_start : console start_inputs :=
  console_bind (prompt_choice FORMATS (Some "cash")) (fun fmt =>
  console_bind (prompt_str None false) (fun stake =>
  console_bind (prompt_str (Some "") true) (fun currency =>
  console_bind (prompt_float None (Some 0%float)) (fun bankroll_start =>
  console_bind (prompt_yes_no false) (fun wants_tables =>
  console_bind
    (if wants_tables : bool
     then console_bind (prompt_int None (Some 1))
            (fun t => console_ret (Some t))
     else console_ret None) (fun tables =>
  console_bind (prompt_str (Some "") true) (fun note =>
  console_ret
    {| si_format := fmt; si_stake := stake; si_currency := currency;
       si_bankroll_start := bankroll_start; si_tables := tables;
       si_note := note |}))))))).

End Prompts.

(** The text methods on ASCII input: [strip] removes the ASCII white
    space at both ends, [lower] changes the ASCII letters, and [int]
    reads an optional sign and decimal digits. *)
Module Ascii_text.

Definition strip_text (s : string) : string :=
  string_of_list_ascii (Ascii_runtime.strip (list_ascii_of_string s)).

Fixpoint all_digits (s : list ascii) (acc : Z) : option Z :=
  match s with
  | [] => Some acc
  | c :: s' =>
      if Ascii_runtime.is_digit c
      then all_digits s' (acc * 10 + Ascii_runtime.digit_val c)
      else None
  end.

Definition parse_int (s : string) : option Z :=
  let '(neg, body) :=
    Ascii_runtime.sign (Ascii_runtime.strip (list_ascii_of_string s)) in
  match body with
  | [] => None
  | _ => n ← all_digits body 0; Some (if neg : bool then - n else n)
  end.

#[export] Instance text : PyText :=
  {| strip := strip_text; text_lower := lower; int_of_str := parse_int |}.

End Ascii_text.

(** [parse_date_yyyy_mm_dd] on the dates written with four, two and two
    digits. *)
Module Ascii_dates.

Definition parse_date (s : string) : option Z :=
  '(y, s) ← Ascii_runtime.digits 4 (list_ascii_of_string s) 0;
  s ← Ascii_runtime.expect "-" s;
  '(m, s) ← Ascii_runtime.digits 2 s 0;
  s ← Ascii_runtime.expect "-" s;
  '(d, s) ← Ascii_runtime.digits 2 s 0;
  match s with
  | [] =>
      if (1 <=? y) && (1 <=? m) && (m <=? 12) && (1 <=? d)
         && (d <=? days_in_month y m)
      then Some (ymd2ord y m d)
      else None
  | _ => None
  end.

End Ascii_dates.

Module More_examples.

(** A cash session that carries its stamps but no duration: 20:00 to
    21:30, bankroll 100 to 150. *)
Definition stamped_session : record :=
  list_to_map
    [("format", VStr "cash"); ("currency", VStr "USD");
     ("start_ts", VStr "2025-12-01T20:00:00");
     ("end_ts", VStr "2025-12-01T21:30:00");
     ("duration_min", VStr "");
     ("bankroll_start", VFloat 100); ("bankroll_end", VFloat 150);
     ("tables", VNone)].

(** The draft of the examples with a note taken at the start, and with a
    number in place of the note. *)
Definition draft_noted : record :=
  <["note" := VStr "warm-up"]> Examples.draft_example.

Definition draft_numbered : record :=
  <["note" := VInt 5]> Examples.draft_example.

(** The draft of the examples with an empty start stamp, and as a
    tournament session. *)
Definition draft_unstamped : record :=
  <["start_ts" := VStr ""]> Examples.draft_example.

Definition draft_mtt : record :=
  <["format" := VStr "mtt"]> Examples.draft_example.

(** The answers of an operator who ends a tournament session with
    buy-ins of 10 and prizes of 25. *)
Definition end_mtt : end_inputs :=
  {| ei_bankroll_end := 150; ei_hands := None; ei_bb_value := None;
     ei_buyin_prize := Some (10%float, 25%float); ei_note_end := "" |}.

(** The answers of an operator who gives a zero big blind and no closing
    note. *)
Definition end_zero_bb : end_inputs :=
  {| ei_bankroll_end := 150; ei_hands := Some 200;
     ei_bb_value := Some 0%float;
     ei_buyin_prize := None; ei_note_end := "" |}.

(** Rows as read from the CSV file: a cash row of 1 December, a
    tournament row of 2 December, a row of a format the tracker does not
    know, and a row whose start stamp was damaged. *)
Definition row_cash : record :=
  list_to_map
    [("format", VStr "cash"); ("start_ts", VStr "2025-12-01T20:00:00");
     ("duration_min", VStr "60"); ("profit", VStr "1.5");
     ("hands", VStr "100"); ("bb_profit", VStr "15.0")].

Definition row_mtt : record :=
  list_to_map
    [("format", VStr "MTT"); ("start_ts", VStr "2025-12-02T18:00:00");
     ("duration_min", VStr "180"); ("profit", VStr "-10.0");
     ("buyin_total", VStr "10.0"); ("prize_total", VStr "0.0")].

Definition row_other : record :=
  list_to_map
    [("format", VStr "sng"); ("start_ts", VStr "2025-12-03T18:00:00");
     ("duration_min", VStr "30"); ("profit", VStr "2.0")].

Definition row_damaged : record :=
  list_to_map
    [("format", VStr "cash"); ("start_ts", VStr "last week");
     ("duration_min", VStr "45"); ("profit", VStr "4.0")].

Definition mixed_rows : list record :=
  [row_cash; row_mtt; row_other; row_damaged].

(** The answers of an operator who logs two hours of cash play at 22:00
    on 1 December, under the date of 30 November. *)
Definition log_two_hours : log_inputs :=
  {| li_format := "cash"; li_stake := "NL10"; li_currency := "usd";
     li_date := Some (ymd2ord 2025 11 30);
     li_time := ByDuration 120 (mk_datetime (ymd2ord 2025 12 1) 22 0 0);
     li_bankroll_start := 100; li_bankroll_end := 150;
     li_tables := None; li_note := ""; li_hands := None;
     li_bb_value := None; li_buyin_prize := None |}.

(** Options of [stats]: a start date that is no date together with a
    format that is none of the three, and the tournaments from 2 December
    on. *)
Definition args_refused : stats_args :=
  {| sa_from := Some "yesterday"; sa_to := None; sa_format := Some "sng" |}.


(** What an operator types at the prompt for the starting bankroll, at
    the prompt for the format, and at the questions of [start]. *)
Definition typed_bankroll : list string := ["abc"; "-5"; " nan "; "100"].

Definition typed_format : list string := ["poker"; ""; " MTT "].

Definition typed_start : list string :=
  [""; ""; "NL10"; "usd"; "100,5"; "maybe"; "y"; "0"; "2"; "first"; "next"].

End More_examples.

(** The store holds a draft that the commands take for an active session:
    the file is readable and its record is not empty. *)
Definition usable_draft (st : store) : Prop :=
  exists d, active st = Draft d /\ d ≠ ∅.

(** The keys of a draft that [end] neither asks for nor computes. *)
Definition START_KEYS : list string :=
  ["id"; "poker_room"; "format"; "stake"; "start_ts"; "bankroll_start"].

(** * Properties *)

(** ** Floats and the result monad *)

Lemma float_pos_nonzero (b : float) :
  (0 <? b)%float = true -> (b =? 0)%float = false.
Proof.
  rewrite FloatAxioms.ltb_spec, FloatAxioms.eqb_spec.
  change (Prim2SF 0) with (S754_zero false).
  destruct (Prim2SF b) as [s|s| |s m e]; try destruct s; simpl;
    try discriminate; reflexivity.
Qed.

Lemma float_zero_not_pos (b : float) :
  (b =? 0)%float = true -> (0 <? b)%float = false.
Proof.
  intros H. destruct (0 <? b)%float eqn:E; [|done].
  apply float_pos_nonzero in E. congruence.
Qed.

Lemma truediv_pos (a b : float) :
  (0 <? b)%float = true -> PyFloat.truediv a b = Ok (a / b)%float.
Proof. intros H. unfold PyFloat.truediv. by rewrite float_pos_nonzero. Qed.

Lemma bind_Ok_inv {A B} (m : result A) (f : A -> result B) (b : B) :
  m ≫= f = Ok b -> exists a, m = Ok a /\ f a = Ok b.
Proof. destruct m; simpl; [eauto|discriminate]. Qed.

Lemma bind_Ok {A B} (a : A) (f : A -> result B) : Ok a ≫= f = f a.
Proof. reflexivity. Qed.

Lemma Ok_inj {A} (a b : A) : Ok a = Ok b -> a = b.
Proof. by intros [=]. Qed.

Ltac bind_inv :=
  repeat match goal with
  | H : mbind _ _ = Ok _ |- _ =>
      let a := fresh "a" in let Ha := fresh "Ha" in
      apply bind_Ok_inv in H as (a & Ha & H)
  | H : Ok _ = Ok _ |- _ => apply Ok_inj in H
  | H : Raise _ = Ok _ |- _ => discriminate H
  end.

Lemma normalize_fold_lookup (l : list string) (s : record) (k : string) :
  fold_left normalize_key l s !! k =
    if bool_decide (k ∈ l) && is_None (get s k) then Some (VStr "") else s !! k.
Proof.
  revert s. induction l as [|a l IH]; intros s; simpl; [done|].
  rewrite IH. unfold normalize_key, get.
  destruct (decide (k = a)) as [->|Hne].
  - rewrite (bool_decide_eq_true_2 (a ∈ a :: l)) by apply list_elem_of_here.
    destruct (s !! a) as [[]|] eqn:E; simpl; rewrite ?lookup_insert_eq, ?E; simpl;
      rewrite ?andb_false_r; try done.
    all: by destruct (bool_decide _).
  - assert (bool_decide (k ∈ a :: l) = bool_decide (k ∈ l)) as ->.
    { apply bool_decide_ext. rewrite elem_of_cons.
      split; [by intros [?|?]|by right]. }
    destruct (is_None (default VNone (s !! a))); [rewrite lookup_insert_ne by done|]; done.
Qed.

Lemma normalize_lookup (s : record) (k : string) :
  normalize_empties s !! k =
    if bool_decide (k ∈ NORMALIZED_KEYS) && is_None (get s k)
    then Some (VStr "") else s !! k.
Proof. apply normalize_fold_lookup. Qed.

Lemma normalize_lookup_other (s : record) (k : string) :
  bool_decide (k ∈ NORMALIZED_KEYS) = false ->
  normalize_empties s !! k = s !! k.
Proof. intros H. rewrite normalize_lookup. by rewrite H. Qed.

Section Metrics_facts.
Context `{RT : PyRuntime}.

Lemma fill_duration_cases (s s1 : record) :
  fill_duration s = Ok s1 ->
  s1 = s \/ exists d, in_empty_or_None (get s "duration_min") = true
                 /\ s1 = <["duration_min" := VInt d]> s.
Proof.
  unfold fill_duration.
  destruct (in_empty_or_None _) eqn:E; [|intros ->%Ok_inj; by left].
  destruct (truthy (get s "start_ts") && truthy (get s "end_ts"));
    [|intros ->%Ok_inj; by left].
  intros H. bind_inv. right. eexists. split; [done|]. by subst.
Qed.

Lemma fill_duration_lookup (s s1 : record) (k : string) :
  fill_duration s = Ok s1 -> k ≠ "duration_min" -> s1 !! k = s !! k.
Proof.
  intros H Hk. apply fill_duration_cases in H as [->|(d & _ & ->)]; [done|].
  by rewrite lookup_insert_ne.
Qed.

Lemma fill_profit_lookup fmt bu pr bs be (s : record) (k : string) :
  k ≠ "profit" -> fill_profit fmt bu pr bs be s !! k = s !! k.
Proof.
  intros Hk. unfold fill_profit.
  destruct (is_mtt_or_spin fmt), bu, pr, bs, be; by rewrite ?lookup_insert_ne.
Qed.

Lemma fill_cash_lookup fmt (s s' : record) (k : string) :
  fill_cash fmt s = Ok s' -> k ≠ "bb_profit" -> k ≠ "bb_per_100" ->
  s' !! k = s !! k.
Proof.
  unfold fill_cash. intros H Hk1 Hk2.
  destruct (String.eqb fmt "cash"); [|by bind_inv; subst].
  bind_inv.
  destruct (_to_float (get s "profit")) as [p|]; [|by bind_inv; subst].
  destruct (_to_float (get s "bb_value")) as [b|]; [|by bind_inv; subst].
  destruct (0 <? b)%float; [|by bind_inv; subst].
  bind_inv.
  destruct a as [h|]; [destruct (0 <? h)|]; bind_inv; subst;
    by rewrite ?lookup_insert_ne.
Qed.

Lemma fill_roi_lookup fmt bu (s s' : record) (k : string) :
  fill_roi fmt bu s = Ok s' -> k ≠ "roi" -> s' !! k = s !! k.
Proof.
  unfold fill_roi. intros H Hk.
  destruct (is_mtt_or_spin fmt); [|by bind_inv; subst].
  destruct bu as [b|]; [|by bind_inv; subst].
  destruct (_to_float (get s "profit")) as [p|]; [|by bind_inv; subst].
  destruct (0 <? b)%float; bind_inv; subst; by rewrite ?lookup_insert_ne.
Qed.

Lemma compute_metrics_inv (s s' : record) :
  compute_metrics s = Ok s' ->
  exists fmt s1 s3 s4,
    value_lower (get_or s "format" (VStr "")) = Ok fmt
    /\ fill_duration s = Ok s1
    /\ fill_cash fmt
         (fill_profit fmt (_to_float (get s1 "buyin_total"))
            (_to_float (get s1 "prize_total"))
            (_to_float (get s1 "bankroll_start"))
            (_to_float (get s1 "bankroll_end")) s1) = Ok s3
    /\ fill_roi fmt (_to_float (get s1 "buyin_total")) s3 = Ok s4
    /\ s' = <["currency" := or_empty (get_or s "currency" (VStr ""))]>
              (normalize_empties s4).
Proof.
  unfold compute_metrics. intros H.
  apply bind_Ok_inv in H as (fmt & Hf & H). cbv zeta in H.
  apply bind_Ok_inv in H as (s1 & H1 & H).
  apply bind_Ok_inv in H as (s3 & H3 & H).
  apply bind_Ok_inv in H as (s4 & H4 & H).
  apply Ok_inj in H as <-. by exists fmt, s1, s3, s4.
Qed.


Lemma fill_duration_get (s s1 : record) (k : string) :
  fill_duration s = Ok s1 -> k ≠ "duration_min" -> get s1 k = get s k.
Proof. intros H Hk. unfold get. by rewrite (fill_duration_lookup _ _ _ H). Qed.

Lemma fill_profit_get fmt bu pr bs be (s : record) (k : string) :
  k ≠ "profit" -> get (fill_profit fmt bu pr bs be s) k = get s k.
Proof. intros Hk. unfold get. by rewrite fill_profit_lookup. Qed.

Lemma getitem_truthy (s : record) (k : string) :
  truthy (get s k) = true -> getitem s k = Ok (get s k).
Proof. unfold get, getitem. by destruct (s !! k). Qed.

Lemma fill_duration_returns (s : record) :
  duration_ready s = true -> exists s1, fill_duration s = Ok s1.
Proof.
  unfold duration_ready, fill_duration. intros H.
  destruct (in_empty_or_None _); [|eauto].
  destruct (truthy (get s "start_ts")) eqn:Hs; [|eauto].
  destruct (truthy (get s "end_ts")) eqn:He; [|eauto].
  rewrite !getitem_truthy, !bind_Ok by done.
  destruct (duration_minutes _ _); [rewrite bind_Ok; eauto|done].
Qed.

Lemma fill_cash_returns fmt (s : record) :
  hands_ready s = true -> exists s', fill_cash fmt s = Ok s'.
Proof.
  unfold hands_ready, fill_cash. intros H.
  destruct (String.eqb fmt "cash"); [|eauto].
  destruct (_to_int _) as [[h|]|]; [| |done]; rewrite bind_Ok.
  - destruct (_to_float (get s "profit")) as [p|]; [|eauto].
    destruct (_to_float (get s "bb_value")) as [b|]; [|eauto].
    destruct (0 <? b)%float eqn:Hb; [|eauto].
    rewrite truediv_pos, bind_Ok by done.
    destruct (0 <? h) eqn:Hh; [|eauto].
    unfold PyFloat.truediv_int.
    destruct (Z.eqb_spec h 0) as [->|_]; [done|].
    destruct (PyFloat.float_of_int h); [rewrite !bind_Ok; eauto|done].
  - destruct (_to_float (get s "profit")) as [p|]; [|eauto].
    destruct (_to_float (get s "bb_value")) as [b|]; [|eauto].
    destruct (0 <? b)%float eqn:Hb; [|eauto].
    rewrite truediv_pos, bind_Ok by done. eauto.
Qed.

Lemma fill_roi_returns fmt bu (s : record) : exists s', fill_roi fmt bu s = Ok s'.
Proof.
  unfold fill_roi.
  destruct (is_mtt_or_spin fmt); [|eauto].
  destruct bu as [b|]; [|eauto].
  destruct (_to_float (get s "profit")) as [p|]; [|eauto].
  destruct (0 <? b)%float eqn:Hb; [|eauto].
  rewrite truediv_pos, bind_Ok by done. eauto.
Qed.

Lemma compute_metrics_returns (s : record) :
  metrics_ready s = true -> exists s', compute_metrics s = Ok s'.
Proof.
  unfold metrics_ready, format_ready. intros H.
  apply andb_prop in H as [H Hh]. apply andb_prop in H as [Hf Hd].
  unfold compute_metrics.
  destruct (value_lower _) as [fmt|]; [rewrite bind_Ok|done].
  destruct (fill_duration_returns s Hd) as [s1 H1]. rewrite H1, bind_Ok.
  set (s2 := fill_profit _ _ _ _ _ _).
  destruct (fill_cash_returns fmt s2) as [s3 H3].
  { unfold hands_ready, s2. rewrite fill_profit_get by done.
    by rewrite (fill_duration_get _ _ _ H1). }
  rewrite H3, bind_Ok.
  destruct (fill_roi_returns fmt (_to_float (get s1 "buyin_total")) s3) as [s4 H4].
  rewrite H4, bind_Ok. eauto.
Qed.

Lemma compute_metrics_profit (s s' : record) :
  compute_metrics s = Ok s' ->
  exists fmt,
    value_lower (get_or s "format" (VStr "")) = Ok fmt
    /\ s' !! "profit" =
         match is_mtt_or_spin fmt, _to_float (get s "buyin_total"),
               _to_float (get s "prize_total") with
         | true, Some b, Some p => Some (VFloat (PyFloat.round2 (p - b)))
         | _, _, _ =>
             match _to_float (get s "bankroll_start"),
                   _to_float (get s "bankroll_end") with
             | Some bs, Some be => Some (VFloat (PyFloat.round2 (be - bs)))
             | _, _ => s !! "profit"
             end
         end.
Proof.
  intros H.
  apply compute_metrics_inv in H as (fmt & s1 & s3 & s4 & Hf & H1 & H3 & H4 & ->).
  exists fmt. split; [done|].
  rewrite lookup_insert_ne by done.
  rewrite normalize_lookup_other by reflexivity.
  rewrite (fill_roi_lookup _ _ _ _ _ H4) by done.
  rewrite (fill_cash_lookup _ _ _ _ H3) by done.
  rewrite !(fill_duration_get _ _ _ H1) by done.
  unfold fill_profit.
  destruct (is_mtt_or_spin fmt), (_to_float (get s "buyin_total")),
    (_to_float (get s "prize_total")), (_to_float (get s "bankroll_start")),
    (_to_float (get s "bankroll_end"));
    rewrite ?lookup_insert_eq; try done; by apply (fill_duration_lookup _ _ _ H1).
Qed.

(** C1.  For a session whose lower-cased format is mtt or spin and whose
    buy-in and prize totals are both present, [compute_metrics] sets
    profit to [round(prize_total - buyin_total, 2)], whatever the bankroll
    fields hold; otherwise, when both bankroll fields are present, profit
    is [round(bankroll_end - bankroll_start, 2)]; otherwise the profit
    entry of the record is left as it was. *)
Theorem profit_rule (s : record) :
  metrics_ready s = true ->
  exists fmt s',
    value_lower (get_or s "format" (VStr "")) = Ok fmt
    /\ compute_metrics s = Ok s'
    /\ let buyin := _to_float (get s "buyin_total") in
       let prize := _to_float (get s "prize_total") in
       let br_s := _to_float (get s "bankroll_start") in
       let br_e := _to_float (get s "bankroll_end") in
       (is_mtt_or_spin fmt = true ->
        forall b p, buyin = Some b -> prize = Some p ->
          s' !! "profit" = Some (VFloat (PyFloat.round2 (p - b))))
       /\ (~ (is_mtt_or_spin fmt = true /\ is_Some buyin /\ is_Some prize) ->
           forall bs be, br_s = Some bs -> br_e = Some be ->
             s' !! "profit" = Some (VFloat (PyFloat.round2 (be - bs))))
       /\ (~ (is_mtt_or_spin fmt = true /\ is_Some buyin /\ is_Some prize) ->
           ~ (is_Some br_s /\ is_Some br_e) ->
           s' !! "profit" = s !! "profit").
Proof.
  intros Hr. destruct (compute_metrics_returns s Hr) as [s' Hs'].
  destruct (compute_metrics_profit s s' Hs') as (fmt & Hf & Hp).
  exists fmt, s'. split; [done|]. split; [done|]. cbv zeta.
  rewrite Hp. clear Hp.
  destruct (is_mtt_or_spin fmt), (_to_float (get s "buyin_total")),
    (_to_float (get s "prize_total")), (_to_float (get s "bankroll_start")),
    (_to_float (get s "bankroll_end"));
    (split; [|split]); intros; simplify_eq; try done;
    exfalso;
    match goal with
    | H : ~ _ |- _ => apply H; repeat split; try done; by eexists
    end.
Qed.
End Metrics_facts.

(** ** The cash block *)

Section Cash_facts.
Context `{RT : PyRuntime}.

(** What [compute_metrics] returns at a key that the closing
    normalisation and the currency assignment leave alone. *)
Lemma final_lookup_Some (s4 : record) (c v : value) (k : string) :
  k ≠ "currency" -> s4 !! k = Some v -> is_None v = false ->
  <["currency" := c]> (normalize_empties s4) !! k = Some v.
Proof.
  intros Hk Hv Hn. rewrite lookup_insert_ne by done.
  rewrite normalize_lookup. unfold get. rewrite Hv. simpl. rewrite Hn.
  by rewrite andb_false_r.
Qed.

Lemma final_lookup_normalized (s4 : record) (c : value) (k : string) :
  bool_decide (k ∈ NORMALIZED_KEYS) = true ->
  <["currency" := c]> (normalize_empties s4) !! k =
    if is_None (get s4 k) then Some (VStr "") else s4 !! k.
Proof.
  intros Hk. rewrite lookup_insert_ne.
  - rewrite normalize_lookup. by rewrite Hk.
  - by intros <-.
Qed.

(** The cash block when profit and a positive big blind are present. *)
Lemma fill_cash_writes (s s3 : record) (p b : float) :
  fill_cash "cash" s = Ok s3 ->
  _to_float (get s "profit") = Some p ->
  _to_float (get s "bb_value") = Some b ->
  (0 <? b)%float = true ->
  s3 !! "bb_profit" = Some (VFloat (PyFloat.round2 (p / b)))
  /\ forall h, _to_int (get s "hands") = Ok (Some h) -> 0 < h ->
       exists hf, PyFloat.float_of_int h = Ok hf
         /\ s3 !! "bb_per_100" =
              Some (VFloat (PyFloat.round2 (p / b / hf * 100))).
Proof.
  unfold fill_cash. intros H Hp Hb Hpos.
  rewrite String.eqb_refl in H. rewrite Hp, Hb, Hpos in H.
  apply bind_Ok_inv in H as (oh & Hh & H).
  rewrite truediv_pos, bind_Ok in H by done.
  destruct oh as [h|].
  - destruct (0 <? h) eqn:Hh0.
    + apply bind_Ok_inv in H as (q & Hq & H). apply Ok_inj in H as <-.
      split; [by rewrite lookup_insert_ne, lookup_insert_eq|].
      intros h' Hh' Hlt. rewrite Hh in Hh'. apply Ok_inj in Hh'.
      assert (h' = h) as -> by congruence.
      unfold PyFloat.truediv_int in Hq.
      destruct (h =? 0); [done|].
      apply bind_Ok_inv in Hq as (hf & Hf & Hq). apply Ok_inj in Hq as <-.
      exists hf. split; [done|]. by rewrite lookup_insert_eq.
    + apply Ok_inj in H as <-. split; [by rewrite lookup_insert_eq|].
      intros h' Hh' Hlt. rewrite Hh in Hh'. apply Ok_inj in Hh'.
      assert (h' = h) as -> by congruence. lia.
  - apply Ok_inj in H as <-. split; [by rewrite lookup_insert_eq|].
    intros h' Hh'. rewrite Hh in Hh'. by apply Ok_inj in Hh'.
Qed.

(** The cash block without a positive big blind writes nothing. *)
Lemma fill_cash_no_bb (fmt : string) (s s3 : record) :
  fill_cash fmt s = Ok s3 ->
  (forall b, _to_float (get s "bb_value") = Some b -> (0 <? b)%float = false) ->
  s3 = s.
Proof.
  unfold fill_cash. intros H Hb.
  destruct (String.eqb fmt "cash"); [|by apply Ok_inj in H].
  apply bind_Ok_inv in H as (oh & Hh & H).
  destruct (_to_float (get s "profit")); [|by apply Ok_inj in H].
  destruct (_to_float (get s "bb_value")) as [b|]; [|by apply Ok_inj in H].
  rewrite (Hb b eq_refl) in H. by apply Ok_inj in H.
Qed.

(** The cash block without a positive hand count leaves bb/100 alone. *)
Lemma fill_cash_no_hands (fmt : string) (s s3 : record) :
  fill_cash fmt s = Ok s3 ->
  (forall h, _to_int (get s "hands") = Ok (Some h) -> h <= 0) ->
  s3 !! "bb_per_100" = s !! "bb_per_100".
Proof.
  unfold fill_cash. intros H Hh.
  destruct (String.eqb fmt "cash"); [|by apply Ok_inj in H as <-].
  apply bind_Ok_inv in H as (oh & Hoh & H).
  destruct (_to_float (get s "profit")); [|by apply Ok_inj in H as <-].
  destruct (_to_float (get s "bb_value")) as [b|]; [|by apply Ok_inj in H as <-].
  destruct (0 <? b)%float eqn:Hb; [|by apply Ok_inj in H as <-].
  rewrite truediv_pos, bind_Ok in H by done.
  destruct oh as [h|].
  - specialize (Hh h Hoh). destruct (Z.ltb_spec 0 h); [lia|].
    apply Ok_inj in H as <-. by rewrite lookup_insert_ne.
  - apply Ok_inj in H as <-. by rewrite lookup_insert_ne.
Qed.

End Cash_facts.

(** ** No division by zero *)

Section No_zero_division.
Context `{RT : PyRuntime}.

Lemma bind_no_zero_division {A B} (m : result A) (f : A -> result B) :
  m ≠ Raise ZeroDivisionError ->
  (forall a, m = Ok a -> f a ≠ Raise ZeroDivisionError) ->
  m ≫= f ≠ Raise ZeroDivisionError.
Proof.
  destruct m as [a|e]; intros Hm Hf; [by apply Hf|].
  change (Raise (A := B) e ≠ Raise ZeroDivisionError). by intros [= ->].
Qed.

Lemma float_of_int_no_zero_division (n : Z) :
  PyFloat.float_of_int n ≠ Raise ZeroDivisionError.
Proof. unfold PyFloat.float_of_int. by destruct (is_infinity _). Qed.

Lemma truediv_int_no_zero_division (a : float) (n : Z) :
  n ≠ 0 -> PyFloat.truediv_int a n ≠ Raise ZeroDivisionError.
Proof.
  intros Hn. unfold PyFloat.truediv_int.
  destruct (Z.eqb_spec n 0); [done|].
  apply bind_no_zero_division; [apply float_of_int_no_zero_division|done].
Qed.

Lemma int_of_float_no_zero_division (x : float) :
  PyFloat.int_of_float x ≠ Raise ZeroDivisionError.
Proof. unfold PyFloat.int_of_float. by destruct (Prim2SF x). Qed.

Lemma round_int_no_zero_division (x : float) :
  PyFloat.round_int x ≠ Raise ZeroDivisionError.
Proof. unfold PyFloat.round_int. by destruct (Prim2SF x). Qed.

Lemma float_of_text_no_zero_division (v : value) :
  float_of_text v ≠ Raise ZeroDivisionError.
Proof. destruct v; simpl; try done. by destruct (float_of_str _). Qed.

Lemma to_int_no_zero_division (v : value) :
  _to_int v ≠ Raise ZeroDivisionError.
Proof.
  unfold _to_int. destruct (in_empty_or_None v); [done|].
  pose proof (float_of_text_no_zero_division v) as Hv.
  destruct (float_of_text v) as [f|e]; simpl.
  - pose proof (int_of_float_no_zero_division f) as Hf.
    destruct (PyFloat.int_of_float f) as [|[]]; simpl; done.
  - destruct e; simpl; done.
Qed.

Lemma dt_from_iso_no_zero_division (v : value) :
  dt_from_iso v ≠ Raise ZeroDivisionError.
Proof. destruct v; simpl; try done. by destruct (fromisoformat _). Qed.

Lemma duration_minutes_no_zero_division (a b : value) :
  duration_minutes a b ≠ Raise ZeroDivisionError.
Proof.
  unfold duration_minutes.
  apply bind_no_zero_division; [apply dt_from_iso_no_zero_division|intros s _].
  apply bind_no_zero_division; [apply dt_from_iso_no_zero_division|intros e _].
  apply bind_no_zero_division.
  { unfold dt_sub. by destruct (utcoffset e), (utcoffset s). }
  intros td _.
  apply bind_no_zero_division; [by apply truediv_int_no_zero_division|intros q _].
  apply bind_no_zero_division; [apply round_int_no_zero_division|done].
Qed.

Lemma fill_duration_no_zero_division (s : record) :
  fill_duration s ≠ Raise ZeroDivisionError.
Proof.
  unfold fill_duration.
  destruct (in_empty_or_None _); [|done].
  destruct (_ && _); [|done].
  apply bind_no_zero_division.
  { unfold getitem. by destruct (s !! "start_ts"). }
  intros st _. apply bind_no_zero_division.
  { unfold getitem. by destruct (s !! "end_ts"). }
  intros en _. apply bind_no_zero_division; [|done].
  apply duration_minutes_no_zero_division.
Qed.

Lemma fill_cash_no_zero_division (fmt : string) (s : record) :
  fill_cash fmt s ≠ Raise ZeroDivisionError.
Proof.
  unfold fill_cash. destruct (String.eqb fmt "cash"); [|done].
  apply bind_no_zero_division; [apply to_int_no_zero_division|intros oh _].
  destruct (_to_float (get s "profit")); [|done].
  destruct (_to_float (get s "bb_value")) as [b|]; [|done].
  destruct (0 <? b)%float eqn:Hb; [|done].
  rewrite truediv_pos, bind_Ok by done.
  destruct oh as [h|]; [|done].
  destruct (Z.ltb_spec 0 h); [|done].
  apply bind_no_zero_division; [|done].
  apply truediv_int_no_zero_division. lia.
Qed.

Lemma fill_roi_no_zero_division (fmt : string) (bu : option float) (s : record) :
  fill_roi fmt bu s ≠ Raise ZeroDivisionError.
Proof.
  unfold fill_roi. destruct (is_mtt_or_spin fmt); [|done].
  destruct bu as [b|]; [|done].
  destruct (_to_float (get s "profit")); [|done].
  destruct (0 <? b)%float eqn:Hb; [|done].
  by rewrite truediv_pos, bind_Ok.
Qed.

Lemma compute_metrics_no_zero_division (s : record) :
  compute_metrics s ≠ Raise ZeroDivisionError.
Proof.
  unfold compute_metrics.
  apply bind_no_zero_division.
  { by destruct (get_or s "format" (VStr "")). }
  intros fmt _. cbv zeta.
  apply bind_no_zero_division; [apply fill_duration_no_zero_division|].
  intros s1 _.
  apply bind_no_zero_division; [apply fill_cash_no_zero_division|].
  intros s3 _.
  apply bind_no_zero_division; [apply fill_roi_no_zero_division|done].
Qed.

End No_zero_division.

(** ** Cash metrics of [compute_metrics] *)

Section Cash_metrics.
Context `{RT : PyRuntime}.

(** The record handed to the cash block holds the raw inputs of [s] and
    the profit that [compute_metrics] returns. *)
Lemma compute_metrics_cash_view (s s' : record) :
  compute_metrics s = Ok s' ->
  exists fmt s2 s3 s4 c,
    value_lower (get_or s "format" (VStr "")) = Ok fmt
    /\ fill_cash fmt s2 = Ok s3
    /\ get s2 "hands" = get s "hands"
    /\ get s2 "bb_value" = get s "bb_value"
    /\ get s2 "profit" = get s' "profit"
    /\ s2 !! "bb_profit" = s !! "bb_profit"
    /\ s2 !! "bb_per_100" = s !! "bb_per_100"
    /\ s4 !! "bb_profit" = s3 !! "bb_profit"
    /\ s4 !! "bb_per_100" = s3 !! "bb_per_100"
    /\ s' = <["currency" := c]> (normalize_empties s4).
Proof.
  intros H.
  apply compute_metrics_inv in H
    as (fmt & s1 & s3 & s4 & Hf & H1 & H3 & H4 & ->).
  set (s2 := fill_profit _ _ _ _ _ s1) in H3.
  exists fmt, s2, s3, s4, (or_empty (get_or s "currency" (VStr ""))).
  split; [done|]. split; [exact H3|].
  assert (forall k, k ≠ "profit" -> k ≠ "duration_min" -> s2 !! k = s !! k)
    as Hframe.
  { intros k Hk1 Hk2. unfold s2.
    by rewrite fill_profit_lookup, (fill_duration_lookup _ _ _ H1). }
  unfold get. rewrite !Hframe by done.
  rewrite !(fill_roi_lookup _ _ _ _ _ H4) by done.
  repeat split; try reflexivity.
  f_equal. rewrite lookup_insert_ne by done.
  rewrite normalize_lookup_other by reflexivity.
  rewrite (fill_roi_lookup _ _ _ _ _ H4) by done.
  by rewrite (fill_cash_lookup _ _ _ _ H3).
  all: by apply Hframe.
Qed.

(** The cash metrics in a record that [compute_metrics] returned. *)
Lemma compute_metrics_cash_values (s s' : record) (p b : float) :
  compute_metrics s = Ok s' ->
  value_lower (get_or s "format" (VStr "")) = Ok "cash" ->
  _to_float (get s' "profit") = Some p ->
  _to_float (get s "bb_value") = Some b ->
  (0 <? b)%float = true ->
  s' !! "bb_profit" = Some (VFloat (PyFloat.round2 (p / b)))
  /\ forall h, _to_int (get s "hands") = Ok (Some h) -> 0 < h ->
       exists hf, PyFloat.float_of_int h = Ok hf
         /\ s' !! "bb_per_100" =
              Some (VFloat (PyFloat.round2 (p / b / hf * 100))).
Proof.
  intros Hs' Hfmt Hp Hb Hpos.
  destruct (compute_metrics_cash_view s s' Hs')
    as (fmt & s2 & s3 & s4 & c & Hf & H3 & Hh2 & Hb2 & Hp2 & _ & _ & E1 & E2 & ->).
  rewrite Hfmt in Hf. apply Ok_inj in Hf as <-.
  rewrite <- Hp2 in Hp. rewrite <- Hb2 in Hb.
  destruct (fill_cash_writes s2 s3 p b H3 Hp Hb Hpos) as [Hbp Hb100].
  split.
  - apply final_lookup_Some; [done| |done]. by rewrite E1.
  - intros h Hh Hlt. rewrite <- Hh2 in Hh.
    destruct (Hb100 h Hh Hlt) as (hf & Hhf & Hv).
    exists hf. split; [done|].
    apply final_lookup_Some; [done| |done]. by rewrite E2.
Qed.

(** C2, as the code has it.  For a cash session on which
    [compute_metrics] returns, when profit and a positive [bb_value] are
    present, [bb_profit] is [round(profit / bb_value, 2)]; when moreover a
    positive hand count is present, [bb_per_100] is
    [round(((profit / bb_value) / hands) * 100, 2)], computed from the
    unrounded quotient [profit / bb_value]. *)
Theorem cash_bb_metrics (s : record) :
  metrics_ready s = true ->
  value_lower (get_or s "format" (VStr "")) = Ok "cash" ->
  exists s',
    compute_metrics s = Ok s'
    /\ forall p b,
         _to_float (get s' "profit") = Some p ->
         _to_float (get s "bb_value") = Some b ->
         (0 <? b)%float = true ->
         s' !! "bb_profit" = Some (VFloat (PyFloat.round2 (p / b)))
         /\ forall h, _to_int (get s "hands") = Ok (Some h) -> 0 < h ->
              exists hf, PyFloat.float_of_int h = Ok hf
                /\ s' !! "bb_per_100" =
                     Some (VFloat (PyFloat.round2 (p / b / hf * 100))).
Proof.
  intros Hr Hfmt. destruct (compute_metrics_returns s Hr) as [s' Hs'].
  exists s'. split; [done|]. intros p b.
  by apply compute_metrics_cash_values.
Qed.

(** C6.  [compute_metrics] never raises [ZeroDivisionError].  For a cash
    session on which it returns: when [bb_value] is absent or zero,
    [bb_profit] and [bb_per_100] are not computed, so that an absent entry
    comes out as the empty string and any other entry is kept; likewise
    [bb_per_100] when the hand count is absent or zero. *)
Theorem bb_metrics_absent :
  (forall s : record, compute_metrics s ≠ Raise ZeroDivisionError)
  /\ forall s : record,
       metrics_ready s = true ->
       value_lower (get_or s "format" (VStr "")) = Ok "cash" ->
       exists s',
         compute_metrics s = Ok s'
         /\ (match _to_float (get s "bb_value") with
             | Some b => (b =? 0)%float = true
             | None => True
             end ->
             (s' !! "bb_profit" =
                if is_None (get s "bb_profit") then Some (VStr "")
                else s !! "bb_profit")
             /\ (s' !! "bb_per_100" =
                   if is_None (get s "bb_per_100") then Some (VStr "")
                   else s !! "bb_per_100")
             /\ (in_empty_or_None (get s "bb_profit") = true ->
                 s' !! "bb_profit" = Some (VStr ""))
             /\ (in_empty_or_None (get s "bb_per_100") = true ->
                 s' !! "bb_per_100" = Some (VStr "")))
         /\ (_to_int (get s "hands") = Ok None
             \/ _to_int (get s "hands") = Ok (Some 0) ->
             (s' !! "bb_per_100" =
                if is_None (get s "bb_per_100") then Some (VStr "")
                else s !! "bb_per_100")
             /\ (in_empty_or_None (get s "bb_per_100") = true ->
                 s' !! "bb_per_100" = Some (VStr ""))).
Proof.
  split; [apply compute_metrics_no_zero_division|].
  intros s Hr Hfmt. destruct (compute_metrics_returns s Hr) as [s' Hs'].
  exists s'. split; [done|].
  destruct (compute_metrics_cash_view s s' Hs')
    as (fmt & s2 & s3 & s4 & c & Hf & H3 & Hh2 & Hb2 & Hp2 & B1 & B2 & E1 & E2 & ->).
  assert (forall k, in_empty_or_None (get s k) = true ->
            (if is_None (get s k) then Some (VStr "") else s !! k)
            = Some (VStr "")) as Habsent.
  { intros k. unfold get. destruct (s !! k) as [[]|]; simpl; try done.
    by intros ->%String.eqb_eq. }
  split.
  - intros Hbb.
    assert (s3 = s2) as ->.
    { apply (fill_cash_no_bb _ _ _ H3). intros b Hb. rewrite Hb2 in Hb.
      rewrite Hb in Hbb. by apply float_zero_not_pos. }
    assert (s4 !! "bb_profit" = s !! "bb_profit") as G1 by congruence.
    assert (s4 !! "bb_per_100" = s !! "bb_per_100") as G2 by congruence.
    rewrite (final_lookup_normalized _ _ "bb_profit") by reflexivity.
    rewrite (final_lookup_normalized _ _ "bb_per_100") by reflexivity.
    unfold get. rewrite G1, G2. fold (get s "bb_profit") (get s "bb_per_100").
    repeat split; try done; apply Habsent.
  - intros Hh.
    assert (s3 !! "bb_per_100" = s2 !! "bb_per_100") as G.
    { apply (fill_cash_no_hands _ _ _ H3). intros h Hh'. rewrite Hh2 in Hh'.
      destruct Hh as [Hh|Hh]; rewrite Hh in Hh'; apply Ok_inj in Hh';
        [done|]. assert (h = 0) by congruence. lia. }
    assert (s4 !! "bb_per_100" = s !! "bb_per_100") as G2 by congruence.
    rewrite (final_lookup_normalized _ _ "bb_per_100") by reflexivity.
    unfold get. rewrite G2. fold (get s "bb_per_100").
    split; [done|apply Habsent].
Qed.

End Cash_metrics.


(** ** The optional-decimal parser *)

Section Parser_facts.
Context `{RT : PyRuntime}.

Lemma replace_comma_idempotent (s : string) :
  replace_comma (replace_comma s) = replace_comma s.
Proof.
  induction s as [|c s IH]; simpl; [done|]. rewrite IH. f_equal.
  unfold replace_comma_char. destruct (Ascii.eqb c ",") eqn:E; [done|].
  by rewrite E.
Qed.

Lemma replace_comma_empty (s : string) :
  String.eqb (replace_comma s) "" = String.eqb s "".
Proof. by destruct s. Qed.

(** C7.  [_to_float] reads a text with [","] as it reads the same text
    with ["."]; a text that [float] rejects gives [None], and so never
    zero; a text that [float] accepts after the replacement gives that
    number.  [_to_int] treats the separator and a rejected text alike. *)
Theorem to_float_decimal_separators :
  (forall s : string,
     _to_float (VStr s) = _to_float (VStr (replace_comma s)))
  /\ (forall s : string,
        float_of_str (replace_comma s) = None ->
        _to_float (VStr s) = None /\ _to_float (VStr s) ≠ Some 0%float)
  /\ (forall (s : string) (x : float),
        s ≠ "" -> float_of_str (replace_comma s) = Some x ->
        _to_float (VStr s) = Some x)
  /\ (forall s : string,
        _to_int (VStr s) = _to_int (VStr (replace_comma s)))
  /\ (forall s : string,
        float_of_str (replace_comma s) = None ->
        _to_int (VStr s) = Ok None).
Proof.
  split; [|split; [|split; [|split]]].
  - intros s. unfold _to_float. simpl.
    by rewrite replace_comma_empty, replace_comma_idempotent.
  - intros s Hs. unfold _to_float. simpl. rewrite Hs.
    by destruct (String.eqb s "").
  - intros s x Hne Hs. unfold _to_float. simpl. rewrite Hs.
    destruct (String.eqb_spec s ""); done.
  - intros s. unfold _to_int. simpl.
    by rewrite replace_comma_empty, replace_comma_idempotent.
  - intros s Hs. unfold _to_int. simpl. rewrite Hs.
    by destruct (String.eqb s "").
Qed.

End Parser_facts.

(** ** The session lifecycle *)

Section Lifecycle_facts.
Context `{RT : PyRuntime}.

Lemma dict_truthy_Draft (d : record) :
  d ≠ ∅ -> dict_truthy (Some d) = true.
Proof.
  intros Hd. unfold dict_truthy.
  destruct (Nat.eqb_spec (size d) 0) as [E|]; [|done].
  by apply map_size_empty_iff in E.
Qed.

(** [start] on a store that holds a draft. *)
Lemma cmd_start_active (inp : start_inputs) (uuid now_ts : string)
    (st : store) (d : record) :
  active st = Draft d -> d ≠ ∅ ->
  cmd_start inp uuid now_ts st =
    {| status := Ok 2;
       stderr := [MsgAlreadyActive; MsgRemoveActiveHint];
       final := st |}.
Proof.
  intros Ha Hd. unfold cmd_start, load_active. rewrite Ha.
  by rewrite dict_truthy_Draft.
Qed.

(** A successful [start] leaves a draft that is not empty. *)
Lemma cmd_start_creates (inp : start_inputs) (uuid now_ts : string)
    (st : store) :
  status (cmd_start inp uuid now_ts st) = Ok 0 ->
  exists d, active (final (cmd_start inp uuid now_ts st)) = Draft d /\ d ≠ ∅
            /\ csv (final (cmd_start inp uuid now_ts st)) = csv st.
Proof.
  unfold cmd_start. destruct (load_active st) as [a errs].
  destruct (dict_truthy a); [intros [=]|]. intros _.
  eexists. split; [reflexivity|]. split; [|done].
  apply insert_non_empty.
Qed.

(** C5.  On every store that holds a draft, [start] exits with status 2,
    reports that a session is already active, and leaves the draft file
    and the CSV file as they were; so a second [start] after a successful
    one fails and changes nothing. *)
Theorem start_twice_fails :
  (forall (inp : start_inputs) (uuid now_ts : string) (st : store) (d : record),
     active st = Draft d -> d ≠ ∅ ->
     let out := cmd_start inp uuid now_ts st in
     status out = Ok 2 /\ MsgAlreadyActive ∈ stderr out /\ final out = st)
  /\ (forall (inp inp' : start_inputs) (uuid now_ts uuid' now_ts' : string)
        (st : store),
        let out := cmd_start inp uuid now_ts st in
        status out = Ok 0 ->
        let out' := cmd_start inp' uuid' now_ts' (final out) in
        status out' = Ok 2 /\ MsgAlreadyActive ∈ stderr out'
        /\ final out' = final out).
Proof.
  split.
  - intros inp uuid now_ts st d Ha Hd. cbv zeta.
    rewrite (cmd_start_active _ _ _ _ d Ha Hd). simpl.
    split; [done|]. split; [|done]. apply list_elem_of_here.
  - intros inp inp' uuid now_ts uuid' now_ts' st. cbv zeta. intros Hok.
    destruct (cmd_start_creates _ _ _ _ Hok) as (d & Ha & Hd & _).
    rewrite (cmd_start_active _ _ _ _ d Ha Hd). simpl.
    split; [done|]. split; [|done]. apply list_elem_of_here.
Qed.

Lemma end_cash_inputs_lookup (inp : end_inputs) (d : record) (k : string) :
  k ≠ "hands" -> k ≠ "bb_value" ->
  (end_cash_inputs inp d).1 !! k = d !! k.
Proof.
  intros H1 H2. unfold end_cash_inputs.
  destruct (ei_hands inp), (ei_bb_value inp) as [b|];
    try destruct (b =? 0)%float; simpl; by rewrite ?lookup_insert_ne.
Qed.

Lemma end_cash_inputs_messages (inp : end_inputs) (d : record) :
  MsgEndNotAfterStart ∉ (end_cash_inputs inp d).2.
Proof.
  unfold end_cash_inputs.
  destruct (ei_bb_value inp) as [b|]; [destruct (b =? 0)%float|]; simpl;
    try apply not_elem_of_nil.
  by intros [[=]|[]%elem_of_nil]%elem_of_cons.
Qed.

Lemma end_mtt_spin_inputs_lookup (inp : end_inputs) (d : record) (k : string) :
  k ≠ "buyin_total" -> k ≠ "prize_total" ->
  end_mtt_spin_inputs inp d !! k = d !! k.
Proof.
  intros H1 H2. unfold end_mtt_spin_inputs.
  destruct (ei_buyin_prize inp) as [[]|]; by rewrite ?lookup_insert_ne.
Qed.

(** What the first half of [end] returns: the draft with some of
    [END_KEYS] rewritten, the end stamp among them. *)
Lemma end_collect_returns (inp : end_inputs) (now_ts : string) (d : record) :
  end_ready inp d = true ->
  exists a errs,
    end_collect inp now_ts d = Ok (a, errs)
    /\ a !! "end_ts" = Some (VStr now_ts)
    /\ (forall k, bool_decide (k ∈ END_KEYS) = false -> a !! k = d !! k)
    /\ MsgEndNotAfterStart ∉ errs.
Proof.
  unfold end_ready, end_collect. intros Hr.
  apply andb_prop in Hr as [Hf Hn].
  destruct (value_lower _) as [fmt|]; [rewrite bind_Ok|done].
  pose proof (end_cash_inputs_lookup inp d) as Hc.
  pose proof (end_cash_inputs_messages inp d) as Hm.
  set (ce := if String.eqb fmt "cash" then end_cash_inputs inp d else (d, [])).
  assert (forall k, k ≠ "hands" -> k ≠ "bb_value" -> ce.1 !! k = d !! k) as Hc'.
  { unfold ce. destruct (String.eqb fmt "cash"); [done|]. done. }
  assert (MsgEndNotAfterStart ∉ ce.2) as Hm'.
  { unfold ce. destruct (String.eqb fmt "cash"); [done|]. apply not_elem_of_nil. }
  clearbody ce. clear Hc Hm. destruct ce as [a1 errs]. simpl in Hc', Hm'.
  set (a2 := if is_mtt_or_spin fmt then end_mtt_spin_inputs inp a1 else a1).
  assert (forall k, k ≠ "hands" -> k ≠ "bb_value" -> k ≠ "buyin_total" ->
            k ≠ "prize_total" -> a2 !! k = d !! k) as H2.
  { intros k ? ? ? ?. unfold a2. destruct (is_mtt_or_spin fmt);
      rewrite ?end_mtt_spin_inputs_lookup by done; by apply Hc'. }
  clearbody a2.
  assert (note_ok : exists a3,
    (if negb (String.eqb (ei_note_end inp) "")
     then p ← note_prefix (get_or a2 "note" (VStr ""));
          Ok (<["note" := VStr (p +:+ ei_note_end inp)]> a2)
     else Ok a2) = Ok a3
    /\ forall k, k ≠ "note" -> a3 !! k = a2 !! k).
  { destruct (String.eqb (ei_note_end inp) ""); simpl in *; [by exists a2|].
    assert (get_or a2 "note" (VStr "") = get_or d "note" (VStr "")) as ->.
    { unfold get_or. by rewrite H2. }
    destruct (note_prefix _) as [p|]; [|done]. rewrite bind_Ok.
    eexists. split; [done|]. intros k Hk. by rewrite lookup_insert_ne. }
  destruct note_ok as (a3 & -> & H3). rewrite bind_Ok.
  eexists _, _. split; [done|]. split; [by rewrite lookup_insert_eq|].
  split; [|done]. intros k Hk.
  assert (k ≠ "hands" /\ k ≠ "bb_value" /\ k ≠ "buyin_total"
          /\ k ≠ "prize_total" /\ k ≠ "note" /\ k ≠ "bankroll_end"
          /\ k ≠ "end_ts") as (? & ? & ? & ? & ? & ? & ?).
  { repeat split; intros ->; vm_compute in Hk; discriminate Hk. }
  rewrite !lookup_insert_ne by done. rewrite H3 by done. by apply H2.
Qed.

Lemma dt_from_iso_Some (t : string) (dt : datetime) :
  fromisoformat t = Some dt -> dt_from_iso (VStr t) = Ok dt.
Proof. intros H. simpl. by rewrite H. Qed.

Lemma dt_from_iso_None (t : string) :
  fromisoformat t = None -> dt_from_iso (VStr t) = Raise ValueError.
Proof. intros H. simpl. by rewrite H. Qed.

(** Nothing is written to either file unless [end] succeeds. *)
Lemma cmd_end_failure_keeps_store (inp : end_inputs) (now_ts : string)
    (st : store) :
  status (cmd_end inp now_ts st) ≠ Ok 0 -> final (cmd_end inp now_ts st) = st.
Proof.
  unfold cmd_end. destruct (load_active st) as [a errs].
  destruct (negb (dict_truthy a)); [done|].
  destruct (end_collect _ _ _) as [[a' errs']|]; [|done].
  unfold end_finish.
  destruct (end_not_after_start a') as [[]|]; try done;
    destruct (compute_metrics a'); done.
Qed.

(** C4.  When the end stamp taken by [end] is not after the start stamp
    of the draft, [end] exits with status 2 and reports the invalid
    range; the draft file still holds the draft and the CSV file has no new
    row. *)
Theorem end_rejects_time_range (inp : end_inputs) (now_ts start_text : string)
    (st : store) (d : record) (start_dt end_dt : datetime) :
  active st = Draft d -> d ≠ ∅ ->
  end_ready inp d = true ->
  d !! "start_ts" = Some (VStr start_text) ->
  fromisoformat start_text = Some start_dt ->
  fromisoformat now_ts = Some end_dt ->
  dt_le end_dt start_dt = Ok true ->
  let out := cmd_end inp now_ts st in
  status out = Ok 2
  /\ MsgEndNotAfterStart ∈ stderr out
  /\ active (final out) = Draft d
  /\ csv (final out) = csv st.
Proof.
  intros Ha Hd Hr Hst Hs He Hle. cbv zeta.
  destruct (end_collect_returns inp now_ts d Hr) as (a & errs & Hc & Hend & Hk & _).
  unfold cmd_end, load_active. rewrite Ha.
  rewrite dict_truthy_Draft by done. simpl negb. cbv iota.
  change (default ∅ (Some d)) with d. rewrite Hc.
  assert (end_not_after_start a = Some true) as ->.
  { unfold end_not_after_start, getitem. rewrite Hend, bind_Ok.
    rewrite (dt_from_iso_Some _ _ He), bind_Ok.
    rewrite (Hk "start_ts") by reflexivity. rewrite Hst, bind_Ok.
    rewrite (dt_from_iso_Some _ _ Hs), bind_Ok. by rewrite Hle. }
  simpl. repeat split; try done. apply elem_of_app. right.
  apply list_elem_of_here.
Qed.

(** [end] when the start stamp of the draft cannot be read. *)
Lemma cmd_end_unreadable_start (inp : end_inputs) (now_ts : string)
    (st : store) (d : record) :
  active st = Draft d -> d ≠ ∅ ->
  end_ready inp d = true ->
  (d !! "start_ts" = None
   \/ exists v e, d !! "start_ts" = Some v /\ dt_from_iso v = Raise e) ->
  exists a errs,
    end_collect inp now_ts d = Ok (a, errs)
    /\ (MsgEndNotAfterStart ∉ errs)
    /\ end_not_after_start a = None
    /\ cmd_end inp now_ts st = end_finish st errs a.
Proof.
  intros Ha Hd Hr Hst.
  destruct (end_collect_returns inp now_ts d Hr) as (a & errs & Hc & Hend & Hk & Hm).
  exists a, errs. split; [done|]. split; [done|].
  assert (end_not_after_start a = None) as Hskip.
  { unfold end_not_after_start, getitem. rewrite Hend, bind_Ok.
    destruct (dt_from_iso (VStr now_ts)); [rewrite bind_Ok|done].
    rewrite (Hk "start_ts") by reflexivity.
    destruct Hst as [->|(v & e & -> & Hv)]; [done|].
    by rewrite bind_Ok, Hv. }
  split; [done|].
  unfold cmd_end, load_active. rewrite Ha.
  rewrite dict_truthy_Draft by done. simpl negb. cbv iota.
  change (default ∅ (Some d)) with d. by rewrite Hc, Hskip.
Qed.

(** C10.  When the start stamp of the draft is missing or does not read
    as a stamp, the comparison of the stamps is skipped: [end] goes on to
    the metrics and to the files, does not exit with status 2 and does not
    report an invalid range. *)
Theorem end_skips_validation (inp : end_inputs) (now_ts : string)
    (st : store) (d : record) :
  active st = Draft d -> d ≠ ∅ ->
  end_ready inp d = true ->
  (d !! "start_ts" = None
   \/ exists v e, d !! "start_ts" = Some v /\ dt_from_iso v = Raise e) ->
  exists a errs,
    end_collect inp now_ts d = Ok (a, errs)
    /\ end_not_after_start a = None
    /\ cmd_end inp now_ts st = end_finish st errs a
    /\ status (cmd_end inp now_ts st) ≠ Ok 2
    /\ MsgEndNotAfterStart ∉ stderr (cmd_end inp now_ts st).
Proof.
  intros Ha Hd Hr Hst.
  destruct (cmd_end_unreadable_start inp now_ts st d Ha Hd Hr Hst)
    as (a & errs & Hc & Hm & Hskip & ->).
  exists a, errs. repeat (split; [done|]). unfold end_finish.
  destruct (compute_metrics a); simpl; by split.
Qed.

(** What going on means for a draft of [start] whose start stamp was
    damaged: the duration block cannot read it either, and [end] stops
    with the [ValueError], the files untouched. *)
Lemma end_unreadable_start_raises (inp : end_inputs) (now_ts start_text : string)
    (st : store) (d : record) :
  active st = Draft d -> d ≠ ∅ ->
  end_ready inp d = true ->
  d !! "start_ts" = Some (VStr start_text) ->
  start_text ≠ "" -> now_ts ≠ "" ->
  fromisoformat start_text = None ->
  in_empty_or_None (get d "duration_min") = true ->
  (exists fmt, value_lower (get_or d "format" (VStr "")) = Ok fmt) ->
  status (cmd_end inp now_ts st) = Raise ValueError
  /\ final (cmd_end inp now_ts st) = st.
Proof.
  intros Ha Hd Hr Hst Hne Hnow Hs Hdur [fmt Hfmt].
  destruct (cmd_end_unreadable_start inp now_ts st d Ha Hd Hr)
    as (a & errs & Hc & _ & _ & ->).
  { right. exists (VStr start_text), ValueError. split; [done|].
    by apply dt_from_iso_None. }
  destruct (end_collect_returns inp now_ts d Hr) as (a' & errs' & Hc' & Hend & Hk & _).
  rewrite Hc in Hc'. apply Ok_inj in Hc'.
  assert (a' = a) as -> by (by apply (f_equal fst) in Hc').
  unfold end_finish.
  assert (compute_metrics a = Raise ValueError) as ->; [|done].
  unfold compute_metrics, get_or.
  rewrite (Hk "format") by reflexivity. fold (get_or d "format" (VStr "")).
  rewrite Hfmt, bind_Ok. cbv zeta.
  assert (fill_duration a = Raise ValueError) as ->; [|done].
  unfold fill_duration, get, getitem.
  rewrite (Hk "duration_min"), (Hk "start_ts") by reflexivity.
  fold (get d "duration_min"). rewrite Hdur, Hst, Hend. simpl.
  destruct (String.eqb_spec start_text ""); [done|].
  destruct (String.eqb_spec now_ts ""); [done|]. simpl.
  unfold duration_minutes. by rewrite (dt_from_iso_None _ Hs).
Qed.

End Lifecycle_facts.

(** ** The aggregation loop *)

Section Stats_facts.
Context `{RT : PyRuntime}.

Lemma row_format_Ok (r : record) (fmt : string) :
  value_lower (or_empty (get r "format")) = Ok fmt -> row_format r = Some fmt.
Proof. intros H. unfold row_format. by rewrite H. Qed.

(** One round of the loop counts the row in the accumulator of its
    format and leaves the others alone. *)
Lemma aggregate_row_counts (t : totals) (r : record) :
  row_ready r = true ->
  exists t',
    aggregate_row t r = Ok t'
    /\ forall f, ag t' !! f =
         if decide (row_format r = Some f)
         then (fun a => count_row f a r) <$> ag t !! f
         else ag t !! f.
Proof.
  unfold row_ready, aggregate_row. intros Hr.
  destruct (value_lower _) as [fmt|] eqn:Hf; [|done]. rewrite bind_Ok.
  rewrite (row_format_Ok _ _ Hf).
  apply andb_prop in Hr as [Hd Hh].
  unfold count_row, int_field.
  destruct (_to_int (get r "duration_min")) as [dur|]; [|done].
  rewrite bind_Ok. cbv zeta.
  destruct (String.eqb_spec fmt "cash") as [->|Hcash].
  - destruct (_to_int (get r "hands")) as [hands|]; [|done].
    rewrite !bind_Ok. change (is_mtt_or_spin "cash") with false. cbv iota.
    eexists. split; [reflexivity|]. simpl ag. intros f.
    destruct (decide (Some "cash" = Some f)) as [[= <-]|Hne].
    + rewrite !lookup_alter_eq. by destruct (ag t !! "cash").
    + rewrite !lookup_alter_ne by congruence. done.
  - rewrite bind_Ok. destruct (is_mtt_or_spin fmt) eqn:Ht.
    + eexists. split; [reflexivity|]. simpl ag. intros f.
      destruct (decide (Some fmt = Some f)) as [[= <-]|Hne].
      * rewrite !lookup_alter_eq. rewrite Ht.
        destruct (String.eqb_spec fmt "cash"); [done|].
        by destruct (ag t !! fmt).
      * rewrite !lookup_alter_ne by congruence. done.
    + eexists. split; [reflexivity|]. simpl ag. intros f.
      destruct (decide (Some fmt = Some f)) as [[= <-]|Hne].
      * rewrite !lookup_alter_eq. rewrite Ht.
        destruct (String.eqb_spec fmt "cash"); [done|].
        by destruct (ag t !! fmt).
      * rewrite !lookup_alter_ne by congruence. done.
Qed.

(** The loop is, for each format, a fold over the rows of that format. *)
Lemma aggregate_folds (filt : list record) (t : totals) :
  forallb row_ready filt = true ->
  exists t',
    aggregate t filt = Ok t'
    /\ forall f, ag t' !! f =
         (fun a => fold_left (count_row f) (rows_of_format f filt) a)
           <$> ag t !! f.
Proof.
  revert t. induction filt as [|r filt IH]; intros t Hr.
  - exists t. split; [done|]. intros f. simpl. by destruct (ag t !! f).
  - simpl in Hr. apply andb_prop in Hr as [Hr Hrs].
    destruct (aggregate_row_counts t r Hr) as (t1 & H1 & Hag1).
    destruct (IH t1 Hrs) as (t' & H' & Hag').
    exists t'. simpl. rewrite H1, bind_Ok. split; [done|].
    intros f. rewrite Hag', Hag1. unfold rows_of_format.
    destruct (decide (row_format r = Some f)) as [E|E].
    + rewrite filter_cons_True by done. simpl. by destruct (ag t !! f).
    + by rewrite filter_cons_False.
Qed.

Lemma fold_count_sessions (f : string) (l : list record) (a : agg) :
  ag_sessions (fold_left (count_row f) l a)
  = ag_sessions a + Z.of_nat (length l).
Proof.
  revert a. induction l as [|r l IH]; intros a; simpl length; simpl fold_left.
  - lia.
  - rewrite IH. unfold count_row. simpl ag_sessions. lia.
Qed.

Lemma fold_count_tourney (f : string) (l : list record) (a : agg) :
  is_mtt_or_spin f = true ->
  ag_buyin (fold_left (count_row f) l a)
  = fold_left PrimFloat.add (float_column "buyin_total" l) (ag_buyin a)
  /\ ag_prize (fold_left (count_row f) l a)
    = fold_left PrimFloat.add (float_column "prize_total" l) (ag_prize a).
Proof.
  intros Hf. revert a. induction l as [|r l IH]; intros a; [done|].
  simpl fold_left. unfold float_column. simpl map. simpl fold_left.
  destruct (IH (count_row f a r)) as [-> ->].
  unfold count_row. simpl ag_buyin. simpl ag_prize. by rewrite Hf.
Qed.

Lemma fold_count_cash (l : list record) (a : agg) :
  ag_hands (fold_left (count_row "cash") l a)
  = fold_left Z.add (int_column "hands" l) (ag_hands a)
  /\ ag_bb_profit (fold_left (count_row "cash") l a)
    = fold_left PrimFloat.add (float_column "bb_profit" l) (ag_bb_profit a).
Proof.
  revert a. induction l as [|r l IH]; intros a; [done|].
  simpl fold_left. unfold float_column, int_column. simpl map. simpl fold_left.
  by destruct (IH (count_row "cash" a r)) as [-> ->].
Qed.

(** C3.  After the aggregation loop over the filtered rows, the ROI of
    the mtt and of the spin breakdown is
    [((summed prize - summed buyin) / summed buyin) * 100] when the summed
    buy-in is positive and absent otherwise, and the bb/100 of the cash
    breakdown is [(summed bb_profit / summed hands) * 100] when the summed
    hands are positive and absent otherwise, the sums running over the
    rows of the format; a format is reported when it has a row, and the
    rate it is reported with is that ROI or bb/100. *)
Theorem breakdown_from_totals (filt : list record) :
  forallb row_ready filt = true ->
  exists t,
    aggregate totals_zero filt = Ok t
    /\ (forall f, is_mtt_or_spin f = true ->
         exists a, ag t !! f = Some a
           /\ ag_sessions a = Z.of_nat (length (rows_of_format f filt))
           /\ breakdown_roi a = spec_roi f filt
           /\ breakdown t f =
                if ag_sessions a =? 0 then Ok None
                else
                  hours ← hours_of (ag_minutes a);
                  pph ← per_hour (ag_profit a) hours;
                  roi ← spec_roi f filt;
                  Ok (Some {| fg_sessions := ag_sessions a;
                              fg_profit := ag_profit a;
                              fg_minutes := ag_minutes a;
                              fg_per_hour := pph; fg_rate := roi |}))
    /\ (exists a, ag t !! "cash" = Some a
           /\ ag_sessions a = Z.of_nat (length (rows_of_format "cash" filt))
           /\ breakdown_bb100 a = spec_bb100 filt
           /\ breakdown t "cash" =
                if ag_sessions a =? 0 then Ok None
                else
                  hours ← hours_of (ag_minutes a);
                  pph ← per_hour (ag_profit a) hours;
                  bb100 ← spec_bb100 filt;
                  Ok (Some {| fg_sessions := ag_sessions a;
                              fg_profit := ag_profit a;
                              fg_minutes := ag_minutes a;
                              fg_per_hour := pph; fg_rate := bb100 |})).
Proof.
  intros Hr. destruct (aggregate_folds filt totals_zero Hr) as (t & Ht & Hag).
  exists t. split; [done|]. split.
  - intros f Hf.
    assert (ag totals_zero !! f = Some agg_zero) as H0.
    { unfold is_mtt_or_spin in Hf. apply orb_prop in Hf as [E|E];
        apply String.eqb_eq in E; subst f; reflexivity. }
    assert (String.eqb f "cash" = false) as Hc.
    { unfold is_mtt_or_spin in Hf. apply orb_prop in Hf as [E|E];
        apply String.eqb_eq in E; subst f; reflexivity. }
    set (a := fold_left (count_row f) (rows_of_format f filt) agg_zero).
    assert (ag t !! f = Some a) as Ha by (by rewrite Hag, H0).
    assert (breakdown_roi a = spec_roi f filt) as Hroi.
    { unfold breakdown_roi, spec_roi, float_sum, a.
      by destruct (fold_count_tourney f (rows_of_format f filt) agg_zero Hf)
        as [-> ->]. }
    exists a. split; [done|]. split; [|split; [done|]].
    + unfold a. rewrite fold_count_sessions. done.
    + unfold breakdown. by rewrite Ha, bind_Ok, Hc, Hf, Hroi.
  - assert (ag totals_zero !! "cash" = Some agg_zero) as H0 by reflexivity.
    set (a := fold_left (count_row "cash") (rows_of_format "cash" filt) agg_zero).
    assert (ag t !! "cash" = Some a) as Ha by (by rewrite Hag, H0).
    assert (breakdown_bb100 a = spec_bb100 filt) as Hbb.
    { unfold breakdown_bb100, spec_bb100, float_sum, Z_sum, a.
      by destruct (fold_count_cash (rows_of_format "cash" filt) agg_zero)
        as [-> ->]. }
    exists a. split; [done|]. split; [|split; [done|]].
    + unfold a. rewrite fold_count_sessions. done.
    + unfold breakdown. rewrite Ha, bind_Ok, Hbb. done.
Qed.

End Stats_facts.

(** ** One-shot entry by clock times *)

Section OneShot_facts.
Context `{RT : PyRuntime}.

(** A whole number of minutes, up to a day, comes out of the float
    arithmetic of [duration_minutes] exactly. *)
Lemma whole_minutes_exact :
  forallb
    (fun k =>
       match (q ← PyFloat.truediv_int (total_seconds (k * 60 * US_PER_SECOND)) 60;
              mins ← PyFloat.round_int q;
              Ok (Z.max mins 0)) with
       | Ok m => m =? k
       | Raise _ => false
       end)
    (seqZ 1 1440) = true.
Proof. vm_compute. reflexivity. Qed.

Lemma duration_of_whole_minutes (a b : string) (s e : datetime) (k : Z) :
  fromisoformat a = Some s -> fromisoformat b = Some e ->
  utcoffset s = None -> utcoffset e = None ->
  wall_us e - wall_us s = k * 60 * US_PER_SECOND ->
  1 <= k <= 1440 ->
  duration_minutes (VStr a) (VStr b) = Ok k.
Proof.
  intros Ha Hb Hs He Hd Hk. unfold duration_minutes.
  rewrite (dt_from_iso_Some _ _ Ha), (dt_from_iso_Some _ _ Hb), !bind_Ok.
  unfold dt_sub. rewrite Hs, He, bind_Ok, Hd.
  pose proof whole_minutes_exact as H.
  rewrite forallb_forall in H. specialize (H k).
  destruct (_ ≫= _) as [m|].
  - f_equal. apply Z.eqb_eq, H. apply list_elem_of_In, elem_of_seqZ. lia.
  - discriminate H. apply list_elem_of_In, elem_of_seqZ. lia.
Qed.

Lemma dt_le_naive (a b : datetime) :
  utcoffset a = None -> utcoffset b = None ->
  dt_le a b = Ok (wall_us a - wall_us b <=? 0).
Proof. intros Ha Hb. unfold dt_le, dt_sub. by rewrite Ha, Hb. Qed.

Lemma wall_us_mk_datetime (d h mi : Z) :
  wall_us (mk_datetime d h mi 0)
  = d * US_PER_DAY + (h * 60 + mi) * 60 * US_PER_SECOND.
Proof. unfold mk_datetime. simpl. lia. Qed.

Lemma toordinal_mk_datetime (d h mi : Z) :
  0 <= h <= 23 -> 0 <= mi <= 59 ->
  wall_us (mk_datetime d h mi 0) / US_PER_DAY = d.
Proof.
  intros Hh Hm. rewrite wall_us_mk_datetime.
  rewrite Z.div_add_l by (unfold US_PER_DAY, US_PER_SECOND; lia).
  rewrite Z.div_small; [lia|]. unfold US_PER_DAY, US_PER_SECOND. lia.
Qed.

(** The stamps and the duration that [log] derives from clock times. *)
Lemma log_times_returns (d sh sm eh em : Z) :
  MINORDINAL <= d <= MAXORDINAL ->
  0 <= sh <= 23 -> 0 <= sm <= 59 -> 0 <= eh <= 23 -> 0 <= em <= 59 ->
  let crossed := eh * 60 + em <=? sh * 60 + sm in
  let start_dt := mk_datetime d sh sm 0 in
  let end_dt := mk_datetime (if crossed then d + 1 else d) eh em 0 in
  (crossed = true -> d < MAXORDINAL) ->
  fromisoformat (isoformat start_dt) = Some start_dt ->
  fromisoformat (isoformat end_dt) = Some end_dt ->
  exists dur_min,
    log_times d sh sm eh em
      = Ok (isoformat start_dt, isoformat end_dt, dur_min)
    /\ wall_us start_dt < wall_us end_dt
    /\ 0 < dur_min
    /\ wall_us end_dt - wall_us start_dt = dur_min * 60 * US_PER_SECOND.
Proof.
  intros Hd Hsh Hsm Heh Hem crossed start_dt end_dt Hmax Hs He.
  set (k := if crossed then (eh * 60 + em) - (sh * 60 + sm) + 1440
            else (eh * 60 + em) - (sh * 60 + sm)).
  assert (1 <= k <= 1440) as Hk.
  { unfold k, crossed. destruct (Z.leb_spec (eh * 60 + em) (sh * 60 + sm)); lia. }
  assert (wall_us end_dt - wall_us start_dt = k * 60 * US_PER_SECOND) as Hdiff.
  { unfold end_dt, start_dt, k. rewrite !wall_us_mk_datetime.
    unfold US_PER_DAY, US_PER_SECOND. destruct crossed; lia. }
  exists k. split; [|split; [|split]]; [| |lia|done].
  - unfold log_times. fold start_dt.
    rewrite dt_le_naive, bind_Ok by done.
    assert ((wall_us (mk_datetime d eh em 0) - wall_us start_dt <=? 0)
            = crossed) as ->.
    { unfold start_dt, crossed. rewrite !wall_us_mk_datetime.
      unfold US_PER_SECOND.
      destruct (Z.leb_spec (eh * 60 + em) (sh * 60 + sm));
        [apply Z.leb_le|apply Z.leb_gt]; lia. }
    assert ((if crossed then add_days (mk_datetime d eh em 0) 1
             else Ok (mk_datetime d eh em 0)) = Ok end_dt) as ->.
    { unfold end_dt. destruct crossed eqn:Hc; [|done].
      specialize (Hmax eq_refl). unfold add_days.
      assert (wall_us (mk_datetime d eh em 0) + 1 * US_PER_DAY
              = wall_us (mk_datetime (d + 1) eh em 0)) as ->.
      { rewrite !wall_us_mk_datetime. lia. }
      rewrite toordinal_mk_datetime by done.
      destruct (Z.leb_spec MINORDINAL (d + 1)); [|unfold MINORDINAL in *; lia].
      destruct (Z.leb_spec (d + 1) MAXORDINAL); [|lia]. done. }
    rewrite bind_Ok. cbv zeta.
    by rewrite (duration_of_whole_minutes _ _ start_dt end_dt k).
  - unfold US_PER_SECOND in Hdiff. lia.
Qed.

(** [compute_metrics] assigns none of the raw inputs, and keeps a duration
    that was given. *)
Lemma compute_metrics_keeps (s s' : record) :
  compute_metrics s = Ok s' ->
  (forall k, bool_decide (k ∈ RAW_KEYS) = true -> s' !! k = s !! k)
  /\ (in_empty_or_None (get s "duration_min") = false ->
      s' !! "duration_min" = s !! "duration_min").
Proof.
  intros H.
  apply compute_metrics_inv in H
    as (fmt & s1 & s3 & s4 & Hf & H1 & H3 & H4 & ->).
  assert (forall k, k ≠ "currency" -> bool_decide (k ∈ NORMALIZED_KEYS) = false ->
            k ≠ "roi" -> k ≠ "bb_profit" -> k ≠ "bb_per_100" ->
            k ≠ "profit" ->
            <["currency" := or_empty (get_or s "currency" (VStr ""))]>
              (normalize_empties s4) !! k = s1 !! k) as Hframe.
  { intros k ? ? ? ? ? ?. rewrite lookup_insert_ne by done.
    rewrite normalize_lookup_other by done.
    rewrite (fill_roi_lookup _ _ _ _ _ H4) by done.
    rewrite (fill_cash_lookup _ _ _ _ H3) by done.
    by rewrite fill_profit_lookup. }
  split.
  - intros k Hk. apply bool_decide_eq_true in Hk. unfold RAW_KEYS in Hk.
    repeat (apply elem_of_cons in Hk as [->|Hk];
            [rewrite Hframe by done;
             by apply (fill_duration_lookup _ _ _ H1)|]).
    by apply elem_of_nil in Hk.
  - intros Hd. rewrite Hframe by done.
    destruct (fill_duration_cases _ _ H1) as [->|(d & Hd' & _)]; [done|].
    congruence.
Qed.

Lemma csv_row_lookup (row : record) (k : string) :
  bool_decide (k ∈ CSV_FIELDS) = true ->
  csv_row row !! k = Some (get_or row k (VStr "")).
Proof.
  intros Hk. apply bool_decide_eq_true in Hk. unfold CSV_FIELDS in Hk.
  repeat (apply elem_of_cons in Hk as [->|Hk]; [reflexivity|]).
  by apply elem_of_nil in Hk.
Qed.

(** The row that a successful [log] by clock times appends holds the
    stamps and the duration of [log_times]. *)
Lemma cmd_log_stores_times (inp : log_inputs) (uuid : string) (st : store)
    (d sh sm eh em dur_min : Z) (start_ts end_ts : string) :
  li_date inp = Some d ->
  li_time inp = ByTimes (Some ((sh, sm), (eh, em))) ->
  log_times d sh sm eh em = Ok (start_ts, end_ts, dur_min) ->
  status (cmd_log inp uuid st) = Ok 0 ->
  exists row,
    final (cmd_log inp uuid st)
      = {| active := active st; csv := csv st ++ [row] |}
    /\ row !! "start_ts" = Some (VStr start_ts)
    /\ row !! "end_ts" = Some (VStr end_ts)
    /\ row !! "duration_min" = Some (VInt dur_min).
Proof.
  intros Hd Ht Hl. unfold cmd_log. rewrite Hd, Ht, Hl, bind_Ok.
  match goal with
  | |- context [compute_metrics ?x] => set (session := x)
  end.
  assert (session !! "start_ts" = Some (VStr start_ts)
          /\ session !! "end_ts" = Some (VStr end_ts)
          /\ session !! "duration_min" = Some (VInt dur_min))
    as (Es & Ee & Ed).
  { unfold session.
    destruct (String.eqb (li_format inp) "cash"), (is_mtt_or_spin (li_format inp)),
      (li_hands inp), (li_bb_value inp) as [b|], (li_buyin_prize inp) as [[]|];
      try destruct (0 <? b)%float;
      rewrite ?lookup_insert_ne by done; repeat split; reflexivity. }
  clearbody session.
  destruct (compute_metrics session) as [s'|e] eqn:Hc; [|intros [=]].
  intros _. destruct (compute_metrics_keeps _ _ Hc) as [Hraw Hdur].
  exists (csv_row s'). split; [reflexivity|].
  rewrite !csv_row_lookup by reflexivity.
  assert (in_empty_or_None (get session "duration_min") = false) as Hne.
  { unfold get. by rewrite Ed. }
  unfold get_or.
  rewrite (Hraw "start_ts") by reflexivity.
  rewrite (Hraw "end_ts") by reflexivity.
  by rewrite (Hdur Hne), Es, Ee, Ed.
Qed.

(** C8, as the code has it.  On a session date [d] and clock times
    [sh:sm] and [eh:em], when the end time is after the start time the
    stamps are those times on [d]; when it is not, and [d] is not the last
    day of the calendar, the end stamp is the same clock time on the next
    day.  Either way the end stamp is after the start stamp and the
    duration is their distance in minutes, which is positive; and these
    are the stamps and the duration in the row that a successful [log]
    appends. *)
Theorem log_times_end_after_start (d sh sm eh em : Z) :
  MINORDINAL <= d <= MAXORDINAL ->
  0 <= sh <= 23 -> 0 <= sm <= 59 -> 0 <= eh <= 23 -> 0 <= em <= 59 ->
  let crossed := eh * 60 + em <=? sh * 60 + sm in
  let start_dt := mk_datetime d sh sm 0 in
  let end_dt := mk_datetime (if crossed then d + 1 else d) eh em 0 in
  (crossed = true -> d < MAXORDINAL) ->
  fromisoformat (isoformat start_dt) = Some start_dt ->
  fromisoformat (isoformat end_dt) = Some end_dt ->
  exists dur_min,
    log_times d sh sm eh em
      = Ok (isoformat start_dt, isoformat end_dt, dur_min)
    /\ wall_us start_dt < wall_us end_dt
    /\ 0 < dur_min
    /\ wall_us end_dt - wall_us start_dt = dur_min * 60 * US_PER_SECOND
    /\ forall (inp : log_inputs) (uuid : string) (st : store),
         li_date inp = Some d ->
         li_time inp = ByTimes (Some ((sh, sm), (eh, em))) ->
         status (cmd_log inp uuid st) = Ok 0 ->
         exists row,
           final (cmd_log inp uuid st)
             = {| active := active st; csv := csv st ++ [row] |}
           /\ row !! "start_ts" = Some (VStr (isoformat start_dt))
           /\ row !! "end_ts" = Some (VStr (isoformat end_dt))
           /\ row !! "duration_min" = Some (VInt dur_min).
Proof.
  intros Hd Hsh Hsm Heh Hem crossed start_dt end_dt Hmax Hs He.
  destruct (log_times_returns d sh sm eh em Hd Hsh Hsm Heh Hem Hmax Hs He)
    as (dur_min & Hl & Hlt & Hpos & Hdiff).
  exists dur_min. repeat (split; [done|]).
  intros inp uuid st Hdate Htime Hok.
  by apply (cmd_log_stores_times inp uuid st d sh sm eh em).
Qed.

End OneShot_facts.

(** ** Idempotence of the metrics engine *)

Section Idempotence.
Context `{RT : PyRuntime}.

Lemma reads_like_refl (a : record) (k : string) : reads_like a a k.
Proof. by left. Qed.

Lemma reads_like_eq (a a' b : record) (k : string) :
  a' !! k = a !! k -> reads_like a' b k -> reads_like a b k.
Proof. unfold reads_like, get. by intros ->. Qed.

Lemma reads_like_to_float (a b : record) (k : string) :
  reads_like a b k -> _to_float (get b k) = _to_float (get a k).
Proof.
  unfold reads_like, get. intros [->|[Ha ->]]; [done|].
  by destruct (a !! k) as [[]|].
Qed.

Lemma reads_like_to_int (a b : record) (k : string) :
  reads_like a b k -> _to_int (get b k) = _to_int (get a k).
Proof.
  unfold reads_like, get. intros [->|[Ha ->]]; [done|].
  by destruct (a !! k) as [[]|].
Qed.

Lemma reads_like_empty (a b : record) (k : string) :
  reads_like a b k ->
  in_empty_or_None (get b k) = in_empty_or_None (get a k).
Proof.
  unfold reads_like, get. intros [->|[Ha ->]]; [done|].
  by destruct (a !! k) as [[]|].
Qed.

Lemma reads_like_truthy (a b : record) (k : string) :
  reads_like a b k -> truthy (get b k) = truthy (get a k).
Proof.
  unfold reads_like, get. intros [->|[Ha ->]]; [done|].
  by destruct (a !! k) as [[]|].
Qed.

Lemma reads_like_Some (a b : record) (k : string) (v : value) :
  reads_like a b k -> a !! k = Some v -> is_None v = false -> b !! k = Some v.
Proof.
  unfold reads_like, get. intros [->|[Ha ->]] Hv Hn; [done|].
  rewrite Hv in Ha. simpl in Ha. congruence.
Qed.

(** A record that an insertion leaves unchanged holds the inserted
    entry. *)
Lemma insert_fixed (a : record) (k : string) (v : value) :
  <[k := v]> a = a -> a !! k = Some v.
Proof. intros H. rewrite <- H. apply lookup_insert_eq. Qed.

(** *** The duration block *)

Lemma fill_duration_idempotent (s s1 : record) :
  fill_duration s = Ok s1 -> fill_duration s1 = Ok s1.
Proof.
  intros H. destruct (fill_duration_cases _ _ H) as [->|(d & _ & ->)]; [done|].
  unfold fill_duration, get. by rewrite lookup_insert_eq.
Qed.

Lemma fill_duration_transfer (a b : record) :
  fill_duration a = Ok a ->
  reads_like a b "duration_min" -> reads_like a b "start_ts" ->
  reads_like a b "end_ts" ->
  fill_duration b = Ok b.
Proof.
  unfold fill_duration. intros H Hd Hs He.
  rewrite (reads_like_empty _ _ _ Hd), (reads_like_truthy _ _ _ Hs),
    (reads_like_truthy _ _ _ He).
  destruct (in_empty_or_None (get a "duration_min")) eqn:E; [|done].
  destruct (truthy (get a "start_ts") && truthy (get a "end_ts")); [|done].
  apply bind_Ok_inv in H as (st & _ & H).
  apply bind_Ok_inv in H as (en & _ & H).
  apply bind_Ok_inv in H as (d & _ & H).
  apply Ok_inj, insert_fixed in H. unfold get in E. by rewrite H in E.
Qed.

(** *** The profit block *)

Lemma fill_profit_idempotent fmt bu pr bs be (s : record) :
  fill_profit fmt bu pr bs be (fill_profit fmt bu pr bs be s)
  = fill_profit fmt bu pr bs be s.
Proof.
  unfold fill_profit.
  destruct (is_mtt_or_spin fmt), bu, pr, bs, be;
    by rewrite ?insert_insert_eq.
Qed.

Lemma fill_profit_transfer fmt bu pr bs be (a b : record) :
  fill_profit fmt bu pr bs be a = a ->
  reads_like a b "profit" ->
  fill_profit fmt bu pr bs be b = b.
Proof.
  unfold fill_profit. intros H Hp.
  destruct (is_mtt_or_spin fmt), bu, pr, bs, be; try done;
    apply insert_id; apply insert_fixed in H;
    by apply (reads_like_Some a b).
Qed.

(** *** The cash block *)

Lemma fill_cash_transfer (fmt : string) (a b : record) :
  fill_cash fmt a = Ok a ->
  reads_like a b "hands" -> reads_like a b "bb_value" ->
  reads_like a b "profit" -> reads_like a b "bb_profit" ->
  reads_like a b "bb_per_100" ->
  fill_cash fmt b = Ok b.
Proof.
  unfold fill_cash. intros H Hh Hb Hp Hbp Hb100.
  rewrite (reads_like_to_int _ _ _ Hh), (reads_like_to_float _ _ _ Hb),
    (reads_like_to_float _ _ _ Hp).
  destruct (String.eqb fmt "cash"); [|done].
  destruct (_to_int (get a "hands")) as [oh|]; [|done].
  rewrite bind_Ok in *.
  destruct (_to_float (get a "profit")) as [p|]; [|done].
  destruct (_to_float (get a "bb_value")) as [bb|]; [|done].
  destruct (0 <? bb)%float eqn:Hpos; [|done].
  rewrite truediv_pos, bind_Ok in * by done.
  destruct oh as [h|]; [destruct (0 <? h)|].
  - destruct (PyFloat.truediv_int _ _) as [q|]; [|done].
    rewrite bind_Ok in *. apply Ok_inj in H. f_equal.
    assert (a !! "bb_per_100" = Some (VFloat (PyFloat.round2 (q * 100)))) as H1.
    { rewrite <- H at 1. apply lookup_insert_eq. }
    assert (a !! "bb_profit" = Some (VFloat (PyFloat.round2 (p / bb)))) as H2.
    { rewrite <- H at 1. rewrite lookup_insert_ne by done.
      apply lookup_insert_eq. }
    rewrite (insert_id b "bb_profit"); [apply insert_id|];
      by eapply reads_like_Some.
  - apply Ok_inj, insert_fixed in H. f_equal. apply insert_id.
    by eapply reads_like_Some.
  - apply Ok_inj, insert_fixed in H. f_equal. apply insert_id.
    by eapply reads_like_Some.
Qed.

Lemma fill_cash_idempotent (fmt : string) (s s3 : record) :
  fill_cash fmt s = Ok s3 -> fill_cash fmt s3 = Ok s3.
Proof.
  intros H.
  assert (forall k, k ≠ "bb_profit" -> k ≠ "bb_per_100" -> get s3 k = get s k)
    as Hget.
  { intros k ? ?. unfold get. by rewrite (fill_cash_lookup _ _ _ _ H). }
  revert H. unfold fill_cash. rewrite !Hget by done.
  destruct (String.eqb fmt "cash"); [|by intros ->%Ok_inj].
  destruct (_to_int (get s "hands")) as [oh|]; [|done].
  rewrite !bind_Ok.
  destruct (_to_float (get s "profit")) as [p|]; [|by intros ->%Ok_inj].
  destruct (_to_float (get s "bb_value")) as [bb|]; [|by intros ->%Ok_inj].
  destruct (0 <? bb)%float eqn:Hpos; [|by intros ->%Ok_inj].
  rewrite truediv_pos, !bind_Ok by done.
  destruct oh as [h|]; [destruct (0 <? h)|].
  - destruct (PyFloat.truediv_int _ _) as [q|]; [|done].
    rewrite !bind_Ok. intros <-%Ok_inj. f_equal.
    rewrite (insert_id _ "bb_profit"); [apply insert_id|].
    + apply lookup_insert_eq.
    + rewrite lookup_insert_ne by done. apply lookup_insert_eq.
  - intros <-%Ok_inj. f_equal. apply insert_id, lookup_insert_eq.
  - intros <-%Ok_inj. f_equal. apply insert_id, lookup_insert_eq.
Qed.

(** *** The ROI block *)

Lemma fill_roi_transfer (fmt : string) (bu : option float) (a b : record) :
  fill_roi fmt bu a = Ok a ->
  reads_like a b "profit" -> reads_like a b "roi" ->
  fill_roi fmt bu b = Ok b.
Proof.
  unfold fill_roi. intros H Hp Hr.
  rewrite (reads_like_to_float _ _ _ Hp).
  destruct (is_mtt_or_spin fmt); [|done].
  destruct bu as [bv|]; [|done].
  destruct (_to_float (get a "profit")) as [p|]; [|done].
  destruct (0 <? bv)%float eqn:Hpos; [|done].
  rewrite truediv_pos, bind_Ok in * by done.
  apply Ok_inj, insert_fixed in H. f_equal. apply insert_id.
  by eapply reads_like_Some.
Qed.

Lemma fill_roi_idempotent (fmt : string) (bu : option float) (s s4 : record) :
  fill_roi fmt bu s = Ok s4 -> fill_roi fmt bu s4 = Ok s4.
Proof.
  intros H.
  assert (get s4 "profit" = get s "profit") as Hget.
  { unfold get. by rewrite (fill_roi_lookup _ _ _ _ _ H). }
  revert H. unfold fill_roi. rewrite Hget.
  destruct (is_mtt_or_spin fmt); [|by intros ->%Ok_inj].
  destruct bu as [bv|]; [|by intros ->%Ok_inj].
  destruct (_to_float (get s "profit")) as [p|]; [|by intros ->%Ok_inj].
  destruct (0 <? bv)%float eqn:Hpos; [|by intros ->%Ok_inj].
  rewrite truediv_pos, !bind_Ok by done.
  intros <-%Ok_inj. f_equal. apply insert_id, lookup_insert_eq.
Qed.

(** *** The closing normalisation and the currency *)

Lemma normalize_fixed (s : record) :
  (forall k, bool_decide (k ∈ NORMALIZED_KEYS) = true ->
             is_None (get s k) = false) ->
  normalize_empties s = s.
Proof.
  intros H. apply map_eq. intros k. rewrite normalize_lookup.
  destruct (bool_decide (k ∈ NORMALIZED_KEYS)) eqn:E; [|done].
  by rewrite (H k E).
Qed.

Lemma or_empty_idempotent (v : value) : or_empty (or_empty v) = or_empty v.
Proof. unfold or_empty. destruct (truthy v) eqn:E; [by rewrite E|done]. Qed.

(** The record that [compute_metrics] returns reads like the record
    handed to the normalisation, the currency apart. *)
Lemma final_reads_like (s4 : record) (c : value) (k : string) :
  k ≠ "currency" ->
  reads_like s4 (<["currency" := c]> (normalize_empties s4)) k.
Proof.
  intros Hk. unfold reads_like. rewrite lookup_insert_ne by done.
  rewrite normalize_lookup.
  destruct (bool_decide (k ∈ NORMALIZED_KEYS)); [|by left].
  destruct (is_None (get s4 k)); [by right|by left].
Qed.

Lemma final_not_None (s4 : record) (c : value) (k : string) :
  bool_decide (k ∈ NORMALIZED_KEYS) = true ->
  is_None (get (<["currency" := c]> (normalize_empties s4)) k) = false.
Proof.
  intros Hk. unfold get at 1. rewrite final_lookup_normalized by done.
  destruct (is_None (get s4 k)) eqn:E; [done|]. exact E.
Qed.

(** A record that [compute_metrics] returned is returned unchanged. *)
Lemma compute_metrics_fixed (s s' : record) :
  compute_metrics s = Ok s' -> compute_metrics s' = Ok s'.
Proof.
  intros H.
  apply compute_metrics_inv in H
    as (fmt & s1 & s3 & s4 & Hf & H1 & H3 & H4 & ->).
  set (c := or_empty (get_or s "currency" (VStr ""))).
  set (s' := <["currency" := c]> (normalize_empties s4)).
  set (bu := _to_float (get s1 "buyin_total")) in *.
  set (pr := _to_float (get s1 "prize_total")) in *.
  set (bs := _to_float (get s1 "bankroll_start")) in *.
  set (be := _to_float (get s1 "bankroll_end")) in *.
  set (s2 := fill_profit fmt bu pr bs be s1) in *.
  (* how the later records read the earlier ones *)
  assert (forall k, k ≠ "roi" -> s4 !! k = s3 !! k) as F4.
  { intros k ?. by apply (fill_roi_lookup _ _ _ _ _ H4). }
  assert (forall k, k ≠ "bb_profit" -> k ≠ "bb_per_100" -> s3 !! k = s2 !! k)
    as F3.
  { intros k ? ?. by apply (fill_cash_lookup _ _ _ _ H3). }
  assert (forall k, k ≠ "profit" -> s2 !! k = s1 !! k) as F2.
  { intros k ?. unfold s2. by apply fill_profit_lookup. }
  assert (forall k, k ≠ "duration_min" -> s1 !! k = s !! k) as F1.
  { intros k ?. by apply (fill_duration_lookup _ _ _ H1). }
  assert (forall k, k ≠ "currency" -> reads_like s4 s' k) as R4.
  { intros k ?. by apply final_reads_like. }
  assert (forall k, k ≠ "currency" -> k ≠ "roi" -> reads_like s3 s' k) as R3.
  { intros k ? ?. apply (reads_like_eq _ s4); [by apply F4|by apply R4]. }
  assert (forall k, k ≠ "currency" -> k ≠ "roi" -> k ≠ "bb_profit" ->
            k ≠ "bb_per_100" -> reads_like s2 s' k) as R2.
  { intros k ? ? ? ?. apply (reads_like_eq _ s3); [by apply F3|by apply R3]. }
  assert (forall k, k ≠ "currency" -> k ≠ "roi" -> k ≠ "bb_profit" ->
            k ≠ "bb_per_100" -> k ≠ "profit" -> reads_like s1 s' k) as R1.
  { intros k ? ? ? ? ?. apply (reads_like_eq _ s2); [by apply F2|by apply R2]. }
  (* the second run *)
  unfold compute_metrics.
  assert (get_or s' "format" (VStr "") = get_or s "format" (VStr "")) as ->.
  { unfold get_or, s'. rewrite lookup_insert_ne by done.
    rewrite normalize_lookup_other by reflexivity.
    by rewrite F4, F3, F2, F1. }
  rewrite Hf, bind_Ok. cbv zeta.
  assert (fill_duration s' = Ok s') as ->.
  { apply (fill_duration_transfer s1); [by eapply fill_duration_idempotent|..];
      by apply R1. }
  rewrite bind_Ok.
  rewrite (reads_like_to_float s1 s' "buyin_total") by (by apply R1).
  rewrite (reads_like_to_float s1 s' "prize_total") by (by apply R1).
  rewrite (reads_like_to_float s1 s' "bankroll_start") by (by apply R1).
  rewrite (reads_like_to_float s1 s' "bankroll_end") by (by apply R1).
  fold bu pr bs be.
  assert (fill_profit fmt bu pr bs be s' = s') as ->.
  { apply (fill_profit_transfer _ _ _ _ _ s2);
      [apply fill_profit_idempotent|by apply R2]. }
  assert (fill_cash fmt s' = Ok s') as ->.
  { apply (fill_cash_transfer _ s3); [by eapply fill_cash_idempotent|..];
      by apply R3. }
  rewrite bind_Ok.
  assert (fill_roi fmt bu s' = Ok s') as ->.
  { apply (fill_roi_transfer _ _ s4); [by eapply fill_roi_idempotent|..];
      by apply R4. }
  rewrite bind_Ok.
  rewrite normalize_fixed by (intros k Hk; by apply final_not_None).
  f_equal. apply insert_id.
  unfold get_or, s'. rewrite !lookup_insert_eq. simpl.
  unfold c. by rewrite or_empty_idempotent.
Qed.

(** C9.  Running [compute_metrics] on its own result gives that result
    again; when the first run raises, so does the composition. *)
Theorem compute_metrics_idempotent (s : record) :
  compute_metrics s ≫= compute_metrics = compute_metrics s.
Proof.
  destruct (compute_metrics s) as [s'|e] eqn:H; [|reflexivity].
  rewrite bind_Ok. by apply (compute_metrics_fixed s).
Qed.

End Idempotence.

(** * Further properties of the tracker *)

(** ** The metrics engine: ROI, formats, duration, what it may change *)

Section Metrics_more.
Context `{RT : PyRuntime}.

(** The ROI block when profit and a positive buy-in are present. *)
Lemma fill_roi_writes (fmt : string) (s s4 : record) (p b : float) :
  fill_roi fmt (Some b) s = Ok s4 ->
  is_mtt_or_spin fmt = true ->
  _to_float (get s "profit") = Some p ->
  (0 <? b)%float = true ->
  s4 !! "roi" = Some (VFloat (PyFloat.round2 (p / b * 100))).
Proof.
  unfold fill_roi. intros H Hf Hp Hb. rewrite Hf, Hp, Hb in H.
  rewrite truediv_pos, bind_Ok in H by done.
  apply Ok_inj in H as <-. apply lookup_insert_eq.
Qed.

(** The ROI block writes nothing for another format, or without a
    positive buy-in. *)
Lemma fill_roi_skips (fmt : string) (bu : option float) (s s4 : record) :
  fill_roi fmt bu s = Ok s4 ->
  is_mtt_or_spin fmt = false
  \/ (forall b, bu = Some b -> (0 <? b)%float = false) ->
  s4 = s.
Proof.
  unfold fill_roi. intros H Hskip.
  destruct (is_mtt_or_spin fmt); [|by apply Ok_inj in H].
  destruct Hskip as [|Hb]; [done|].
  destruct bu as [b|]; [|by apply Ok_inj in H].
  destruct (_to_float (get s "profit")); [|by apply Ok_inj in H].
  rewrite (Hb b eq_refl) in H. by apply Ok_inj in H.
Qed.

(** The cash block writes nothing for another format. *)
Lemma fill_cash_other_format (fmt : string) (s s3 : record) :
  fill_cash fmt s = Ok s3 -> String.eqb fmt "cash" = false -> s3 = s.
Proof. unfold fill_cash. intros H Hf. rewrite Hf in H. by apply Ok_inj in H. Qed.

(** Inserting an entry removes no key. *)
Lemma insert_keeps_key (m : record) (i k : string) (v : value) :
  is_Some (m !! k) -> is_Some (<[i := v]> m !! k).
Proof.
  intros H. destruct (decide (i = k)) as [->|Hne].
  - rewrite lookup_insert_eq. by eexists.
  - by rewrite lookup_insert_ne.
Qed.

Lemma fill_duration_keeps_key (s s1 : record) (k : string) :
  fill_duration s = Ok s1 -> is_Some (s !! k) -> is_Some (s1 !! k).
Proof.
  intros H Hk. apply fill_duration_cases in H as [->|(d & _ & ->)]; [done|].
  by apply insert_keeps_key.
Qed.

Lemma fill_profit_keeps_key fmt bu pr bs be (s : record) (k : string) :
  is_Some (s !! k) -> is_Some (fill_profit fmt bu pr bs be s !! k).
Proof.
  intros Hk. unfold fill_profit.
  destruct (is_mtt_or_spin fmt), bu, pr, bs, be;
    try done; by apply insert_keeps_key.
Qed.

(** The records between the blocks of a run of [compute_metrics], with
    what each holds of the record before it. *)
Lemma compute_metrics_blocks (s s' : record) :
  compute_metrics s = Ok s' ->
  exists fmt s1 s2 s3 s4,
    value_lower (get_or s "format" (VStr "")) = Ok fmt
    /\ fill_duration s = Ok s1
    /\ fill_cash fmt s2 = Ok s3
    /\ fill_roi fmt (_to_float (get s "buyin_total")) s3 = Ok s4
    /\ s' = <["currency" := or_empty (get_or s "currency" (VStr ""))]>
              (normalize_empties s4)
    /\ (forall k, k ≠ "duration_min" -> s1 !! k = s !! k)
    /\ (forall k, k ≠ "profit" -> s2 !! k = s1 !! k)
    /\ (forall k, k ≠ "bb_profit" -> k ≠ "bb_per_100" -> s3 !! k = s2 !! k)
    /\ (forall k, k ≠ "roi" -> s4 !! k = s3 !! k)
    /\ (forall k, is_Some (s1 !! k) -> is_Some (s2 !! k)).
Proof.
  intros H.
  apply compute_metrics_inv in H
    as (fmt & s1 & s3 & s4 & Hf & H1 & H3 & H4 & ->).
  set (s2 := fill_profit _ _ _ _ _ s1) in H3.
  exists fmt, s1, s2, s3, s4.
  rewrite (fill_duration_get _ _ _ H1) in H4 by done.
  repeat (split; [done|]).
  split; [intros k ?; by apply (fill_duration_lookup _ _ _ H1)|].
  split; [intros k ?; by apply fill_profit_lookup|].
  split; [intros k ? ?; by apply (fill_cash_lookup _ _ _ _ H3)|].
  split; [intros k ?; by apply (fill_roi_lookup _ _ _ _ _ H4)|].
  intros k ?. by apply fill_profit_keeps_key.
Qed.

(** The ROI that [compute_metrics] stores from the profit it returns and
    a positive buy-in total. *)
Lemma compute_metrics_roi (s s' : record) (fmt : string) (p b : float) :
  compute_metrics s = Ok s' ->
  value_lower (get_or s "format" (VStr "")) = Ok fmt ->
  is_mtt_or_spin fmt = true ->
  _to_float (get s' "profit") = Some p ->
  _to_float (get s "buyin_total") = Some b ->
  (0 <? b)%float = true ->
  s' !! "roi" = Some (VFloat (PyFloat.round2 (p / b * 100))).
Proof.
  intros Hs' Hfmt Ht Hp Hb Hpos.
  destruct (compute_metrics_blocks s s' Hs')
    as (fmt' & s1 & s2 & s3 & s4 & Hf & H1 & H3 & H4 & -> & F1 & F2 & F3 & F4 & K2).
  rewrite Hfmt in Hf. apply Ok_inj in Hf as <-.
  rewrite Hb in H4.
  apply final_lookup_Some; [done| |done].
  apply (fill_roi_writes fmt s3 s4 p b H4 Ht); [|done].
  rewrite <- Hp. unfold get. f_equal.
  rewrite lookup_insert_ne by done.
  rewrite normalize_lookup_other by reflexivity. by rewrite F4.
Qed.

(** The duration that [compute_metrics] returns is the one its first
    block left. *)
Lemma compute_metrics_duration (s s' : record) :
  compute_metrics s = Ok s' ->
  exists s1, fill_duration s = Ok s1
    /\ s' !! "duration_min" = s1 !! "duration_min".
Proof.
  intros Hs'.
  destruct (compute_metrics_blocks s s' Hs')
    as (fmt' & s1 & s2 & s3 & s4 & Hf & H1 & H3 & H4 & -> & F1 & F2 & F3 & F4 & K2).
  exists s1. split; [done|].
  rewrite lookup_insert_ne by done.
  rewrite normalize_lookup_other by reflexivity.
  by rewrite F4, F3, F2.
Qed.

(** X1.  For a session whose lower-cased format is mtt or spin, when the
    returned record holds a profit and the buy-in total is positive, the
    ROI is [round((profit / buyin_total) * 100, 2)], the profit being the
    stored (rounded) one; when the buy-in total is absent or not positive
    no ROI is computed, and the entry is only normalised. *)
Theorem roi_rule (s : record) (fmt : string) :
  metrics_ready s = true ->
  value_lower (get_or s "format" (VStr "")) = Ok fmt ->
  is_mtt_or_spin fmt = true ->
  exists s',
    compute_metrics s = Ok s'
    /\ (forall p b,
          _to_float (get s' "profit") = Some p ->
          _to_float (get s "buyin_total") = Some b ->
          (0 <? b)%float = true ->
          s' !! "roi" = Some (VFloat (PyFloat.round2 (p / b * 100))))
    /\ ((forall b, _to_float (get s "buyin_total") = Some b ->
                   (0 <? b)%float = false) ->
        s' !! "roi" = normalized_entry s "roi").
Proof.
  intros Hr Hfmt Ht. destruct (compute_metrics_returns s Hr) as [s' Hs'].
  exists s'. split; [done|].
  split.
  - intros p b Hp Hb Hpos. by apply (compute_metrics_roi s s' fmt).
  - destruct (compute_metrics_blocks s s' Hs')
      as (fmt' & s1 & s2 & s3 & s4 & Hf & H1 & H3 & H4 & -> & F1 & F2 & F3
          & F4 & K2).
    rewrite Hfmt in Hf. apply Ok_inj in Hf as <-.
    intros Hb. assert (s4 = s3) as -> by (apply (fill_roi_skips _ _ _ _ H4); by right).
    rewrite final_lookup_normalized by reflexivity.
    unfold normalized_entry, get. by rewrite F3, F2, F1.
Qed.

(** X2.  The blocks of one format leave the metrics of the others alone:
    for a session that is not cash, [bb_profit] and [bb_per_100] are only
    normalised; for one that is neither mtt nor spin, so is [roi]. *)
Theorem metrics_of_other_formats (s : record) (fmt : string) :
  metrics_ready s = true ->
  value_lower (get_or s "format" (VStr "")) = Ok fmt ->
  exists s',
    compute_metrics s = Ok s'
    /\ (String.eqb fmt "cash" = false ->
        s' !! "bb_profit" = normalized_entry s "bb_profit"
        /\ s' !! "bb_per_100" = normalized_entry s "bb_per_100")
    /\ (is_mtt_or_spin fmt = false ->
        s' !! "roi" = normalized_entry s "roi").
Proof.
  intros Hr Hfmt. destruct (compute_metrics_returns s Hr) as [s' Hs'].
  exists s'. split; [done|].
  destruct (compute_metrics_blocks s s' Hs')
    as (fmt' & s1 & s2 & s3 & s4 & Hf & H1 & H3 & H4 & -> & F1 & F2 & F3 & F4 & K2).
  rewrite Hfmt in Hf. apply Ok_inj in Hf as <-.
  split.
  - intros Hc. assert (s3 = s2) as -> by by apply (fill_cash_other_format fmt).
    rewrite (final_lookup_normalized _ _ "bb_profit") by reflexivity.
    rewrite (final_lookup_normalized _ _ "bb_per_100") by reflexivity.
    unfold normalized_entry, get. by rewrite !F4, !F2, !F1.
  - intros Ht. assert (s4 = s3) as -> by (apply (fill_roi_skips _ _ _ _ H4); by left).
    rewrite final_lookup_normalized by reflexivity.
    unfold normalized_entry, get. by rewrite F3, F2, F1.
Qed.

Lemma fill_cash_keeps_key fmt (s s' : record) (k : string) :
  fill_cash fmt s = Ok s' -> is_Some (s !! k) -> is_Some (s' !! k).
Proof.
  unfold fill_cash. intros H Hk.
  destruct (String.eqb fmt "cash"); [|by bind_inv; subst].
  bind_inv.
  destruct (_to_float (get s "profit")) as [p|]; [|by bind_inv; subst].
  destruct (_to_float (get s "bb_value")) as [b|]; [|by bind_inv; subst].
  destruct (0 <? b)%float; [|by bind_inv; subst].
  bind_inv.
  destruct a as [h|]; [destruct (0 <? h)|]; bind_inv; subst;
    repeat apply insert_keeps_key; done.
Qed.

Lemma fill_roi_keeps_key fmt bu (s s' : record) (k : string) :
  fill_roi fmt bu s = Ok s' -> is_Some (s !! k) -> is_Some (s' !! k).
Proof.
  unfold fill_roi. intros H Hk.
  destruct (is_mtt_or_spin fmt); [|by bind_inv; subst].
  destruct bu as [b|]; [|by bind_inv; subst].
  destruct (_to_float (get s "profit")) as [p|]; [|by bind_inv; subst].
  destruct (0 <? b)%float; bind_inv; subst;
    repeat apply insert_keeps_key; done.
Qed.

Lemma normalize_keeps_key (s : record) (k : string) :
  is_Some (s !! k) -> is_Some (normalize_empties s !! k).
Proof.
  intros Hk. rewrite normalize_lookup.
  destruct (_ && _); [by eexists|done].
Qed.

Lemma duration_minutes_nonneg (a b : value) (d : Z) :
  duration_minutes a b = Ok d -> 0 <= d.
Proof. unfold duration_minutes. intros H. bind_inv. subst. lia. Qed.

Lemma or_empty_VStr (t : string) : or_empty (VStr t) = VStr t.
Proof.
  unfold or_empty. cbn [truthy].
  by destruct (String.eqb_spec t "") as [->|].
Qed.

Lemma or_empty_not_None (v : value) : is_None (or_empty v) = false.
Proof. unfold or_empty. destruct (truthy v) eqn:E; [|done]. by destruct v. Qed.

(** X3.  The duration of a session: a record that holds a duration keeps
    it; a record without one (absent, [None] or the empty string) whose
    start and end stamps are both set gets the minutes between the stamps,
    which are never negative; without both stamps the entry is left as it
    was. *)
Theorem duration_rule (s : record) :
  metrics_ready s = true ->
  exists s',
    compute_metrics s = Ok s'
    /\ (in_empty_or_None (get s "duration_min") = false ->
        s' !! "duration_min" = s !! "duration_min")
    /\ (in_empty_or_None (get s "duration_min") = true ->
        truthy (get s "start_ts") && truthy (get s "end_ts") = true ->
        exists d,
          duration_minutes (get s "start_ts") (get s "end_ts") = Ok d
          /\ 0 <= d
          /\ s' !! "duration_min" = Some (VInt d))
    /\ (in_empty_or_None (get s "duration_min") = true ->
        truthy (get s "start_ts") && truthy (get s "end_ts") = false ->
        s' !! "duration_min" = s !! "duration_min").
Proof.
  intros Hr. destruct (compute_metrics_returns s Hr) as [s' Hs'].
  exists s'. split; [done|].
  destruct (compute_metrics_blocks s s' Hs')
    as (fmt' & s1 & s2 & s3 & s4 & Hf & H1 & H3 & H4 & -> & F1 & F2 & F3 & F4 & K2).
  assert (<["currency" := or_empty (get_or s "currency" (VStr ""))]>
            (normalize_empties s4) !! "duration_min" = s1 !! "duration_min")
    as ->.
  { rewrite lookup_insert_ne by done.
    rewrite normalize_lookup_other by reflexivity.
    by rewrite F4, F3, F2. }
  unfold fill_duration in H1.
  destruct (in_empty_or_None (get s "duration_min")).
  - split; [done|].
    destruct (truthy (get s "start_ts") && truthy (get s "end_ts")) eqn:E.
    + split; [|done]. intros _ _.
      apply andb_true_iff in E as [Es Ee].
      rewrite (getitem_truthy _ _ Es), (getitem_truthy _ _ Ee) in H1.
      rewrite !bind_Ok in H1.
      apply bind_Ok_inv in H1 as (d & Hd & H1). apply Ok_inj in H1 as <-.
      exists d. split; [done|]. split; [by apply duration_minutes_nonneg in Hd|].
      apply lookup_insert_eq.
    + apply Ok_inj in H1 as <-. split; [done|]. done.
  - apply Ok_inj in H1 as <-. split; [done|]. split; done.
Qed.

(** X4.  What [compute_metrics] may change: outside the keys it assigns
    (duration, profit, the two bb metrics, ROI and currency) an entry is
    returned as it was, except that a normalised column holding [None] or
    nothing comes back as the empty string; and no key of the record is
    ever removed. *)
Theorem compute_metrics_frame (s : record) :
  metrics_ready s = true ->
  exists s',
    compute_metrics s = Ok s'
    /\ (forall k, k ∉ DERIVED_KEYS ->
          s' !! k = if bool_decide (k ∈ NORMALIZED_KEYS)
                    then normalized_entry s k else s !! k)
    /\ (forall k, is_Some (s !! k) -> is_Some (s' !! k)).
Proof.
  intros Hr. destruct (compute_metrics_returns s Hr) as [s' Hs'].
  exists s'. split; [done|].
  destruct (compute_metrics_blocks s s' Hs')
    as (fmt' & s1 & s2 & s3 & s4 & Hf & H1 & H3 & H4 & -> & F1 & F2 & F3 & F4 & K2).
  split.
  - intros k Hk. unfold DERIVED_KEYS in Hk.
    rewrite !not_elem_of_cons in Hk.
    destruct Hk as (? & ? & ? & ? & ? & ? & _).
    rewrite lookup_insert_ne by done. rewrite normalize_lookup.
    unfold normalized_entry, get.
    rewrite F4, F3, F2, F1 by done.
    by destruct (bool_decide (k ∈ NORMALIZED_KEYS)).
  - intros k Hk. apply insert_keeps_key, normalize_keeps_key.
    apply (fill_roi_keeps_key _ _ _ _ _ H4).
    apply (fill_cash_keeps_key _ _ _ _ H3).
    apply K2. by apply (fill_duration_keeps_key _ _ _ H1).
Qed.

Lemma currency_kept (o : option value) :
  truthy (default VNone o) = true ->
  Some (or_empty (default (VStr "") o)) = o.
Proof.
  destruct o as [v|]; [|done]. cbn [default]. intros Ht.
  unfold or_empty. by rewrite Ht.
Qed.

Lemma currency_emptied (o : option value) :
  truthy (default VNone o) = false ->
  Some (or_empty (default (VStr "") o)) = Some (VStr "").
Proof.
  destruct o as [v|]; [|done]. cbn [default]. intros Ht.
  unfold or_empty. by rewrite Ht.
Qed.

(** X5.  After [compute_metrics] the eight optional columns and the
    currency are present and never [None]; the currency is the one given,
    or the empty string when it was missing, [None] or otherwise falsy. *)
Theorem optional_columns_never_None (s : record) :
  metrics_ready s = true ->
  exists s',
    compute_metrics s = Ok s'
    /\ (forall k, k ∈ NORMALIZED_KEYS ->
          exists v, s' !! k = Some v /\ is_None v = false)
    /\ s' !! "currency" = Some (or_empty (get_or s "currency" (VStr "")))
    /\ (truthy (get s "currency") = true -> s' !! "currency" = s !! "currency")
    /\ (truthy (get s "currency") = false ->
        s' !! "currency" = Some (VStr "")).
Proof.
  intros Hr. destruct (compute_metrics_returns s Hr) as [s' Hs'].
  exists s'. split; [done|].
  destruct (compute_metrics_blocks s s' Hs')
    as (fmt' & s1 & s2 & s3 & s4 & Hf & H1 & H3 & H4 & -> & F1 & F2 & F3 & F4 & K2).
  split; [|split; [|split]].
  - intros k Hk. apply (bool_decide_eq_true_2 (k ∈ NORMALIZED_KEYS)) in Hk.
    pose proof (final_not_None s4 (or_empty (get_or s "currency" (VStr ""))) k Hk)
      as Hn.
    unfold get in Hn.
    destruct (_ !! k) as [v|]; [by exists v|done].
  - apply lookup_insert_eq.
  - intros Ht. rewrite lookup_insert_eq.
    by apply (currency_kept (s !! "currency")).
  - intros Ht. rewrite lookup_insert_eq.
    by apply (currency_emptied (s !! "currency")).
Qed.

(** [_to_int] returns or raises [OverflowError]. *)
Lemma to_int_cases (v : value) :
  (exists n, _to_int v = Ok n) \/ _to_int v = Raise OverflowError.
Proof.
  unfold _to_int. destruct (in_empty_or_None v); [left; by eexists|].
  destruct (float_of_text v) as [f|e0] eqn:E.
  - rewrite bind_Ok. unfold PyFloat.int_of_float.
    destruct (Prim2SF f); cbn [except_ValueError];
      (left; by eexists) || by right.
  - assert (e0 = ValueError) as ->.
    { unfold float_of_text in E. destruct v; try done; try by inversion E.
      destruct (float_of_str _); [done|by inversion E]. }
    left. by eexists.
Qed.

(** X6.  [_to_int] raises nothing but [OverflowError], and only on a text
    or number that reads as an infinity; what [_to_float] does not read,
    and NaN, give [None]; any other number gives its truncation. *)
Theorem to_int_errors (v : value) :
  (forall e, _to_int v = Raise e ->
     e = OverflowError
     /\ exists f sg, _to_float v = Some f /\ Prim2SF f = S754_infinity sg)
  /\ (_to_float v = None -> _to_int v = Ok None)
  /\ (forall f, _to_float v = Some f -> Prim2SF f = S754_nan ->
        _to_int v = Ok None)
  /\ (forall f n, _to_float v = Some f -> PyFloat.int_of_float f = Ok n ->
        _to_int v = Ok (Some n)).
Proof.
  unfold _to_int, _to_float.
  destruct (in_empty_or_None v); [repeat split; intros; done|].
  destruct (float_of_text v) as [f|e0] eqn:E.
  - rewrite bind_Ok. unfold PyFloat.int_of_float.
    split; [|split; [done|split]].
    + intros e. destruct (Prim2SF f) as [sg|sg| |sg m ex] eqn:Ef; simpl; try done.
      intros H. split; [by inversion H|]. by exists f, sg.
    + intros f' Hf'. apply (inj Some) in Hf' as <-. by intros ->.
    + intros f' n Hf'. apply (inj Some) in Hf' as <-.
      by destruct (Prim2SF f); simpl; intros H; try done; apply Ok_inj in H as <-.
  - assert (e0 = ValueError) as ->.
    { unfold float_of_text in E. destruct v; try done; try by inversion E.
      destruct (float_of_str _); [done|by inversion E]. }
    simpl. repeat split; intros; done.
Qed.

End Metrics_more.

(** ** The session lifecycle: what [start] and [end] do to the files *)

Section Lifecycle_more.
Context `{RT : PyRuntime}.

Lemma usable_draft_truthy (st : store) :
  dict_truthy (load_active st).1 = true <-> usable_draft st.
Proof.
  unfold load_active, usable_draft. destruct (active st) as [| |d]; cbn [fst].
  - split; [done|]. by intros (d & [=] & _).
  - split; [done|]. by intros (d & [=] & _).
  - split.
    + intros H. exists d. split; [done|]. intros ->.
      unfold dict_truthy in H. by rewrite map_size_empty in H.
    + intros (d' & Hd & Hne). apply dict_truthy_Draft. congruence.
Qed.

Lemma usable_draft_load (st : store) (d : record) :
  active st = Draft d -> load_active st = (Some d, []).
Proof. unfold load_active. by intros ->. Qed.

(** The ways [end] can go. *)
Lemma cmd_end_cases (inp : end_inputs) (now_ts : string) (st : store) :
  (~ usable_draft st
   /\ cmd_end inp now_ts st =
        {| status := Ok 2; stderr := (load_active st).2 ++ [MsgNoActive];
           final := st |})
  \/ exists d, active st = Draft d /\ d ≠ ∅
     /\ ((exists e, end_collect inp now_ts d = Raise e
            /\ cmd_end inp now_ts st =
                 {| status := Raise e; stderr := []; final := st |})
         \/ exists a errs, end_collect inp now_ts d = Ok (a, errs)
            /\ ((end_not_after_start a = Some true
                 /\ cmd_end inp now_ts st =
                      {| status := Ok 2;
                         stderr := errs ++ [MsgEndNotAfterStart];
                         final := st |})
                \/ (end_not_after_start a ≠ Some true
                    /\ cmd_end inp now_ts st = end_finish st errs a))).
Proof.
  destruct (dict_truthy (load_active st).1) eqn:E.
  - right. apply usable_draft_truthy in E as (d & Hd & Hne).
    exists d. split; [done|]. split; [done|].
    unfold cmd_end. rewrite (usable_draft_load _ _ Hd).
    rewrite dict_truthy_Draft by done. cbn [negb].
    change (default ∅ (Some d)) with d.
    destruct (end_collect inp now_ts d) as [[a errs]|e].
    + right. exists a, errs. split; [done|].
      destruct (end_not_after_start a) as [[]|]; [left|right|right];
        (split; [done|reflexivity]).
    + left. by exists e.
  - left. split.
    + intros H. apply usable_draft_truthy in H. congruence.
    + unfold cmd_end. destruct (load_active st) as [a errs].
      cbn [fst snd] in *. by rewrite E.
Qed.

Lemma end_finish_cases (st : store) (errs : list message) (a : record) :
  (exists e, compute_metrics a = Raise e
     /\ end_finish st errs a =
          {| status := Raise e; stderr := errs; final := st |})
  \/ exists session, compute_metrics a = Ok session
     /\ end_finish st errs a =
          {| status := Ok 0; stderr := errs;
             final := {| active := NoFile;
                         csv := csv st ++ [csv_row session] |} |}.
Proof.
  unfold end_finish. destruct (compute_metrics a) as [session|e].
  - right. by exists session.
  - left. by exists e.
Qed.

(** What the first half of [end] returns, step by step. *)
Lemma end_collect_inv (inp : end_inputs) (now_ts : string) (d a : record)
    (errs : list message) :
  end_collect inp now_ts d = Ok (a, errs) ->
  exists fmt a1 a2 a3,
    value_lower (or_empty (get d "format")) = Ok fmt
    /\ (a1, errs) = (if String.eqb fmt "cash" then end_cash_inputs inp d
                     else (d, []))
    /\ a2 = (if is_mtt_or_spin fmt then end_mtt_spin_inputs inp a1 else a1)
    /\ (if negb (String.eqb (ei_note_end inp) "")
        then p ← note_prefix (get_or a2 "note" (VStr ""));
             Ok (<["note" := VStr (p +:+ ei_note_end inp)]> a2)
        else Ok a2) = Ok a3
    /\ a = <["end_ts" := VStr now_ts]>
             (<["bankroll_end" := VFloat (ei_bankroll_end inp)]> a3).
Proof.
  unfold end_collect. intros H.
  apply bind_Ok_inv in H as (fmt & Hf & H). cbv zeta in H.
  destruct (if String.eqb fmt "cash" then end_cash_inputs inp d else (d, []))
    as [a1 errs1] eqn:E1.
  apply bind_Ok_inv in H as (a3 & H3 & H).
  apply Ok_inj in H. apply pair_equal_spec in H as [<- <-].
  exists fmt, a1,
    (if is_mtt_or_spin fmt then end_mtt_spin_inputs inp a1 else a1), a3.
  by repeat split.
Qed.

(** The only message of the first half of [end] is the warning about a
    zero big blind. *)
Lemma end_collect_messages (inp : end_inputs) (now_ts : string) (d a : record)
    (errs : list message) :
  end_collect inp now_ts d = Ok (a, errs) ->
  errs = [] \/ errs = [MsgBbValueZero].
Proof.
  intros H. apply end_collect_inv in H as (fmt & a1 & a2 & a3 & _ & H1 & _).
  destruct (String.eqb fmt "cash"); [|left; congruence].
  unfold end_cash_inputs in H1.
  destruct (ei_bb_value inp) as [b|]; [destruct (b =? 0)%float|];
    apply pair_equal_spec in H1 as [_ ->]; auto.
Qed.

(** X7.  Without a usable draft (no active-session file, an unreadable
    one, or one holding an empty record) [end] exits with status 2,
    reports after the messages of the load that no session is active, and
    leaves both files as they were; with a usable draft it never gives
    that report. *)
Theorem end_needs_draft (inp : end_inputs) (now_ts : string) (st : store) :
  (~ usable_draft st ->
     status (cmd_end inp now_ts st) = Ok 2
     /\ stderr (cmd_end inp now_ts st) = (load_active st).2 ++ [MsgNoActive]
     /\ final (cmd_end inp now_ts st) = st)
  /\ (usable_draft st -> MsgNoActive ∉ stderr (cmd_end inp now_ts st)).
Proof.
  destruct (cmd_end_cases inp now_ts st)
    as [[Hno ->]|(d & Hd & Hne & [(e & _ & ->)|(a & errs & Hc & H)])].
  - split; [done|]. intros H. done.
  - split; [intros Hno; destruct Hno; by exists d|]. intros _.
    apply not_elem_of_nil.
  - assert (MsgNoActive ∉ errs) as Herrs.
    { destruct (end_collect_messages _ _ _ _ _ Hc) as [->| ->].
      - apply not_elem_of_nil.
      - by intros [[=]|[]%elem_of_nil]%elem_of_cons. }
    split; [intros Hno; destruct Hno; by exists d|]. intros _.
    destruct H as [[_ ->]|[_ ->]]; cbn [stderr].
    + intros [?|[[=]|[]%elem_of_nil]%elem_of_cons]%elem_of_app. done.
    + by destruct (end_finish_cases st errs a) as [(e & _ & ->)|(s & _ & ->)].
Qed.

(** The columns of a row as [append_row] writes it. *)
Lemma csv_row_columns (row : record) (k : string) :
  is_Some (csv_row row !! k) <-> k ∈ CSV_FIELDS.
Proof.
  split.
  - intros [v Hv]. unfold csv_row in Hv.
    apply elem_of_list_to_map_2 in Hv.
    apply list_elem_of_fmap in Hv as (k' & [= -> _] & Hk'). exact Hk'.
  - intros Hk. rewrite csv_row_lookup; [by eexists|].
    by apply bool_decide_eq_true_2.
Qed.


(** What the first half of [end] writes and what it leaves. *)
Lemma end_collect_frame (inp : end_inputs) (now_ts : string) (d a : record)
    (errs : list message) :
  end_collect inp now_ts d = Ok (a, errs) ->
  a !! "end_ts" = Some (VStr now_ts)
  /\ a !! "bankroll_end" = Some (VFloat (ei_bankroll_end inp))
  /\ (forall k, bool_decide (k ∈ END_KEYS) = false -> a !! k = d !! k).
Proof.
  intros H.
  apply end_collect_inv in H as (fmt & a1 & a2 & a3 & _ & H1 & -> & H3 & ->).
  split; [apply lookup_insert_eq|].
  split; [rewrite lookup_insert_ne by done; apply lookup_insert_eq|].
  intros k Hk.
  assert (k ≠ "hands" /\ k ≠ "bb_value" /\ k ≠ "buyin_total"
          /\ k ≠ "prize_total" /\ k ≠ "note" /\ k ≠ "bankroll_end"
          /\ k ≠ "end_ts") as (? & ? & ? & ? & ? & ? & ?).
  { repeat split; intros ->; vm_compute in Hk; discriminate Hk. }
  rewrite !lookup_insert_ne by done.
  assert (a3 !! k =
          (if is_mtt_or_spin fmt then end_mtt_spin_inputs inp a1 else a1) !! k)
    as ->.
  { destruct (negb _) in H3; [|by apply Ok_inj in H3 as <-].
    apply bind_Ok_inv in H3 as (p & _ & H3). apply Ok_inj in H3 as <-.
    by rewrite lookup_insert_ne. }
  assert (a1 !! k = d !! k) as <-.
  { destruct (String.eqb fmt "cash").
    - rewrite <- (end_cash_inputs_lookup inp d k) by done. by rewrite <- H1.
    - by apply pair_equal_spec in H1 as [-> _]. }
  destruct (is_mtt_or_spin fmt); [|done].
  by apply end_mtt_spin_inputs_lookup.
Qed.

(** X9.  What [end] does to the files: it leaves both as they were, or it
    removes the draft and appends exactly one row to the CSV file.  An exit
    with status 2 is of the first kind, an exit with status 0 of the
    second, and the row then has exactly the CSV columns. *)
Theorem end_store_effect (inp : end_inputs) (now_ts : string) (st : store) :
  (final (cmd_end inp now_ts st) = st
   \/ exists row,
        final (cmd_end inp now_ts st)
          = {| active := NoFile; csv := csv st ++ [row] |})
  /\ (status (cmd_end inp now_ts st) = Ok 2 ->
      final (cmd_end inp now_ts st) = st)
  /\ (status (cmd_end inp now_ts st) = Ok 0 ->
      exists row,
        final (cmd_end inp now_ts st)
          = {| active := NoFile; csv := csv st ++ [row] |}
        /\ forall k, is_Some (row !! k) <-> k ∈ CSV_FIELDS).
Proof.
  destruct (cmd_end_cases inp now_ts st)
    as [[Hno ->]|(d & Hd & Hne & [(e & _ & ->)|(a & errs & Hc & H)])].
  - split; [by left|]. split; [done|]. by intros [=].
  - split; [by left|]. split; [done|]. by intros [=].
  - destruct H as [[_ ->]|[_ ->]].
    + split; [by left|]. split; [done|]. by intros [=].
    + destruct (end_finish_cases st errs a) as [(e & _ & ->)|(s & _ & ->)].
      * split; [by left|]. split; [done|]. by intros [=].
      * split; [right; by eexists|]. split; [by intros [=]|]. intros _.
        exists (csv_row s). split; [done|]. apply csv_row_columns.
Qed.

(** A successful [end], taken apart. *)
Lemma cmd_end_success (inp : end_inputs) (now_ts : string) (st : store)
    (d : record) :
  active st = Draft d ->
  status (cmd_end inp now_ts st) = Ok 0 ->
  exists a errs session,
    end_collect inp now_ts d = Ok (a, errs)
    /\ compute_metrics a = Ok session
    /\ cmd_end inp now_ts st =
         {| status := Ok 0; stderr := errs;
            final := {| active := NoFile;
                        csv := csv st ++ [csv_row session] |} |}.
Proof.
  intros Ha.
  destruct (cmd_end_cases inp now_ts st)
    as [[Hno ->]|(d' & Hd & Hne & [(e & _ & ->)|(a & errs & Hc & H)])];
    [by intros [=] ..|].
  assert (d' = d) as -> by congruence.
  destruct H as [[_ ->]|[_ ->]]; [by intros [=]|].
  destruct (end_finish_cases st errs a) as [(e & _ & ->)|(s & Hs & ->)];
    [by intros [=]|].
  intros _. by exists a, errs, s.
Qed.

(** The row that a successful [end] appends holds the general entries of
    the draft as the first half of the command left it. *)
Lemma cmd_end_row (inp : end_inputs) (now_ts : string) (st : store)
    (d : record) :
  active st = Draft d ->
  status (cmd_end inp now_ts st) = Ok 0 ->
  exists a errs row,
    end_collect inp now_ts d = Ok (a, errs)
    /\ final (cmd_end inp now_ts st)
         = {| active := NoFile; csv := csv st ++ [row] |}
    /\ forall k, bool_decide (k ∈ RAW_KEYS) = true ->
         row !! k = Some (get_or a k (VStr "")).
Proof.
  intros Ha Hs.
  destruct (cmd_end_success inp now_ts st d Ha Hs)
    as (a & errs & s & Hc & Hm & ->).
  exists a, errs, (csv_row s). split; [done|]. split; [done|].
  destruct (compute_metrics_keeps _ _ Hm) as [Hraw _].
  intros k Hk. rewrite csv_row_lookup.
  - unfold get_or. by rewrite Hraw.
  - apply bool_decide_eq_true in Hk. apply bool_decide_eq_true_2.
    unfold RAW_KEYS in Hk. unfold CSV_FIELDS.
    repeat (apply elem_of_cons in Hk as [->|Hk];
            [apply (bool_decide_eq_true_1 (_ ∈ _)); reflexivity|]).
    by apply elem_of_nil in Hk.
Qed.

(** X10.  The row that a successful [end] appends: what [start] recorded
    (identifier, room, format, stake, start stamp, starting bankroll)
    comes from the draft unchanged, the end stamp is the time of the
    command, the final bankroll is the answer of the operator, and the
    note is the one that the command put together. *)
Theorem end_row_content (inp : end_inputs) (now_ts : string) (st : store)
    (d : record) :
  active st = Draft d ->
  status (cmd_end inp now_ts st) = Ok 0 ->
  exists a errs row,
    end_collect inp now_ts d = Ok (a, errs)
    /\ final (cmd_end inp now_ts st)
         = {| active := NoFile; csv := csv st ++ [row] |}
    /\ (forall k, k ∈ START_KEYS -> row !! k = Some (get_or d k (VStr "")))
    /\ row !! "end_ts" = Some (VStr now_ts)
    /\ row !! "bankroll_end" = Some (VFloat (ei_bankroll_end inp))
    /\ row !! "note" = Some (get_or a "note" (VStr "")).
Proof.
  intros Ha Hs.
  destruct (cmd_end_row inp now_ts st d Ha Hs)
    as (a & errs & row & Hc & Hf & Hrow).
  exists a, errs, row. split; [done|]. split; [done|].
  destruct (end_collect_frame _ _ _ _ _ Hc) as (He & Hb & Hframe).
  split; [|split; [|split]].
  - intros k Hk. unfold START_KEYS in Hk.
    repeat (apply elem_of_cons in Hk as [->|Hk];
            [rewrite Hrow by reflexivity; unfold get_or;
             by rewrite Hframe by reflexivity|]).
    by apply elem_of_nil in Hk.
  - rewrite Hrow by reflexivity. unfold get_or. by rewrite He.
  - rewrite Hrow by reflexivity. unfold get_or. by rewrite Hb.
  - by rewrite Hrow by reflexivity.
Qed.

(** X11.  The note of a session that is ended: without a closing note the
    note of the draft stays; a closing note replaces a missing, [None] or
    empty note, and is joined to any other textual note by [" | "]. *)
Theorem end_note_rule (inp : end_inputs) (now_ts : string) (d : record) :
  end_ready inp d = true ->
  exists a errs,
    end_collect inp now_ts d = Ok (a, errs)
    /\ (ei_note_end inp = "" -> a !! "note" = d !! "note")
    /\ (ei_note_end inp ≠ "" ->
        truthy (get_or d "note" (VStr "")) = false ->
        a !! "note" = Some (VStr (ei_note_end inp)))
    /\ (ei_note_end inp ≠ "" ->
        forall base, d !! "note" = Some (VStr base) -> base ≠ "" ->
          a !! "note" = Some (VStr ((base +:+ " | ") +:+ ei_note_end inp))).
Proof.
  intros Hr.
  destruct (end_collect_returns inp now_ts d Hr) as (a & errs & Hc & _).
  exists a, errs. split; [done|].
  pose proof Hc as Hinv.
  apply end_collect_inv in Hinv
    as (fmt & a1 & a2 & a3 & _ & H1 & -> & H3 & ->).
  rewrite !lookup_insert_ne by done.
  assert ((if is_mtt_or_spin fmt then end_mtt_spin_inputs inp a1 else a1)
            !! "note" = d !! "note") as Hnote.
  { assert (a1 !! "note" = d !! "note") as <-.
    { destruct (String.eqb fmt "cash").
      - rewrite <- (end_cash_inputs_lookup inp d "note") by done.
        by rewrite <- H1.
      - by apply pair_equal_spec in H1 as [-> _]. }
    destruct (is_mtt_or_spin fmt); [|done].
    by apply end_mtt_spin_inputs_lookup. }
  unfold get_or in *. rewrite Hnote in H3.
  destruct (String.eqb_spec (ei_note_end inp) "") as [E|E]; cbn [negb] in H3.
  - apply Ok_inj in H3 as <-. by repeat split.
  - apply bind_Ok_inv in H3 as (p & Hp & H3). apply Ok_inj in H3 as <-.
    rewrite lookup_insert_eq. split; [done|]. unfold note_prefix in Hp. split.
    + intros _ Ht. rewrite Ht in Hp. by apply Ok_inj in Hp as <-.
    + intros _ base Hb Hne. rewrite Hb in Hp.
      change (default (VStr "") (Some (VStr base))) with (VStr base) in Hp.
      cbn [truthy] in Hp.
      destruct (String.eqb_spec base "") as [|_]; [done|].
      cbn [negb] in Hp. by apply Ok_inj in Hp as <-.
Qed.

(** X12.  A draft whose note is a truthy value that is no string (a
    number read from the file) cannot take a closing note: [end] dies with
    [TypeError] before it writes anything.  Without a closing note the
    answers are collected and the note is kept. *)
Theorem end_note_not_text (inp : end_inputs) (now_ts : string) (st : store)
    (d : record) (v : value) (fmt : string) :
  active st = Draft d ->
  value_lower (or_empty (get d "format")) = Ok fmt ->
  d !! "note" = Some v ->
  truthy v = true ->
  (forall t, v ≠ VStr t) ->
  (ei_note_end inp ≠ "" ->
     status (cmd_end inp now_ts st) = Raise TypeError
     /\ final (cmd_end inp now_ts st) = st)
  /\ (ei_note_end inp = "" ->
      exists a errs, end_collect inp now_ts d = Ok (a, errs)
        /\ a !! "note" = Some v).
Proof.
  intros Ha Hf Hv Ht Hnt.
  assert (d ≠ ∅) as Hne.
  { intros ->. by rewrite lookup_empty in Hv. }
  set (a2 := if is_mtt_or_spin fmt
             then end_mtt_spin_inputs inp
                    (if String.eqb fmt "cash" then end_cash_inputs inp d
                     else (d, [])).1
             else (if String.eqb fmt "cash" then end_cash_inputs inp d
                   else (d, [])).1).
  assert (a2 !! "note" = Some v) as Hnote.
  { unfold a2. rewrite <- Hv.
    assert ((if String.eqb fmt "cash" then end_cash_inputs inp d
             else (d, [])).1 !! "note" = d !! "note") as <-.
    { destruct (String.eqb fmt "cash"); [|done].
      by apply end_cash_inputs_lookup. }
    destruct (is_mtt_or_spin fmt); [|done].
    by apply end_mtt_spin_inputs_lookup. }
  assert (end_collect inp now_ts d =
            active ←
              (if negb (String.eqb (ei_note_end inp) "") then
                 p ← note_prefix (get_or a2 "note" (VStr ""));
                 Ok (<["note" := VStr (p +:+ ei_note_end inp)]> a2)
               else Ok a2);
            Ok (<["end_ts" := VStr now_ts]>
                  (<["bankroll_end" := VFloat (ei_bankroll_end inp)]> active),
                (if String.eqb fmt "cash" then end_cash_inputs inp d
                 else (d, [])).2)) as Hcollect.
  { unfold end_collect. rewrite Hf, bind_Ok. cbv zeta. unfold a2.
    by destruct (if String.eqb fmt "cash" then end_cash_inputs inp d
                 else (d, [])). }
  split.
  - intros E. apply String.eqb_neq in E.
    assert (end_collect inp now_ts d = Raise TypeError) as Hc.
    { rewrite Hcollect, E. cbn [negb]. unfold get_or. rewrite Hnote.
      change (default (VStr "") (Some v)) with v.
      unfold note_prefix. rewrite Ht.
      destruct v as [|n|f|t]; try done. by destruct (Hnt t). }
    destruct (cmd_end_cases inp now_ts st)
      as [[Hno _]|(d' & Hd & _ & [(e & Hc' & ->)|(a & errs & Hc' & _)])].
    + destruct Hno. by exists d.
    + assert (d' = d) as -> by congruence.
      rewrite Hc in Hc'. by injection Hc' as <-.
    + assert (d' = d) as -> by congruence. by rewrite Hc in Hc'.
  - intros E. apply String.eqb_eq in E.
    rewrite Hcollect, E. cbn [negb]. rewrite bind_Ok.
    eexists _, _. split; [done|]. by rewrite !lookup_insert_ne.
Qed.

(** X13.  A zero big blind in the answers of [end] is reported and not
    written, so the draft keeps the entry it had; any other answer is
    written without a report.  The report alone never makes the command
    exit with status 2. *)
Theorem end_zero_big_blind (inp : end_inputs) (now_ts : string) (st : store)
    (d : record) (b : float) :
  active st = Draft d -> d ≠ ∅ ->
  end_ready inp d = true ->
  value_lower (or_empty (get d "format")) = Ok "cash" ->
  ei_bb_value inp = Some b ->
  exists a errs,
    end_collect inp now_ts d = Ok (a, errs)
    /\ ((b =? 0)%float = true ->
        errs = [MsgBbValueZero] /\ a !! "bb_value" = d !! "bb_value"
        /\ MsgBbValueZero ∈ stderr (cmd_end inp now_ts st))
    /\ ((b =? 0)%float = false ->
        errs = [] /\ a !! "bb_value" = Some (VFloat b))
    /\ (status (cmd_end inp now_ts st) = Ok 2 ->
        end_not_after_start a = Some true).
Proof.
  intros Ha Hne Hr Hf Hb.
  destruct (end_collect_returns inp now_ts d Hr) as (a & errs & Hc & _).
  exists a, errs. split; [done|].
  pose proof Hc as Hinv.
  apply end_collect_inv in Hinv
    as (fmt & a1 & a2 & a3 & Hf' & H1 & -> & H3 & ->).
  rewrite Hf in Hf'. apply Ok_inj in Hf' as <-.
  cbn [String.eqb Ascii.eqb Bool.eqb is_mtt_or_spin orb] in H1, H3.
  change (is_mtt_or_spin "cash") with false in H3. cbv iota in H3.
  assert (a3 !! "bb_value" = a1 !! "bb_value") as Hbb.
  { destruct (negb _) in H3; [|by apply Ok_inj in H3 as <-].
    apply bind_Ok_inv in H3 as (p & _ & H3). apply Ok_inj in H3 as <-.
    by rewrite lookup_insert_ne. }
  rewrite !lookup_insert_ne by done. rewrite Hbb.
  unfold end_cash_inputs in H1. rewrite Hb in H1.
  assert (cmd_end inp now_ts st =
            match end_not_after_start
                    (<["end_ts" := VStr now_ts]>
                       (<["bankroll_end" := VFloat (ei_bankroll_end inp)]> a3))
            with
            | Some true =>
                {| status := Ok 2; stderr := errs ++ [MsgEndNotAfterStart];
                   final := st |}
            | _ => end_finish st errs
                     (<["end_ts" := VStr now_ts]>
                        (<["bankroll_end" := VFloat (ei_bankroll_end inp)]> a3))
            end) as Hend.
  { unfold cmd_end. rewrite (usable_draft_load _ _ Ha).
    rewrite dict_truthy_Draft by done. cbn [negb].
    change (default ∅ (Some d)) with d. by rewrite Hc. }
  split; [|split].
  - intros E. rewrite E in H1. apply pair_equal_spec in H1 as [-> ->].
    split; [done|]. split.
    + by destruct (ei_hands inp); rewrite ?lookup_insert_ne.
    + rewrite Hend.
      destruct (end_not_after_start _) as [[]|]; cbn [stderr];
        try (apply elem_of_app; left; apply list_elem_of_here).
      all: unfold end_finish; destruct (compute_metrics _);
        apply list_elem_of_here.
  - intros E. rewrite E in H1. apply pair_equal_spec in H1 as [-> ->].
    split; [done|]. apply lookup_insert_eq.
  - rewrite Hend. destruct (end_not_after_start _) as [[]|]; [done| |].
    all: unfold end_finish; destruct (compute_metrics _); by intros [=].
Qed.

(** The draft that [start] writes when it finds no usable draft. *)
Lemma cmd_start_fresh (inp : start_inputs) (uuid now_ts : string)
    (st : store) :
  ~ usable_draft st ->
  exists d,
    cmd_start inp uuid now_ts st =
      {| status := Ok 0; stderr := (load_active st).2;
         final := {| active := Draft d; csv := csv st |} |}
    /\ (forall k, is_Some (d !! k) <-> k ∈ CSV_FIELDS)
    /\ d !! "id" = Some (VStr uuid)
    /\ d !! "format" = Some (VStr (si_format inp))
    /\ d !! "currency" = Some (VStr (upper (si_currency inp)))
    /\ d !! "start_ts" = Some (VStr now_ts)
    /\ d !! "end_ts" = Some (VStr "")
    /\ d !! "duration_min" = Some (VStr "")
    /\ d !! "bankroll_start" = Some (VFloat (si_bankroll_start inp))
    /\ d !! "note" = Some (VStr (si_note inp)).
Proof.
  intros Hno.
  assert (dict_truthy (load_active st).1 = false) as E.
  { destruct (dict_truthy _) eqn:E; [|done].
    by apply usable_draft_truthy in E. }
  unfold cmd_start. destruct (load_active st) as [a errs].
  cbn [fst snd] in *. rewrite E.
  eexists. split; [reflexivity|].
  split; [|repeat split; reflexivity].
  intros k. split.
  - intros [v Hv]. apply elem_of_list_to_map_2 in Hv.
    apply (list_elem_of_fmap_2 fst) in Hv. exact Hv.
  - intros Hk. unfold CSV_FIELDS in Hk.
    repeat (apply elem_of_cons in Hk as [->|Hk]; [by eexists|]).
    by apply elem_of_nil in Hk.
Qed.


(** X15.  The lifecycle once around: after a [start] on a store without
    a usable draft and a successful [end], a new [start] succeeds; the CSV
    file has gained exactly one row, which carries the identifier, the
    format and the start stamp of the first [start] and the end stamp of
    the [end], and the new draft is that of the second [start]. *)
Theorem start_end_start (i1 i3 : start_inputs) (i2 : end_inputs)
    (u1 n1 n2 u3 n3 : string) (st : store) :
  ~ usable_draft st ->
  status (cmd_end i2 n2 (final (cmd_start i1 u1 n1 st))) = Ok 0 ->
  exists row d3,
    cmd_start i3 u3 n3 (final (cmd_end i2 n2 (final (cmd_start i1 u1 n1 st))))
      = {| status := Ok 0; stderr := [];
           final := {| active := Draft d3; csv := csv st ++ [row] |} |}
    /\ row !! "id" = Some (VStr u1)
    /\ row !! "format" = Some (VStr (si_format i1))
    /\ row !! "start_ts" = Some (VStr n1)
    /\ row !! "end_ts" = Some (VStr n2)
    /\ d3 !! "id" = Some (VStr u3)
    /\ d3 !! "start_ts" = Some (VStr n3).
Proof.
  intros Hno.
  destruct (cmd_start_fresh i1 u1 n1 st Hno)
    as (d & -> & _ & Hid & Hfmt & _ & Hst & _).
  cbn [final]. intros Hs.
  destruct (cmd_end_row i2 n2 {| active := Draft d; csv := csv st |} d
              eq_refl Hs)
    as (a & errs & row & Hc & -> & Hrow).
  destruct (end_collect_frame _ _ _ _ _ Hc) as (He & _ & Hframe).
  cbn [csv].
  assert (~ usable_draft {| active := NoFile; csv := csv st ++ [row] |})
    as Hno'.
  { by intros (d' & [=] & _). }
  destruct (cmd_start_fresh i3 u3 n3 _ Hno')
    as (d3 & -> & _ & Hid3 & _ & _ & Hst3 & _).
  exists row, d3. split; [done|].
  rewrite (Hrow "id"), (Hrow "format"), (Hrow "start_ts"), (Hrow "end_ts")
    by reflexivity.
  unfold get_or. rewrite He.
  rewrite (Hframe "id"), (Hframe "format"), (Hframe "start_ts")
    by reflexivity.
  by rewrite Hid, Hfmt, Hst.
Qed.

(** X29.  A draft without a duration whose start stamp cannot be used:
    when the stamp is missing, [None] or empty, a successful [end] stores
    the session without a duration; when it is a text that does not read
    as a date, [end] dies with [ValueError] in the duration block and both
    files stay as they were. *)
Theorem end_without_start_stamp (inp : end_inputs) (now_ts : string)
    (st : store) (d : record) :
  active st = Draft d -> d ≠ ∅ ->
  end_ready inp d = true ->
  in_empty_or_None (get d "duration_min") = true ->
  (truthy (get d "start_ts") = false ->
   status (cmd_end inp now_ts st) = Ok 0 ->
   exists row,
     final (cmd_end inp now_ts st)
       = {| active := NoFile; csv := csv st ++ [row] |}
     /\ row !! "duration_min" = Some (get_or d "duration_min" (VStr ""))
     /\ row !! "end_ts" = Some (VStr now_ts))
  /\ (forall t, d !! "start_ts" = Some (VStr t) -> t ≠ "" -> now_ts ≠ "" ->
        fromisoformat t = None ->
        (exists fmt, value_lower (get_or d "format" (VStr "")) = Ok fmt) ->
        status (cmd_end inp now_ts st) = Raise ValueError
        /\ final (cmd_end inp now_ts st) = st).
Proof.
  intros Ha Hne Hr Hdur. split.
  - intros Hstart Hs.
    destruct (cmd_end_success inp now_ts st d Ha Hs)
      as (a & errs & s & Hc & Hm & ->).
    exists (csv_row s). split; [done|].
    destruct (end_collect_frame _ _ _ _ _ Hc) as (He & _ & Hframe).
    destruct (compute_metrics_keeps _ _ Hm) as [Hraw _].
    destruct (compute_metrics_duration _ _ Hm) as (s1 & H1 & Hd1).
    assert (s1 = a) as ->.
    { unfold fill_duration, get in H1.
      rewrite (Hframe "duration_min"), (Hframe "start_ts") in H1
        by reflexivity.
      fold (get d "duration_min") (get d "start_ts") in H1.
      rewrite Hdur, Hstart in H1. cbn [andb] in H1. by apply Ok_inj in H1. }
    rewrite !csv_row_lookup by reflexivity. unfold get_or.
    rewrite Hd1, (Hframe "duration_min") by reflexivity.
    by rewrite (Hraw "end_ts"), He by reflexivity.
  - intros t Ht Hnt Hnow Hnone Hfmt.
    by apply (end_unreadable_start_raises inp now_ts t st d).
Qed.

(** X30.  What [end] stores for a tournament session (mtt or spin) when
    the operator gives the buy-in and the prize totals: the two totals as
    given, the profit [round(prize - buyin, 2)] whatever the bankrolls
    are, and, for a positive buy-in total, the ROI computed from that
    rounded profit. *)
Theorem end_tournament (inp : end_inputs) (now_ts : string) (st : store)
    (d : record) (f0 : string) (b p : float) :
  active st = Draft d ->
  d !! "format" = Some (VStr f0) ->
  is_mtt_or_spin (lower f0) = true ->
  ei_buyin_prize inp = Some (b, p) ->
  status (cmd_end inp now_ts st) = Ok 0 ->
  exists row,
    final (cmd_end inp now_ts st)
      = {| active := NoFile; csv := csv st ++ [row] |}
    /\ row !! "buyin_total" = Some (VFloat b)
    /\ row !! "prize_total" = Some (VFloat p)
    /\ row !! "profit" = Some (VFloat (PyFloat.round2 (p - b)))
    /\ ((0 <? b)%float = true ->
        row !! "roi"
        = Some (VFloat (PyFloat.round2 (PyFloat.round2 (p - b) / b * 100)))).
Proof.
  intros Ha Hf0 Hmtt Hbp Hs.
  destruct (cmd_end_success inp now_ts st d Ha Hs)
    as (a & errs & s & Hc & Hm & ->).
  exists (csv_row s). split; [done|].
  destruct (end_collect_frame _ _ _ _ _ Hc) as (_ & _ & Hframe).
  assert (a !! "buyin_total" = Some (VFloat b)
          /\ a !! "prize_total" = Some (VFloat p)) as [Hb Hp].
  { apply end_collect_inv in Hc
      as (fmt & a1 & a2 & a3 & Hfmt & _ & -> & H3 & ->).
    assert (fmt = lower f0) as ->.
    { unfold get in Hfmt. rewrite Hf0 in Hfmt.
      change (default VNone (Some (VStr f0))) with (VStr f0) in Hfmt.
      rewrite or_empty_VStr in Hfmt. by apply Ok_inj in Hfmt. }
    rewrite Hmtt in H3. rewrite !lookup_insert_ne by done.
    assert (a3 !! "buyin_total" = end_mtt_spin_inputs inp a1 !! "buyin_total"
            /\ a3 !! "prize_total"
               = end_mtt_spin_inputs inp a1 !! "prize_total") as [-> ->].
    { destruct (negb _) in H3; [|by apply Ok_inj in H3 as <-].
      apply bind_Ok_inv in H3 as (pre & _ & H3). apply Ok_inj in H3 as <-.
      by rewrite !lookup_insert_ne. }
    unfold end_mtt_spin_inputs. rewrite Hbp.
    split; [|apply lookup_insert_eq].
    rewrite lookup_insert_ne by done. apply lookup_insert_eq. }
  assert (value_lower (get_or a "format" (VStr "")) = Ok (lower f0)) as Hfmt.
  { unfold get_or. rewrite (Hframe "format") by reflexivity. by rewrite Hf0. }
  assert (_to_float (get a "buyin_total") = Some b) as Tb.
  { unfold get. by rewrite Hb. }
  assert (_to_float (get a "prize_total") = Some p) as Tp.
  { unfold get. by rewrite Hp. }
  assert (s !! "profit" = Some (VFloat (PyFloat.round2 (p - b)))) as Hprofit.
  { destruct (compute_metrics_profit _ _ Hm) as (fmt & Hfmt' & ->).
    rewrite Hfmt in Hfmt'. apply Ok_inj in Hfmt' as <-.
    by rewrite Hmtt, Tb, Tp. }
  destruct (compute_metrics_blocks a s Hm)
    as (fmt' & s1 & s2 & s3 & s4 & _ & _ & _ & _ & Es & F1 & F2 & F3 & F4 & _).
  assert (forall k v, k ≠ "currency" -> k ≠ "roi" -> k ≠ "profit" ->
            k ≠ "bb_profit" -> k ≠ "bb_per_100" -> k ≠ "duration_min" ->
            a !! k = Some v -> is_None v = false -> s !! k = Some v)
    as Hkeep.
  { intros k v ? ? ? ? ? ? Hv Hn. rewrite Es.
    apply final_lookup_Some; [done| |done].
    by rewrite F4, F3, F2, F1. }
  rewrite !csv_row_lookup by reflexivity. unfold get_or.
  rewrite (Hkeep "buyin_total" (VFloat b)), (Hkeep "prize_total" (VFloat p)),
    Hprofit by done.
  split; [done|]. split; [done|]. split; [done|].
  intros Hpos.
  rewrite (compute_metrics_roi a s (lower f0) (PyFloat.round2 (p - b)) b);
    try done.
  unfold get. by rewrite Hprofit.
Qed.

End Lifecycle_more.

(** ** The aggregator: the filter loop and the totals *)

Section Stats_more.
Context `{RT : PyRuntime}.

Lemma keeps_row_passes (ff : option string) (from_d to_d : option Z)
    (r : record) (b : bool) :
  keeps_row ff from_d to_d r = Ok b -> (b = true <-> passes ff from_d to_d r).
Proof.
  unfold keeps_row, passes. intros H.
  apply bind_Ok_inv in H as (other & Ho & H).
  assert (other = false <->
          forall f, ff = Some f -> f ≠ "" ->
            value_lower (get_or r "format" (VStr "")) = Ok f) as Hfmt.
  { destruct ff as [f|].
    - destruct (String.eqb_spec f "") as [->|Hne].
      + apply Ok_inj in Ho as <-. split; [|done].
        intros _ f' [= <-] Hne. done.
      + apply bind_Ok_inv in Ho as (fmt & Hl & Ho). apply Ok_inj in Ho as <-.
        rewrite Hl. split.
        * intros E f' [= <-] _. apply negb_false_iff in E.
          by apply String.eqb_eq in E as ->.
        * intros E. specialize (E f eq_refl Hne). apply Ok_inj in E as ->.
          by rewrite String.eqb_refl.
    - apply Ok_inj in Ho as <-. split; [|done]. by intros _ f' [=]. }
  destruct other.
  - apply Ok_inj in H as <-. split; [done|]. intros [E _].
    by apply Hfmt in E.
  - assert (forall f, ff = Some f -> f ≠ "" ->
              value_lower (get_or r "format" (VStr "")) = Ok f) as Hf
      by by apply Hfmt.
    clear Hfmt Ho.
    destruct (dt_from_iso (get_or r "start_ts" (VStr ""))) as [dt|e];
      cbn [except_Exception] in H.
    + destruct from_d as [f|], to_d as [t|];
        repeat match type of H with
        | context [?a <? ?b] => destruct (Z.ltb_spec a b)
        end; apply Ok_inj in H as <-.
      all: split; [try done|].
      all: try (intros _; split; [exact Hf|]; exists dt; split; [done|];
                split; [intros ? [= <-]|intros ? [= <-]]; lia).
      all: intros [_ (dt' & [= <-] & Hfrom & Hto)].
      all: try (specialize (Hfrom f eq_refl)); try (specialize (Hto t eq_refl));
        lia.
    + apply Ok_inj in H as <-. split; [done|]. by intros [_ (dt & [=] & _)].
Qed.

Lemma filter_rows_filter (ff : option string) (from_d to_d : option Z)
    (rows filt : list record) :
  filter_rows ff from_d to_d rows = Ok filt ->
  filt = filter (fun r => kept ff from_d to_d r = true) rows.
Proof.
  revert filt. induction rows as [|r rows IH]; intros filt H.
  - by apply Ok_inj in H as <-.
  - cbn [filter_rows] in H.
    apply bind_Ok_inv in H as (keep & Hk & H).
    apply bind_Ok_inv in H as (filt' & Hf & H). apply Ok_inj in H as <-.
    rewrite (IH filt' Hf).
    assert (kept ff from_d to_d r = keep) as Hkept.
    { unfold kept. by rewrite Hk. }
    destruct keep.
    + by rewrite filter_cons_True.
    + rewrite filter_cons_False; [done|]. by rewrite Hkept.
Qed.

Lemma keeps_row_returns (ff : option string) (from_d to_d : option Z)
    (r : record) :
  ff = None \/ ff = Some "" \/ format_ready r = true ->
  exists b, keeps_row ff from_d to_d r = Ok b.
Proof.
  intros H. unfold keeps_row.
  assert (exists other,
            match ff with
            | Some f =>
                if String.eqb f "" then Ok false
                else fmt ← value_lower (get_or r "format" (VStr ""));
                     Ok (negb (String.eqb fmt f))
            | None => Ok false
            end = Ok other) as [other ->].
  { destruct H as [->|[->|H]]; [by eexists ..|].
    destruct ff as [f|]; [|by eexists].
    destruct (String.eqb f ""); [by eexists|].
    unfold format_ready in H.
    destruct (value_lower _); [|done]. rewrite bind_Ok. by eexists. }
  rewrite bind_Ok. destruct other; [by eexists|].
  destruct (except_Exception _); [|by eexists].
  by repeat (destruct (match _ with Some _ => _ | None => _ end));
    eexists.
Qed.

Lemma filter_rows_returns (ff : option string) (from_d to_d : option Z)
    (rows : list record) :
  ff = None \/ ff = Some "" \/ forallb format_ready rows = true ->
  exists filt, filter_rows ff from_d to_d rows = Ok filt.
Proof.
  intros H. induction rows as [|r rows IH]; [by eexists|].
  cbn [filter_rows].
  destruct (keeps_row_returns ff from_d to_d r) as [b ->].
  { destruct H as [?|[?|H]]; auto. right; right.
    cbn [forallb] in H. by apply andb_prop in H as [? _]. }
  destruct IH as [filt ->].
  { destruct H as [?|[?|H]]; auto. right; right.
    cbn [forallb] in H. by apply andb_prop in H as [_ ?]. }
  rewrite !bind_Ok. by eexists.
Qed.

(** X16.  The filter loop of [stats] keeps, in file order, exactly the
    rows that pass the filters: those whose lower-cased format is the one
    asked for, when one is asked for, and whose start stamp reads as a date
    not before the lower bound and not after the upper bound; a row whose
    start stamp does not read is dropped. *)
Theorem filter_rows_selects (ff : option string) (from_d to_d : option Z)
    (rows : list record) :
  ff = None \/ ff = Some "" \/ forallb format_ready rows = true ->
  exists filt,
    filter_rows ff from_d to_d rows = Ok filt
    /\ sublist filt rows
    /\ forall r, r ∈ filt <-> r ∈ rows /\ passes ff from_d to_d r.
Proof.
  intros H. destruct (filter_rows_returns ff from_d to_d rows H) as [filt Hf].
  exists filt. split; [done|].
  rewrite (filter_rows_filter _ _ _ _ _ Hf).
  split; [apply sublist_filter|].
  intros r. rewrite list_elem_of_filter.
  assert (r ∈ rows -> (kept ff from_d to_d r = true <-> passes ff from_d to_d r))
    as Hr.
  { intros Hin.
    destruct (keeps_row_returns ff from_d to_d r) as [b Hb].
    { destruct H as [?|[?|H]]; auto. right; right.
      rewrite forallb_forall in H. apply H.
      by apply list_elem_of_In. }
    unfold kept. rewrite Hb. by apply keeps_row_passes. }
  split.
  - intros [Hk Hin]. split; [done|]. by apply Hr.
  - intros [Hin Hp]. split; [|done]. by apply Hr.
Qed.

(** One round of the aggregation loop adds the minutes and the profit of
    the row to the totals, whatever its format. *)
Lemma aggregate_row_totals (t t' : totals) (r : record) :
  aggregate_row t r = Ok t' ->
  total_minutes t' = total_minutes t + int_field "duration_min" r
  /\ total_profit t'
     = (total_profit t + PyFloat.or_zero (_to_float (get r "profit")))%float.
Proof.
  unfold aggregate_row, int_field. intros H.
  apply bind_Ok_inv in H as (fmt & _ & H).
  apply bind_Ok_inv in H as (dur & -> & H). cbv zeta in H.
  apply bind_Ok_inv in H as (ag' & _ & H).
  apply Ok_inj in H as <-. done.
Qed.

Lemma aggregate_totals (filt : list record) (t t' : totals) :
  aggregate t filt = Ok t' ->
  total_minutes t'
  = fold_left Z.add (int_column "duration_min" filt) (total_minutes t)
  /\ total_profit t'
     = fold_left PrimFloat.add (float_column "profit" filt) (total_profit t).
Proof.
  revert t. induction filt as [|r filt IH]; intros t H.
  - by apply Ok_inj in H as <-.
  - cbn [aggregate] in H. apply bind_Ok_inv in H as (t1 & H1 & H).
    destruct (aggregate_row_totals _ _ _ H1) as [Hm Hp].
    destruct (IH t1 H) as [-> ->].
    unfold int_column, float_column. cbn [map fold_left].
    by rewrite Hm, Hp.
Qed.

Lemma fold_count_general (f : string) (l : list record) (a : agg) :
  ag_minutes (fold_left (count_row f) l a)
  = fold_left Z.add (int_column "duration_min" l) (ag_minutes a)
  /\ ag_profit (fold_left (count_row f) l a)
     = fold_left PrimFloat.add (float_column "profit" l) (ag_profit a).
Proof.
  revert a. induction l as [|r l IH]; intros a; [done|].
  simpl fold_left. unfold float_column, int_column. simpl map. simpl fold_left.
  by destruct (IH (count_row f a r)) as [-> ->].
Qed.

Lemma totals_zero_lookup (f : string) :
  ag totals_zero !! f = if bool_decide (f ∈ FORMATS) then Some agg_zero else None.
Proof.
  unfold totals_zero, FORMATS. cbn [ag map].
  destruct (decide (f = "cash")) as [->|H1]; [reflexivity|].
  destruct (decide (f = "mtt")) as [->|H2]; [reflexivity|].
  destruct (decide (f = "spin")) as [->|H3]; [reflexivity|].
  rewrite bool_decide_eq_false_2.
  - cbn [list_to_map foldr]. by rewrite !lookup_insert_ne.
  - rewrite !not_elem_of_cons. repeat split; try done. apply not_elem_of_nil.
Qed.

(** X17.  The totals of [stats] run over every filtered row: the total
    minutes and the total profit are the sums of the two columns over all
    rows, in file order.  Each of the three formats has the count, the
    minutes and the profit of its own rows; a row of any other format is
    in the totals and in no breakdown. *)
Theorem totals_over_all_rows (filt : list record) :
  forallb row_ready filt = true ->
  exists t,
    aggregate totals_zero filt = Ok t
    /\ total_minutes t = Z_sum (int_column "duration_min" filt)
    /\ total_profit t = float_sum (float_column "profit" filt)
    /\ (forall f, f ∈ FORMATS ->
          exists a, ag t !! f = Some a
            /\ ag_sessions a = Z.of_nat (length (rows_of_format f filt))
            /\ ag_minutes a
               = Z_sum (int_column "duration_min" (rows_of_format f filt))
            /\ ag_profit a
               = float_sum (float_column "profit" (rows_of_format f filt)))
    /\ (forall f, f ∉ FORMATS -> ag t !! f = None).
Proof.
  intros Hr. destruct (aggregate_folds filt totals_zero Hr) as (t & Ht & Hag).
  exists t. split; [done|].
  destruct (aggregate_totals _ _ _ Ht) as [Hm Hp].
  split; [exact Hm|]. split; [exact Hp|]. split.
  - intros f Hf. rewrite Hag, totals_zero_lookup.
    rewrite bool_decide_eq_true_2 by done. cbn [fmap option_fmap option_map].
    eexists. split; [reflexivity|].
    rewrite fold_count_sessions.
    destruct (fold_count_general f (rows_of_format f filt) agg_zero)
      as [-> ->].
    split; [cbn [ag_sessions agg_zero]; lia|]. done.
  - intros f Hf. rewrite Hag, totals_zero_lookup.
    by rewrite bool_decide_eq_false_2.
Qed.

End Stats_more.

(** ** One-shot logging: what [log] does to the files *)

Section OneShot_more.
Context `{RT : PyRuntime}.

(** [cmd_log] in its two halves. *)
Lemma cmd_log_halves (inp : log_inputs) (uuid : string) (st : store) :
  cmd_log inp uuid st =
    match li_date inp with
    | None => {| status := Ok 2; stderr := [MsgBadDate]; final := st |}
    | Some d =>
        match log_stamps inp d with
        | Raise e => {| status := Raise e; stderr := []; final := st |}
        | Ok None => {| status := Ok 2; stderr := [MsgBadTime]; final := st |}
        | Ok (Some (start_ts, end_ts, dur_min)) =>
            match compute_metrics (log_session inp uuid start_ts end_ts dur_min)
            with
            | Raise e => {| status := Raise e; stderr := []; final := st |}
            | Ok session =>
                {| status := Ok 0; stderr := [];
                   final := append_row st session |}
            end
        end
    end.
Proof. reflexivity. Qed.

(** The answers of the format touch four keys only. *)
Lemma log_session_frame (inp : log_inputs) (uuid start_ts end_ts : string)
    (dur_min : Z) (k : string) :
  k ≠ "hands" -> k ≠ "bb_value" -> k ≠ "buyin_total" -> k ≠ "prize_total" ->
  log_session inp uuid start_ts end_ts dur_min !! k
  = log_general inp uuid start_ts end_ts dur_min !! k.
Proof.
  intros H1%not_eq_sym H2%not_eq_sym H3%not_eq_sym H4%not_eq_sym.
  unfold log_session. cbv zeta.
  generalize (log_general inp uuid start_ts end_ts dur_min). intros g.
  destruct (String.eqb (li_format inp) "cash"), (is_mtt_or_spin (li_format inp)),
    (li_hands inp), (li_bb_value inp) as [b|], (li_buyin_prize inp) as [[]|];
    try destruct (0 <? b)%float;
    by rewrite ?lookup_insert_ne by assumption.
Qed.

(** The general entries of the record that [log] builds. *)
Lemma log_session_lookup (inp : log_inputs) (uuid start_ts end_ts : string)
    (dur_min : Z) :
  let session := log_session inp uuid start_ts end_ts dur_min in
  session !! "id" = Some (VStr uuid)
  /\ session !! "format" = Some (VStr (li_format inp))
  /\ session !! "currency" = Some (VStr (upper (li_currency inp)))
  /\ session !! "start_ts" = Some (VStr start_ts)
  /\ session !! "end_ts" = Some (VStr end_ts)
  /\ session !! "duration_min" = Some (VInt dur_min)
  /\ session !! "bankroll_start" = Some (VFloat (li_bankroll_start inp))
  /\ session !! "bankroll_end" = Some (VFloat (li_bankroll_end inp))
  /\ session !! "note" = Some (VStr (li_note inp)).
Proof.
  cbv zeta. rewrite !log_session_frame by done. repeat split; reflexivity.
Qed.

(** The row that a successful [log] appends. *)
Lemma cmd_log_row (inp : log_inputs) (uuid : string) (st : store) :
  status (cmd_log inp uuid st) = Ok 0 ->
  exists d start_ts end_ts dur_min row,
    li_date inp = Some d
    /\ log_stamps inp d = Ok (Some (start_ts, end_ts, dur_min))
    /\ final (cmd_log inp uuid st)
         = {| active := active st; csv := csv st ++ [row] |}
    /\ (forall k, is_Some (row !! k) <-> k ∈ CSV_FIELDS)
    /\ row !! "id" = Some (VStr uuid)
    /\ row !! "format" = Some (VStr (li_format inp))
    /\ row !! "currency" = Some (VStr (upper (li_currency inp)))
    /\ row !! "start_ts" = Some (VStr start_ts)
    /\ row !! "end_ts" = Some (VStr end_ts)
    /\ row !! "duration_min" = Some (VInt dur_min)
    /\ row !! "bankroll_start" = Some (VFloat (li_bankroll_start inp))
    /\ row !! "bankroll_end" = Some (VFloat (li_bankroll_end inp))
    /\ row !! "note" = Some (VStr (li_note inp)).
Proof.
  rewrite cmd_log_halves.
  destruct (li_date inp) as [d|]; [|by intros [=]].
  destruct (log_stamps inp d) as [[[[start_ts end_ts] dur_min]|]|e] eqn:Hst;
    [|by intros [=] ..].
  pose proof (log_session_lookup inp uuid start_ts end_ts dur_min) as Hl.
  cbv zeta in Hl. revert Hl.
  generalize (log_session inp uuid start_ts end_ts dur_min). intros session
    (Hid & Hfmt & Hcur & Hs & He & Hd & Hbs & Hbe & Hn).
  destruct (compute_metrics session) as [s'|e] eqn:Hc; [|by intros [=]].
  intros _. exists d, start_ts, end_ts, dur_min, (csv_row s').
  split; [done|]. split; [done|]. split; [reflexivity|].
  split; [apply csv_row_columns|].
  destruct (compute_metrics_keeps _ _ Hc) as [Hraw Hdur].
  assert (s' !! "currency" = Some (VStr (upper (li_currency inp)))) as Hcur'.
  { apply compute_metrics_inv in Hc as (? & ? & ? & ? & _ & _ & _ & _ & ->).
    rewrite lookup_insert_eq. unfold get_or. rewrite Hcur.
    change (default (VStr "") (Some (VStr (upper (li_currency inp)))))
      with (VStr (upper (li_currency inp))).
    by rewrite or_empty_VStr. }
  assert (in_empty_or_None (get session "duration_min") = false) as Hne.
  { unfold get. by rewrite Hd. }
  rewrite !csv_row_lookup by reflexivity. unfold get_or.
  rewrite (Hraw "id"), (Hraw "format"), (Hraw "start_ts"), (Hraw "end_ts"),
    (Hraw "bankroll_start"), (Hraw "bankroll_end"), (Hraw "note")
    by reflexivity.
  rewrite (Hdur Hne), Hcur', Hid, Hfmt, Hs, He, Hd, Hbs, Hbe, Hn.
  by repeat split.
Qed.


(** X19.  A session logged by its duration ends at the time of the
    command and starts that many minutes earlier: the session date that
    the operator gave plays no part.  The duration in the row is the one
    given.  When the start would fall outside the calendar the command
    dies with [OverflowError] and writes nothing. *)
Theorem log_by_duration (inp : log_inputs) (uuid : string) (st : store)
    (d dur_min : Z) (now : datetime) :
  li_date inp = Some d ->
  li_time inp = ByDuration dur_min now ->
  let w := wall_us now - dur_min * 60 * US_PER_SECOND in
  (forall d', cmd_log (with_date inp (Some d')) uuid st = cmd_log inp uuid st)
  /\ (~ (MINORDINAL <= w / US_PER_DAY <= MAXORDINAL) ->
      status (cmd_log inp uuid st) = Raise OverflowError
      /\ final (cmd_log inp uuid st) = st)
  /\ (status (cmd_log inp uuid st) = Ok 0 ->
      MINORDINAL <= w / US_PER_DAY <= MAXORDINAL
      /\ exists row,
           final (cmd_log inp uuid st)
             = {| active := active st; csv := csv st ++ [row] |}
           /\ row !! "start_ts"
              = Some (VStr (isoformat {| wall_us := w;
                                         utcoffset := utcoffset now |}))
           /\ row !! "end_ts" = Some (VStr (isoformat now))
           /\ row !! "duration_min" = Some (VInt dur_min)).
Proof.
  intros Hd Ht w.
  assert (log_stamps inp d =
            if (MINORDINAL <=? w / US_PER_DAY) && (w / US_PER_DAY <=? MAXORDINAL)
            then Ok (Some (isoformat {| wall_us := w;
                                        utcoffset := utcoffset now |},
                           isoformat now, dur_min))
            else Raise OverflowError) as Hst.
  { unfold log_stamps, log_duration, add_us. rewrite Ht. cbv zeta.
    replace (wall_us now + - (dur_min * 60 * US_PER_SECOND)) with w
      by (unfold w; lia).
    by destruct (_ && _). }
  split; [|split].
  - intros d'. rewrite !cmd_log_halves. rewrite Hd.
    change (li_date (with_date inp (Some d'))) with (Some d').
    cbv beta iota.
    assert (log_stamps (with_date inp (Some d')) d' = log_stamps inp d) as ->.
    { unfold log_stamps.
      change (li_time (with_date inp (Some d'))) with (li_time inp).
      by rewrite Ht. }
    reflexivity.
  - intros Hw. rewrite cmd_log_halves, Hd, Hst.
    destruct (_ && _) eqn:E; [|done].
    apply andb_prop in E as [?%Z.leb_le ?%Z.leb_le]. lia.
  - intros Hs.
    destruct (cmd_log_row inp uuid st Hs)
      as (d0 & a & b & c & row & Hd0 & Hst0 & Hf & _ & _ & _ & _ & Ha & Hb
          & Hc & _).
    rewrite Hd in Hd0. injection Hd0 as <-. rewrite Hst in Hst0.
    destruct (_ && _) eqn:E in Hst0; [|done].
    apply andb_prop in E as [?%Z.leb_le ?%Z.leb_le]. split; [lia|].
    apply Ok_inj in Hst0. injection Hst0 as <- <- <-.
    by exists row.
Qed.

End OneShot_more.

(** ** The receipt and the status report *)

Section Reports_facts.
Context `{RT : PyRuntime}.

Lemma fill_cash_reads_hands (s s3 : record) :
  fill_cash "cash" s = Ok s3 -> exists h, _to_int (get s "hands") = Ok h.
Proof.
  unfold fill_cash. cbn [String.eqb Ascii.eqb Bool.eqb]. intros H.
  apply bind_Ok_inv in H as (h & Hh & _). by exists h.
Qed.

Lemma is_text_eq (v : value) (t : string) :
  is_text v t = true -> v = VStr t.
Proof. destruct v; try done. cbn [is_text]. by intros ->%String.eqb_eq. Qed.

(** In a record that [compute_metrics] returned, the hand count of a cash
    session converts. *)
Lemma metrics_hands_convert (s s' : record) :
  compute_metrics s = Ok s' ->
  is_text (get_or s' "format" (VStr "")) "cash" = true ->
  exists h, _to_int (get s' "hands") = Ok h.
Proof.
  intros H Hfmt. apply compute_metrics_fixed in H.
  destruct (compute_metrics_blocks s' s' H)
    as (fmt & s1 & s2 & s3 & s4 & Hf & H1 & H3 & H4 & _ & F1 & F2 & _).
  apply is_text_eq in Hfmt. rewrite Hfmt in Hf.
  apply Ok_inj in Hf as <-.
  change (lower "cash") with "cash" in H3.
  destruct (fill_cash_reads_hands _ _ H3) as [h Hh].
  exists h. rewrite <- Hh. unfold get. by rewrite F2, F1.
Qed.

(** What the receipt does on a record that [compute_metrics] returned. *)
Lemma receipt_of_metrics (s s' : record) :
  compute_metrics s = Ok s' ->
  _print_session_receipt s' =
    (dur ← _to_int (get s' "duration_min"); or_empty_strip (get s "note")).
Proof.
  intros H. unfold _print_session_receipt. cbv zeta.
  destruct (_to_int (get s' "duration_min")) as [dur|e]; [|done].
  rewrite !bind_Ok.
  assert (get s' "note" = get s "note") as ->.
  { unfold get. by rewrite (proj1 (compute_metrics_keeps _ _ H) "note"). }
  destruct (is_text _ "cash") eqn:E; [|by rewrite bind_Ok].
  destruct (metrics_hands_convert s s' H E) as [h ->].
  by rewrite !bind_Ok.
Qed.

(** X20.  The receipt that [end] and [log] print for the record that
    [compute_metrics] returned: the conversion of the hand count cannot
    fail there, so the receipt returns exactly when the duration converts
    and the note of the session is a string or falsy; it raises nothing
    but [OverflowError] (a duration that reads as an infinity) and
    [AttributeError] (a note that is a number other than zero). *)
Theorem receipt_after_metrics (s s' : record) :
  compute_metrics s = Ok s' ->
  (_print_session_receipt s' = Ok tt <->
     is_ok (_to_int (get s' "duration_min")) = true
     /\ (truthy (get s "note") = true -> exists t, get s "note" = VStr t))
  /\ (forall e, _print_session_receipt s' = Raise e ->
        e = OverflowError \/ e = AttributeError).
Proof.
  intros H. rewrite (receipt_of_metrics s s' H).
  destruct (to_int_cases (get s' "duration_min")) as [[n ->]| ->];
    [rewrite bind_Ok|].
  - unfold or_empty_strip, or_empty. cbn [is_ok].
    destruct (truthy (get s "note")) eqn:Ht.
    + destruct (get s "note") as [|n'|f|t]; try done.
      * split; [split; [by intros [=]|]|intros e [= <-]; by right].
        intros [_ (t & [=])]; done.
      * split; [split; [by intros [=]|]|intros e [= <-]; by right].
        intros [_ (t & [=])]; done.
      * split; [|by intros e [=]]. split; [|done].
        intros _. split; [done|]. intros _. by exists t.
    + split; [|by intros e [=]]. split; [|done]. intros _. by split.
  - split; [|intros e [= <-]; by left]. split; [by intros [=]|].
    by intros [[=] _].
Qed.

Lemma status_elapsed_nonneg (start_ts : value) (now : datetime) :
  0 <= status_elapsed start_ts now.
Proof. unfold status_elapsed. lia. Qed.

(** X21.  [status] changes neither file and always exits with status 0,
    its only messages being those of the load; it reports on the draft
    exactly when the store has a usable one.  The minutes it shows as
    elapsed are never negative: they are the duration that
    [duration_minutes] gives from the start stamp to the time of the
    command, and 0 when that computation raises. *)
Theorem status_report (now : datetime) (now_ts : string) (st : store) :
  fromisoformat now_ts = Some now ->
  status (cmd_status now st).1 = Ok 0
  /\ final (cmd_status now st).1 = st
  /\ stderr (cmd_status now st).1 = (load_active st).2
  /\ (is_Some (cmd_status now st).2 <-> usable_draft st)
  /\ forall d, active st = Draft d -> d ≠ ∅ ->
       exists lines,
         (cmd_status now st).2 = Some lines
         /\ 0 <= sl_elapsed lines
         /\ sl_elapsed lines =
              match duration_minutes (get_or d "start_ts" (VStr ""))
                      (VStr now_ts) with
              | Ok mins => mins
              | Raise _ => 0
              end.
Proof.
  intros Hnow. unfold cmd_status.
  destruct (dict_truthy (load_active st).1) eqn:E.
  - pose proof E as (d & Hd & Hne)%usable_draft_truthy.
    rewrite (usable_draft_load _ _ Hd) in *.
    cbn [fst snd] in *. rewrite E. cbn [negb fst snd status final stderr].
    change (default ∅ (Some d)) with d.
    split; [done|]. split; [done|]. split; [done|].
    split; [split; [intros _; by exists d|intros _; by eexists]|].
    intros d' Hd' _. assert (d' = d) as -> by congruence.
    eexists. split; [reflexivity|]. cbn [sl_elapsed].
    split; [apply status_elapsed_nonneg|].
    unfold status_elapsed, duration_minutes.
    rewrite (dt_from_iso_Some _ _ Hnow).
    destruct (dt_from_iso (get_or d "start_ts" (VStr ""))) as [sdt|]; [|done].
    rewrite !bind_Ok.
    destruct (dt_sub now sdt) as [td|]; [|done]. rewrite !bind_Ok.
    destruct (PyFloat.truediv_int _ 60) as [q|]; [|done]. rewrite !bind_Ok.
    destruct (PyFloat.round_int q) as [mins|]; [|done]. by rewrite bind_Ok.
  - assert (~ usable_draft st) as Hno.
    { intros H. apply usable_draft_truthy in H. congruence. }
    destruct (load_active st) as [a errs]. cbn [fst snd] in *. rewrite E.
    cbn [negb fst snd status final stderr].
    split; [done|]. split; [done|]. split; [done|].
    split; [split; [by intros [? [=]]|done]|].
    intros d Hd Hne. destruct Hno. by exists d.
Qed.

End Reports_facts.

(** ** The [stats] command: options and report *)

Section Stats_command_facts.
Context `{RT : PyRuntime}.
Variable parse : string -> option Z.

(** X22.  [stats] looks at its options only when the CSV file has rows:
    on an empty file it exits with status 0 whatever the options are.
    Otherwise the first refused option alone is reported, in the order
    [--from], [--to], [--format], with status 2 and no report; and these
    are the only exits with status 2, the other status being 0. *)
Theorem stats_options (args : stats_args) (rows : list record) :
  (rows = [] ->
     cmd_stats parse args rows
     = Ok {| so_status := 0; so_stderr := []; so_report := None |})
  /\ (rows ≠ [] -> date_bound parse (sa_from args) = None ->
      cmd_stats parse args rows
      = Ok {| so_status := 2; so_stderr := [MsgBadFrom]; so_report := None |})
  /\ (rows ≠ [] -> date_bound parse (sa_from args) ≠ None ->
      date_bound parse (sa_to args) = None ->
      cmd_stats parse args rows
      = Ok {| so_status := 2; so_stderr := [MsgBadTo]; so_report := None |})
  /\ (rows ≠ [] -> date_bound parse (sa_from args) ≠ None ->
      date_bound parse (sa_to args) ≠ None ->
      unknown_format (format_filter (sa_format args)) = true ->
      cmd_stats parse args rows
      = Ok {| so_status := 2; so_stderr := [MsgBadFormat];
              so_report := None |})
  /\ (forall out, cmd_stats parse args rows = Ok out ->
        (so_status out = 0 \/ so_status out = 2)
        /\ (so_status out = 2 <-> rows ≠ [] /\ refused parse args)
        /\ (so_status out = 0 -> so_stderr out = [])).
Proof.
  unfold cmd_stats, refused.
  split; [by intros ->|].
  destruct rows as [|r rows'].
  - split; [by intros []|]. split; [by intros []|]. split; [by intros []|].
    intros out H. apply Ok_inj in H as <-. cbn.
    split; [by left|]. split; [|done]. split; [done|]. by intros [[] _].
  - destruct (date_bound parse (sa_from args)) as [from_d|].
    2:{ split; [done|]. split; [done|]. split; [done|].
        intros out H. apply Ok_inj in H as <-. cbn.
        split; [by right|]. split; [|done]. split; [|done].
        intros _. split; [done|]. by left. }
    destruct (date_bound parse (sa_to args)) as [to_d|].
    2:{ split; [done|]. split; [done|]. split; [done|].
        intros out H. apply Ok_inj in H as <-. cbn.
        split; [by right|]. split; [|done]. split; [|done].
        intros _. split; [done|]. right. by left. }
    cbv zeta.
    destruct (unknown_format (format_filter (sa_format args))).
    { split; [done|]. split; [done|]. split; [done|].
      intros out H. apply Ok_inj in H as <-. cbn.
      split; [by right|]. split; [|done]. split; [|done].
      intros _. split; [done|]. right. by right. }
    split; [done|]. split; [done|]. split; [done|].
    intros out H. apply bind_Ok_inv in H as (filt & _ & H).
    assert (so_status out = 0 /\ so_stderr out = []) as [Hs He].
    { destruct filt; [by apply Ok_inj in H as <-|].
      apply bind_Ok_inv in H as (rep & _ & H). by apply Ok_inj in H as <-. }
    split; [by left|]. split; [|done]. rewrite Hs. split; [done|].
    by intros [_ [?|[?|?]]].
Qed.











End Stats_command_facts.

(** ** Prompts: what the answers of the operator satisfy *)

Section Prompts_facts.
Context `{RT : PyRuntime} `{TX : PyText}.

Lemma again_Some {A} (m : prompt_message)
    (r : list prompt_message * option (A * list string))
    (ms : list prompt_message) (o : option (A * list string)) :
  again m r = (ms, o) -> exists ms', ms = m :: ms' /\ r = (ms', o).
Proof.
  unfold again. destruct r as [ms' o']. cbn [fst snd].
  intros [= <- <-]. by exists ms'.
Qed.

Lemma reads_again (lines : list string) (l : string) (m : prompt_message)
    (ms : list prompt_message) (rest : list string)
    (accepted : string -> Prop) :
  reads lines ms rest accepted ->
  reads (l :: lines) (m :: ms) rest accepted.
Proof.
  intros (used & line & -> & Hlen & Hacc).
  exists (l :: used), line. cbn [length app]. by rewrite Hlen.
Qed.

Lemma reads_first (l : string) (rest : list string)
    (accepted : string -> Prop) :
  accepted l -> reads (l :: rest) [] rest accepted.
Proof. intros H. by exists [], l. Qed.

Lemma prompt_float_reads (default min_value : option float)
    (lines : list string) (ms : list prompt_message)
    (o : option (float * list string)) :
  prompt_float default min_value lines = (ms, o) ->
  match o with
  | Some (v, rest) =>
      below_float min_value v = false
      /\ reads lines ms rest (fun line =>
           (strip line = "" /\ default = Some v)
           \/ float_of_str (replace_comma (strip line)) = Some v)
  | None => length ms = length lines
  end.
Proof.
  revert ms. induction lines as [|l lines IH]; intros ms H.
  - cbn [prompt_float] in H. by injection H as <- <-.
  - cbn [prompt_float] in H. cbv zeta in H.
    assert (forall m, again m (prompt_float default min_value lines) = (ms, o) ->
              match o with
              | Some (v, rest) =>
                  below_float min_value v = false
                  /\ reads (l :: lines) ms rest (fun line =>
                       (strip line = "" /\ default = Some v)
                       \/ float_of_str (replace_comma (strip line)) = Some v)
              | None => length ms = length (l :: lines)
              end) as Hretry.
    { intros m (ms' & -> & Hr)%again_Some. specialize (IH ms' Hr).
      destruct o as [[v rest]|].
      - destruct IH as [Hb Hreads]. split; [done|]. by apply reads_again.
      - cbn [length]. by rewrite IH. }
    destruct default as [d|].
    + destruct (String.eqb_spec (strip l) "") as [E|E].
      * destruct (below_float min_value d) eqn:Hb; [by apply (Hretry _ H)|].
        injection H as <- <-. split; [done|]. apply reads_first. by left.
      * destruct (float_of_str (replace_comma (strip l))) as [val|] eqn:Ev;
          [|by apply (Hretry _ H)].
        destruct (below_float min_value val) eqn:Hb; [by apply (Hretry _ H)|].
        injection H as <- <-. split; [done|]. apply reads_first. by right.
    + destruct (float_of_str (replace_comma (strip l))) as [val|] eqn:Ev;
        [|by apply (Hretry _ H)].
      destruct (below_float min_value val) eqn:Hb; [by apply (Hretry _ H)|].
      injection H as <- <-. split; [done|]. apply reads_first. by right.
Qed.

(** X24.  [prompt_float] prints one message for each line it rejects and
    returns the number read from the first line it accepts (the default,
    when there is one and the line is blank), a comma counting as the
    decimal point.  The number returned is never below the minimum, though
    it need not be at least the minimum: a NaN passes.  When the input
    ends first, every line was rejected. *)
Theorem prompt_float_result (default min_value : option float)
    (lines : list string) (ms : list prompt_message)
    (o : option (float * list string)) :
  prompt_float default min_value lines = (ms, o) ->
  match o with
  | Some (v, rest) =>
      (forall m, min_value = Some m -> (v <? m)%float = false)
      /\ exists used line,
           lines = used ++ line :: rest /\ length used = length ms
           /\ ((strip line = "" /\ default = Some v)
               \/ float_of_str (replace_comma (strip line)) = Some v)
  | None => length ms = length lines
  end.
Proof.
  intros H. apply prompt_float_reads in H.
  destruct o as [[v rest]|]; [|done].
  destruct H as [Hb Hreads]. split; [|exact Hreads].
  intros m ->. exact Hb.
Qed.

Lemma prompt_int_reads (default min_value : option Z)
    (lines : list string) (ms : list prompt_message)
    (o : option (Z * list string)) :
  prompt_int default min_value lines = (ms, o) ->
  match o with
  | Some (v, rest) =>
      below_int min_value v = false
      /\ reads lines ms rest (fun line =>
           (strip line = "" /\ default = Some v)
           \/ int_of_str (strip line) = Some v)
  | None => length ms = length lines
  end.
Proof.
  revert ms. induction lines as [|l lines IH]; intros ms H.
  - cbn [prompt_int] in H. by injection H as <- <-.
  - cbn [prompt_int] in H. cbv zeta in H.
    assert (forall m, again m (prompt_int default min_value lines) = (ms, o) ->
              match o with
              | Some (v, rest) =>
                  below_int min_value v = false
                  /\ reads (l :: lines) ms rest (fun line =>
                       (strip line = "" /\ default = Some v)
                       \/ int_of_str (strip line) = Some v)
              | None => length ms = length (l :: lines)
              end) as Hretry.
    { intros m (ms' & -> & Hr)%again_Some. specialize (IH ms' Hr).
      destruct o as [[v rest]|].
      - destruct IH as [Hb Hreads]. split; [done|]. by apply reads_again.
      - cbn [length]. by rewrite IH. }
    destruct default as [d|].
    + destruct (String.eqb_spec (strip l) "") as [E|E].
      * destruct (below_int min_value d) eqn:Hb; [by apply (Hretry _ H)|].
        injection H as <- <-. split; [done|]. apply reads_first. by left.
      * destruct (int_of_str (strip l)) as [val|] eqn:Ev;
          [|by apply (Hretry _ H)].
        destruct (below_int min_value val) eqn:Hb; [by apply (Hretry _ H)|].
        injection H as <- <-. split; [done|]. apply reads_first. by right.
    + destruct (int_of_str (strip l)) as [val|] eqn:Ev;
        [|by apply (Hretry _ H)].
      destruct (below_int min_value val) eqn:Hb; [by apply (Hretry _ H)|].
      injection H as <- <-. split; [done|]. apply reads_first. by right.
Qed.

(** X28.  [prompt_int] prints one message for each line it rejects and
    returns the integer read from the first line it accepts (the default,
    when there is one and the line is blank); the integer is at least the
    minimum.  When the input ends first, every line was rejected. *)
Theorem prompt_int_result (default min_value : option Z)
    (lines : list string) (ms : list prompt_message)
    (o : option (Z * list string)) :
  prompt_int default min_value lines = (ms, o) ->
  match o with
  | Some (v, rest) =>
      (forall m, min_value = Some m -> m <= v)
      /\ exists used line,
           lines = used ++ line :: rest /\ length used = length ms
           /\ ((strip line = "" /\ default = Some v)
               \/ int_of_str (strip line) = Some v)
  | None => length ms = length lines
  end.
Proof.
  intros H. apply prompt_int_reads in H.
  destruct o as [[v rest]|]; [|done].
  destruct H as [Hb Hreads]. split; [|exact Hreads].
  intros m ->. cbn [below_int] in Hb. lia.
Qed.

Lemma prompt_choice_reads (choices : list string) (default : option string)
    (lines : list string) (ms : list prompt_message)
    (o : option (string * list string)) :
  prompt_choice choices default lines = (ms, o) ->
  match o with
  | Some (c, rest) =>
      c ∈ choices
      /\ reads lines ms rest (fun line =>
           c = text_lower (strip (if String.eqb (strip line) ""
                                  then default_or default (strip line)
                                  else strip line)))
  | None => length ms = length lines
  end.
Proof.
  revert ms. induction lines as [|l lines IH]; intros ms H.
  - cbn [prompt_choice] in H. by injection H as <- <-.
  - cbn [prompt_choice] in H. cbv zeta in H.
    assert (forall m, again m (prompt_choice choices default lines) = (ms, o) ->
              match o with
              | Some (c, rest) =>
                  c ∈ choices
                  /\ reads (l :: lines) ms rest (fun line =>
                       c = text_lower (strip (if String.eqb (strip line) ""
                                  then default_or default (strip line)
                                  else strip line)))
              | None => length ms = length (l :: lines)
              end) as Hretry.
    { intros m (ms' & -> & Hr)%again_Some. specialize (IH ms' Hr).
      destruct o as [[v rest]|].
      - destruct IH as [Hb Hreads]. split; [done|]. by apply reads_again.
      - cbn [length]. by rewrite IH. }
    set (raw := match default with
                | Some d => if String.eqb (strip l) "" then d else strip l
                | None => strip l
                end) in H.
    assert (raw = if String.eqb (strip l) ""
                  then default_or default (strip l) else strip l) as Hraw.
    { unfold raw, default_or. destruct default; by destruct (String.eqb _ ""). }
    destruct (String.eqb raw ""); [by apply (Hretry _ H)|].
    destruct (bool_decide (text_lower (strip raw) ∈ choices)) eqn:Hin;
      [|by apply (Hretry _ H)].
    injection H as <- <-. apply bool_decide_eq_true in Hin.
    split; [done|]. apply reads_first. by rewrite <- Hraw.
Qed.

(** X25.  [prompt_choice] returns one of the choices: the first line
    that, stripped and lower-cased, is one of them, the default standing
    in for a blank line.  Every line before it is rejected with exactly one
    message; when the input ends first, every line was rejected. *)
Theorem prompt_choice_result (choices : list string) (default : option string)
    (lines : list string) (ms : list prompt_message)
    (o : option (string * list string)) :
  prompt_choice choices default lines = (ms, o) ->
  match o with
  | Some (c, rest) =>
      c ∈ choices
      /\ exists used line,
           lines = used ++ line :: rest /\ length used = length ms
           /\ c = text_lower (strip (if String.eqb (strip line) ""
                                     then default_or default (strip line)
                                     else strip line))
  | None => length ms = length lines
  end.
Proof.
  intros H. apply prompt_choice_reads in H.
  destruct o as [[c rest]|]; [|done].
  destruct H as [Hin (used & line & Hl & Hlen & Hc)].
  split; [exact Hin|]. by exists used, line.
Qed.

Lemma prompt_str_reads (default : option string) (allow_empty : bool)
    (lines : list string) (ms : list prompt_message)
    (o : option (string * list string)) :
  prompt_str default allow_empty lines = (ms, o) ->
  match o with
  | Some (v, rest) =>
      (allow_empty = false -> v ≠ "")
      /\ reads lines ms rest (fun line =>
           v = if String.eqb (strip line) ""
               then default_or default (strip line) else strip line)
  | None => length ms = length lines
  end.
Proof.
  revert ms. induction lines as [|l lines IH]; intros ms H.
  - cbn [prompt_str] in H. by injection H as <- <-.
  - cbn [prompt_str] in H. cbv zeta in H.
    set (raw := match default with
                | Some d => if String.eqb (strip l) "" then d else strip l
                | None => strip l
                end) in H.
    assert (raw = if String.eqb (strip l) ""
                  then default_or default (strip l) else strip l) as Hraw.
    { unfold raw, default_or. destruct default; by destruct (String.eqb _ ""). }
    destruct (String.eqb_spec raw "") as [E|E]; cbn [andb] in H.
    + destruct allow_empty; cbn [negb] in H.
      * injection H as <- <-. split; [done|]. apply reads_first.
        by rewrite <- Hraw.
      * apply again_Some in H as (ms' & -> & Hr). specialize (IH ms' Hr).
        destruct o as [[v rest]|].
        -- destruct IH as [Hb Hreads]. split; [done|]. by apply reads_again.
        -- cbn [length]. by rewrite IH.
    + injection H as <- <-. split; [done|]. apply reads_first.
      by rewrite <- Hraw.
Qed.

Lemma prompt_yes_no_reads (default : bool) (lines : list string)
    (ms : list prompt_message) (o : option (bool * list string)) :
  prompt_yes_no default lines = (ms, o) ->
  match o with
  | Some (b, rest) =>
      reads lines ms rest (fun line =>
        text_lower (strip line) = "" -> b = default)
  | None => length ms = length lines
  end.
Proof.
  revert ms. induction lines as [|l lines IH]; intros ms H.
  - cbn [prompt_yes_no] in H. by injection H as <- <-.
  - cbn [prompt_yes_no] in H. cbv zeta in H.
    destruct (String.eqb_spec (text_lower (strip l)) "") as [E|E].
    { injection H as <- <-. by apply reads_first. }
    destruct (bool_decide _).
    { injection H as <- <-. by apply reads_first. }
    destruct (bool_decide _).
    { injection H as <- <-. by apply reads_first. }
    apply again_Some in H as (ms' & -> & Hr). specialize (IH ms' Hr).
    destruct o as [[v rest]|].
    + by apply reads_again.
    + cbn [length]. by rewrite IH.
Qed.

Lemma reads_length (lines : list string) (ms : list prompt_message)
    (rest : list string) (accepted : string -> Prop) :
  reads lines ms rest accepted ->
  length lines = S (length ms + length rest).
Proof.
  intros (used & line & -> & Hlen & _).
  rewrite length_app. cbn [length]. lia.
Qed.

Lemma console_bind_Some {A B} (m : console A) (k : A -> console B)
    (lines : list string) (ms : list prompt_message) (b : B)
    (rest : list string) :
  console_bind m k lines = (ms, Some (b, rest)) ->
  exists ms1 a r1 ms2,
    m lines = (ms1, Some (a, r1)) /\ k a r1 = (ms2, Some (b, rest))
    /\ ms = ms1 ++ ms2.
Proof.
  unfold console_bind. destruct (m lines) as [ms1 [[a r1]|]]; [|by intros [=]].
  destruct (k a r1) as [ms2 o] eqn:E. intros [= <- ->].
  by exists ms1, a, r1, ms2.
Qed.

(** X26.  The answers that [start] collects: the format is one of the
    three, the stake is not empty, the starting bankroll is not below
    zero, and a number of tables, when the operator gives one, is at least
    1.  Every line typed is either the answer to one of the six questions
    (seven with the tables) or rejected with exactly one message. *)
Theorem ask_start_answers (lines : list string) (ms : list prompt_message)
    (inp : start_inputs) (rest : list string) :
  ask_start lines = (ms, Some (inp, rest)) ->
  si_format inp ∈ FORMATS
  /\ si_stake inp ≠ ""
  /\ (si_bankroll_start inp <? 0)%float = false
  /\ (forall t, si_tables inp = Some t -> 1 <= t)
  /\ length lines
     = (length rest + length ms
        + match si_tables inp with Some _ => 7 | None => 6 end)%nat.
Proof.
  unfold ask_start. intros H.
  apply console_bind_Some in H as (m1 & fmt & r1 & ms1 & H1 & H & ->).
  apply console_bind_Some in H as (m2 & stake & r2 & ms2 & H2 & H & ->).
  apply console_bind_Some in H as (m3 & cur & r3 & ms3 & H3 & H & ->).
  apply console_bind_Some in H as (m4 & br & r4 & ms4 & H4 & H & ->).
  apply console_bind_Some in H as (m5 & want & r5 & ms5 & H5 & H & ->).
  apply console_bind_Some in H as (m6 & tables & r6 & ms6 & H6 & H & ->).
  apply console_bind_Some in H as (m7 & note & r7 & ms7 & H7 & H & ->).
  injection H as <- <- <-.
  apply prompt_choice_reads in H1 as [Hfmt L1%reads_length].
  apply prompt_str_reads in H2 as [Hstake L2%reads_length].
  apply prompt_str_reads in H3 as [_ L3%reads_length].
  apply prompt_float_reads in H4 as [Hbr L4%reads_length].
  apply prompt_yes_no_reads in H5 as L5%reads_length.
  apply prompt_str_reads in H7 as [_ L7%reads_length].
  cbn [si_format si_stake si_bankroll_start si_tables].
  split; [done|]. split; [by apply Hstake|]. split; [exact Hbr|].
  rewrite !length_app, !length_nil.
  destruct want.
  - apply console_bind_Some in H6 as (m8 & t & r8 & ms8 & H8 & H6 & ->).
    injection H6 as <- <- <-.
    apply prompt_int_reads in H8 as [Ht L8%reads_length].
    split; [|rewrite !length_app, !length_nil; lia].
    intros t' [= <-]. cbn [below_int] in Ht. lia.
  - injection H6 as <- <- <-. split; [done|]. cbn [length]. lia.
Qed.

End Prompts_facts.

(** ** Durations: rounding to the minute *)

Section Duration_facts.
Context `{RT : PyRuntime}.

Lemma all_from_holds (n : nat) (lo : Z) (p : Z -> bool) :
  all_from n lo p = true ->
  forall s, lo <= s < lo + Z.of_nat n -> p s = true.
Proof.
  revert lo. induction n as [|n IH]; intros lo H s Hs; [lia|].
  cbn [all_from] in H. apply andb_prop in H as [H0 H].
  destruct (decide (s = lo)) as [->|Hne]; [done|].
  apply (IH (lo + 1) H). lia.
Qed.

(** Every distance from an hour backwards to twelve hours forwards,
    second by second. *)
Lemma seconds_round_to_minute :
  all_from (Z.to_nat 46801) (-3600) rounds_to_minute = true.
Proof. vm_cast_no_check (eq_refl true). Qed.

(** X27.  Between two naive stamps that lie a whole number of seconds
    apart, from an hour backwards to twelve hours forwards,
    [duration_minutes] gives the distance rounded to the nearest minute, a
    half minute going to the even minute (30 seconds are 0 minutes, 90
    seconds are 2), and 0 when the end is before the start. *)
Theorem duration_rounds_half_even (a b : string) (s e : datetime)
    (secs : Z) :
  fromisoformat a = Some s -> fromisoformat b = Some e ->
  utcoffset s = None -> utcoffset e = None ->
  wall_us e - wall_us s = secs * US_PER_SECOND ->
  -3600 <= secs <= 43200 ->
  duration_minutes (VStr a) (VStr b)
  = Ok (Z.max (PyFloat.round_half_even secs 60) 0).
Proof.
  intros Ha Hb Hs He Hd Hsecs. unfold duration_minutes.
  rewrite (dt_from_iso_Some _ _ Ha), (dt_from_iso_Some _ _ Hb), !bind_Ok.
  unfold dt_sub. rewrite Hs, He, bind_Ok, Hd.
  pose proof (all_from_holds _ _ _ seconds_round_to_minute secs) as Hc.
  unfold rounds_to_minute, minutes_between in Hc.
  destruct (q ← PyFloat.truediv_int (total_seconds (secs * US_PER_SECOND)) 60;
            mins ← PyFloat.round_int q; Ok (Z.max mins 0)) as [m|];
    [|by discriminate Hc; lia].
  f_equal. apply Z.eqb_eq. apply Hc. lia.
Qed.

End Duration_facts.
(** * The tracker on concrete sessions

    From here on the runtime is the concrete one. *)

Import Examples.
#[local] Existing Instance Ascii_runtime.runtime.

(** The tournament example: profit is 25 - 10 although the bankroll moved
    by 50. *)
Lemma profit_rule_witness :
  metrics_ready mtt_session = true
  /\ exists s', compute_metrics mtt_session = Ok s'
       /\ s' !! "profit" = Some (VFloat 15).
Proof.
  assert (metrics_ready mtt_session = true) as Hr by (vm_compute; reflexivity).
  split; [exact Hr|].
  destruct (profit_rule mtt_session Hr) as (fmt & s' & Hf & Hs & H1 & _).
  exists s'. split; [exact Hs|].
  assert (fmt = "mtt") as ->.
  { apply Ok_inj. rewrite <- Hf. vm_compute. reflexivity. }
  rewrite (H1 eq_refl 10%float 25%float); [|vm_compute; reflexivity ..].
  vm_compute. reflexivity.
Defined.

(** The cash example of the specification: profit 50, bb_profit 500,
    bb/100 250. *)
Lemma cash_bb_metrics_witness :
  metrics_ready cash_session = true
  /\ exists s', compute_metrics cash_session = Ok s'
       /\ s' !! "bb_profit" = Some (VFloat 500)
       /\ s' !! "bb_per_100" = Some (VFloat 250).
Proof.
  assert (metrics_ready cash_session = true) as Hr by (vm_compute; reflexivity).
  split; [exact Hr|].
  destruct (cash_bb_metrics cash_session Hr) as (s' & Hs & H);
    [vm_compute; reflexivity|].
  exists s'. split; [exact Hs|].
  assert (_to_float (get s' "profit") = Some 50%float) as Hp.
  { destruct (compute_metrics_profit _ _ Hs) as (fmt & Hf & Hp).
    assert (fmt = "cash") as ->.
    { apply Ok_inj. rewrite <- Hf. vm_compute. reflexivity. }
    unfold get. rewrite Hp. vm_compute. reflexivity. }
  destruct (H 50%float (PyFloat.nearest_float false 1 10) Hp)
    as [Hbp Hb100]; [vm_compute; reflexivity ..|].
  split.
  - rewrite Hbp. vm_compute. reflexivity.
  - destruct (Hb100 200) as (hf & Hhf & Hv); [vm_compute; reflexivity ..|].
    rewrite Hv. vm_compute in Hhf. apply Ok_inj in Hhf. rewrite <- Hhf.
    vm_compute. reflexivity.
Defined.

(** C2, as stated, fails.  On the cash session with profit 1, big blind 3
    and 50 hands the stored [bb_profit] is 0.33 and the stored
    [bb_per_100] is 0.67, while [round((0.33 / 50) * 100, 2)] is 0.66. *)
Lemma bb_per_100_not_from_rounded_bb_profit :
  exists s',
    compute_metrics cash_thirds = Ok s'
    /\ s' !! "bb_profit" = Some (VFloat (PyFloat.nearest_float false 33 100))
    /\ s' !! "bb_per_100" = Some (VFloat (PyFloat.nearest_float false 67 100))
    /\ PyFloat.round2 (PyFloat.nearest_float false 33 100 / 50 * 100)
       = PyFloat.nearest_float false 66 100
    /\ s' !! "bb_per_100"
       ≠ Some (VFloat (PyFloat.round2
                         (PyFloat.nearest_float false 33 100 / 50 * 100))).
Proof.
  destruct (compute_metrics_returns cash_thirds) as [s' Hs];
    [vm_compute; reflexivity|].
  assert (_to_float (get s' "profit") = Some 1%float) as Hp.
  { destruct (compute_metrics_profit _ _ Hs) as (fmt & Hf & Hp).
    assert (fmt = "cash") as ->.
    { apply Ok_inj. rewrite <- Hf. vm_compute. reflexivity. }
    unfold get. rewrite Hp. vm_compute. reflexivity. }
  assert (value_lower (get_or cash_thirds "format" (VStr "")) = Ok "cash")
    as Hfmt by (vm_compute; reflexivity).
  assert (_to_float (get cash_thirds "bb_value") = Some 3%float)
    as Hb by (vm_compute; reflexivity).
  destruct (compute_metrics_cash_values _ _ 1%float 3%float Hs Hfmt Hp Hb eq_refl)
    as [Hbp Hb100].
  destruct (Hb100 50) as (hf & Hhf & Hv); [vm_compute; reflexivity ..|].
  vm_compute in Hhf. apply Ok_inj in Hhf. subst hf.
  assert (PyFloat.round2 (1 / 3) = PyFloat.nearest_float false 33 100)
    as E1 by (vm_compute; reflexivity).
  assert (PyFloat.round2 (1 / 3 / 50 * 100) = PyFloat.nearest_float false 67 100)
    as E2 by (vm_compute; reflexivity).
  rewrite E1 in Hbp. rewrite E2 in Hv.
  exists s'. split; [exact Hs|]. split; [exact Hbp|]. split; [exact Hv|].
  split; [vm_compute; reflexivity|].
  rewrite Hv. intros H.
  assert (forall a b, Some (VFloat a) = Some (VFloat b) -> Prim2SF a = Prim2SF b)
    as Hinj by (intros a b [= ->]; reflexivity).
  apply Hinj in H. vm_compute in H. discriminate H.
Qed.

(** A cash session with a zero big blind and no hand count keeps
    [bb_profit] and [bb_per_100] empty. *)
Lemma bb_metrics_absent_witness :
  metrics_ready cash_no_bb = true
  /\ exists s', compute_metrics cash_no_bb = Ok s'
       /\ s' !! "bb_profit" = Some (VStr "")
       /\ s' !! "bb_per_100" = Some (VStr "").
Proof.
  assert (metrics_ready cash_no_bb = true) as Hr by (vm_compute; reflexivity).
  split; [exact Hr|].
  destruct (proj2 bb_metrics_absent cash_no_bb Hr) as (s' & Hs & Hbb & Hh);
    [vm_compute; reflexivity|].
  exists s'. split; [exact Hs|].
  destruct Hbb as (_ & _ & H1 & H2); [vm_compute; reflexivity|].
  split; [apply H1|apply H2]; vm_compute; reflexivity.
Defined.

(** The parser on ["12,5"], ["12.5"] and ["abc"]. *)
Lemma to_float_decimal_separators_witness :
  _to_float (VStr "12,5") = _to_float (VStr "12.5")
  /\ _to_float (VStr "12,5") = Some 12.5%float
  /\ _to_float (VStr "abc") = None.
Proof.
  destruct to_float_decimal_separators as (Hcomma & Hfail & Hok & _).
  split; [apply (Hcomma "12,5")|]. split.
  - apply Hok; [done|]. vm_compute. reflexivity.
  - apply Hfail. vm_compute. reflexivity.
Defined.

(** A second [start] after the first. *)
Lemma start_twice_fails_witness :
  status (cmd_start start_example "id-1" "2025-12-01T20:00:00" store_empty)
    = Ok 0
  /\ final (cmd_start start_example "id-1" "2025-12-01T20:00:00" store_empty)
     = store_started
  /\ status (cmd_start start_example "id-2" "2025-12-01T21:00:00" store_started)
     = Ok 2
  /\ final (cmd_start start_example "id-2" "2025-12-01T21:00:00" store_started)
     = store_started.
Proof.
  assert (status (cmd_start start_example "id-1" "2025-12-01T20:00:00"
                    store_empty) = Ok 0) as H0 by reflexivity.
  assert (final (cmd_start start_example "id-1" "2025-12-01T20:00:00"
                   store_empty) = store_started) as H1 by reflexivity.
  split; [exact H0|]. split; [exact H1|].
  destruct (proj2 start_twice_fails start_example start_example
              "id-1" "2025-12-01T20:00:00" "id-2" "2025-12-01T21:00:00"
              store_empty H0) as (Hs & _ & Hf).
  rewrite H1 in Hs, Hf. by split.
Defined.

(** [end] at 19:59 of a session started at 20:00. *)
Lemma end_rejects_time_range_witness :
  status (cmd_end end_example "2025-12-01T19:59:00" store_started) = Ok 2
  /\ final (cmd_end end_example "2025-12-01T19:59:00" store_started)
     = store_started.
Proof.
  destruct (end_rejects_time_range end_example "2025-12-01T19:59:00"
              "2025-12-01T20:00:00" store_started draft_example
              (mk_datetime 739586 20 0 0) (mk_datetime 739586 19 59 0))
    as (Hs & _ & Ha & Hc).
  - reflexivity.
  - apply insert_non_empty.
  - vm_compute. reflexivity.
  - vm_compute. reflexivity.
  - vm_compute. reflexivity.
  - vm_compute. reflexivity.
  - vm_compute. reflexivity.
  - split; [exact Hs|].
    destruct (final (cmd_end end_example "2025-12-01T19:59:00" store_started))
      as [a c]. simpl in Ha, Hc. by rewrite Ha, Hc.
Defined.

(** [end] on the draft whose start stamp was damaged. *)
Lemma end_skips_validation_witness :
  status (cmd_end end_example "2025-12-01T22:00:00" store_damaged) ≠ Ok 2
  /\ MsgEndNotAfterStart
       ∉ stderr (cmd_end end_example "2025-12-01T22:00:00" store_damaged).
Proof.
  destruct (end_skips_validation end_example "2025-12-01T22:00:00"
              store_damaged
              (<["start_ts" := VStr "yesterday evening"]> draft_example))
    as (a & errs & _ & _ & _ & Hs & Hm).
  - reflexivity.
  - apply insert_non_empty.
  - vm_compute. reflexivity.
  - right. exists (VStr "yesterday evening"), ValueError.
    split; [apply lookup_insert_eq|]. vm_compute. reflexivity.
  - by split.
Defined.

(** The same [end] stops in the duration block. *)
Lemma end_on_damaged_start :
  status (cmd_end end_example "2025-12-01T22:00:00" store_damaged)
    = Raise ValueError
  /\ final (cmd_end end_example "2025-12-01T22:00:00" store_damaged)
     = store_damaged.
Proof.
  apply (end_unreadable_start_raises _ _ "yesterday evening" _
           (<["start_ts" := VStr "yesterday evening"]> draft_example)).
  - reflexivity.
  - apply insert_non_empty.
  - vm_compute. reflexivity.
  - apply lookup_insert_eq.
  - done.
  - done.
  - vm_compute. reflexivity.
  - vm_compute. reflexivity.
  - exists "cash". vm_compute. reflexivity.
Qed.

(** The cash breakdown of the two example rows: 10 big blinds over 400
    hands is a bb/100 of 2.5, while the bb/100 of the rows average 5. *)
Lemma breakdown_from_totals_witness :
  forallb row_ready cash_rows = true
  /\ exists t a,
       aggregate totals_zero cash_rows = Ok t
       /\ ag t !! "cash" = Some a
       /\ breakdown_bb100 a = Ok (Some 2.5%float).
Proof.
  assert (forallb row_ready cash_rows = true) as Hr by (vm_compute; reflexivity).
  split; [exact Hr|].
  destruct (breakdown_from_totals cash_rows Hr)
    as (t & Ht & _ & a & Ha & _ & Hb & _).
  exists t, a. split; [exact Ht|]. split; [exact Ha|].
  rewrite Hb. vm_compute. reflexivity.
Defined.

(** From 23:00 to 01:30 on 2025-12-31. *)
Lemma log_times_end_after_start_witness :
  log_times 739616 23 0 1 30
  = Ok ("2025-12-31T23:00:00", "2026-01-01T01:30:00", 150).
Proof.
  destruct (log_times_end_after_start 739616 23 0 1 30)
    as (dur & H & _ & _ & Hd & _).
  - unfold MINORDINAL, MAXORDINAL. lia.
  - lia.
  - lia.
  - lia.
  - lia.
  - intros _. unfold MAXORDINAL. lia.
  - vm_compute. reflexivity.
  - vm_compute. reflexivity.
  - rewrite H.
    match type of Hd with
    | ?l = _ => let v := eval vm_compute in l in change l with v in Hd
    end.
    unfold US_PER_SECOND in Hd.
    assert (dur = 150) as -> by lia. vm_compute. reflexivity.
Defined.

(** C8, as stated, fails.  From 23:00 to 01:30 on 9999-12-31 the end
    stamp cannot be moved to the next day: [log] stops with an
    [OverflowError] and stores nothing. *)
Lemma log_times_last_day_overflows :
  log_times MAXORDINAL 23 0 1 30 = Raise OverflowError
  /\ status (cmd_log log_last_day "id-3" store_empty) = Raise OverflowError
  /\ final (cmd_log log_last_day "id-3" store_empty) = store_empty.
Proof. repeat split; vm_compute; reflexivity. Qed.

(** * Further properties on concrete sessions *)

Import More_examples.

(** The tournament example: profit 15 on buy-ins of 10 is an ROI of 150. *)
Lemma roi_rule_witness :
  metrics_ready mtt_session = true
  /\ exists s', compute_metrics mtt_session = Ok s'
       /\ s' !! "roi" = Some (VFloat 150).
Proof.
  assert (metrics_ready mtt_session = true) as Hr by (vm_compute; reflexivity).
  split; [exact Hr|].
  destruct (roi_rule mtt_session "mtt" Hr) as (s' & Hs & H & _);
    [vm_compute; reflexivity ..|].
  exists s'. split; [exact Hs|].
  assert (_to_float (get s' "profit") = Some 15%float) as Hp.
  { destruct (compute_metrics_profit _ _ Hs) as (fmt & Hf & Hp).
    assert (fmt = "mtt") as ->.
    { apply Ok_inj. rewrite <- Hf. vm_compute. reflexivity. }
    unfold get. rewrite Hp. vm_compute. reflexivity. }
  rewrite (H 15%float 10%float Hp); [|vm_compute; reflexivity ..].
  vm_compute. reflexivity.
Defined.

(** The cash example gets no ROI, the tournament example no bb metrics. *)
Lemma metrics_of_other_formats_witness :
  (metrics_ready cash_session = true
   /\ exists s', compute_metrics cash_session = Ok s'
        /\ s' !! "roi" = Some (VStr ""))
  /\ (metrics_ready mtt_session = true
      /\ exists s', compute_metrics mtt_session = Ok s'
           /\ s' !! "bb_profit" = Some (VStr "")
           /\ s' !! "bb_per_100" = Some (VStr "")).
Proof.
  assert (metrics_ready cash_session = true) as Hc by (vm_compute; reflexivity).
  assert (metrics_ready mtt_session = true) as Hm by (vm_compute; reflexivity).
  split; (split; [assumption|]).
  - destruct (metrics_of_other_formats cash_session "cash" Hc)
      as (s' & Hs & _ & H); [vm_compute; reflexivity|].
    exists s'. split; [exact Hs|]. rewrite (H eq_refl). vm_compute. reflexivity.
  - destruct (metrics_of_other_formats mtt_session "mtt" Hm)
      as (s' & Hs & H & _); [vm_compute; reflexivity|].
    exists s'. split; [exact Hs|]. destruct (H eq_refl) as [-> ->].
    split; vm_compute; reflexivity.
Defined.

(** A session from 20:00 to 21:30 without a duration gets 90 minutes; the
    cash example keeps its 90. *)
Lemma duration_rule_witness :
  (metrics_ready stamped_session = true
   /\ exists s', compute_metrics stamped_session = Ok s'
        /\ s' !! "duration_min" = Some (VInt 90))
  /\ (metrics_ready cash_session = true
      /\ exists s', compute_metrics cash_session = Ok s'
           /\ s' !! "duration_min" = Some (VInt 90)).
Proof.
  assert (metrics_ready stamped_session = true) as Hc by (vm_compute; reflexivity).
  assert (metrics_ready cash_session = true) as Hm by (vm_compute; reflexivity).
  split; (split; [assumption|]).
  - destruct (duration_rule stamped_session Hc) as (s' & Hs & _ & H & _).
    exists s'. split; [exact Hs|].
    destruct H as (d & Hd & _ & ->); [vm_compute; reflexivity ..|].
    vm_compute in Hd. apply Ok_inj in Hd as <-. reflexivity.
  - destruct (duration_rule cash_session Hm) as (s' & Hs & H & _).
    exists s'. split; [exact Hs|]. rewrite H by (vm_compute; reflexivity).
    vm_compute. reflexivity.
Defined.

(** On the stamped session the stamps and the format come back as they
    were, and the [None] of the tables column as the empty string. *)
Lemma compute_metrics_frame_witness :
  metrics_ready stamped_session = true
  /\ exists s', compute_metrics stamped_session = Ok s'
       /\ s' !! "start_ts" = Some (VStr "2025-12-01T20:00:00")
       /\ s' !! "format" = Some (VStr "cash")
       /\ s' !! "tables" = Some (VStr "")
       /\ s' !! "id" = None.
Proof.
  assert (metrics_ready stamped_session = true) as Hr by (vm_compute; reflexivity).
  split; [exact Hr|].
  destruct (compute_metrics_frame stamped_session Hr) as (s' & Hs & H & _).
  exists s'. split; [exact Hs|].
  repeat split.
  all: rewrite H by (apply (bool_decide_eq_false_1 (_ ∈ DERIVED_KEYS));
                     vm_compute; reflexivity).
  all: vm_compute; reflexivity.
Defined.

(** The cash example has no currency and none of the tournament columns:
    all come back as the empty string. *)
Lemma optional_columns_never_None_witness :
  metrics_ready cash_session = true
  /\ exists s', compute_metrics cash_session = Ok s'
       /\ s' !! "currency" = Some (VStr "")
       /\ exists v, s' !! "prize_total" = Some v /\ is_None v = false.
Proof.
  assert (metrics_ready cash_session = true) as Hr by (vm_compute; reflexivity).
  split; [exact Hr|].
  destruct (optional_columns_never_None cash_session Hr)
    as (s' & Hs & Hk & _ & _ & Hc).
  exists s'. split; [exact Hs|]. split.
  - apply Hc. vm_compute. reflexivity.
  - apply Hk. apply (bool_decide_eq_true_1 (_ ∈ NORMALIZED_KEYS)).
    vm_compute. reflexivity.
Defined.

(** [_to_int] on text: a decimal comma, NaN and a word. *)
Lemma to_int_errors_witness :
  _to_int (VStr "12,9") = Ok (Some 12)
  /\ _to_int (VStr "nan") = Ok None
  /\ _to_int (VStr "abc") = Ok None.
Proof.
  destruct (to_int_errors (VStr "12,9")) as (_ & _ & _ & H1).
  destruct (to_int_errors (VStr "nan")) as (_ & _ & H2 & _).
  destruct (to_int_errors (VStr "abc")) as (_ & H3 & _).
  split; [|split].
  - apply (H1 (PyFloat.nearest_float false 129 10)); vm_compute; reflexivity.
  - apply (H2 PrimFloat.nan); vm_compute; reflexivity.
  - apply H3. vm_compute. reflexivity.
Defined.

(** [end] on the empty tracker and on a tracker whose active-session file
    is unreadable; on the started tracker it finds its draft. *)
Lemma end_needs_draft_witness :
  status (cmd_end end_example "2025-12-01T21:30:00" store_empty) = Ok 2
  /\ stderr (cmd_end end_example "2025-12-01T21:30:00"
               {| active := Unreadable; csv := [] |})
     = [MsgActiveUnreadable; MsgNoActive]
  /\ MsgNoActive ∉ stderr (cmd_end end_example "2025-12-01T21:30:00"
                             store_started).
Proof.
  split; [|split].
  - apply (end_needs_draft end_example "2025-12-01T21:30:00" store_empty).
    by intros (d & [=] & _).
  - apply (end_needs_draft end_example "2025-12-01T21:30:00"
             {| active := Unreadable; csv := [] |}).
    by intros (d & [=] & _).
  - apply (end_needs_draft end_example "2025-12-01T21:30:00" store_started).
    exists draft_example. split; [reflexivity|]. apply insert_non_empty.
Defined.

(** The session of the examples, ended at 21:30. *)
Lemma end_row_content_witness :
  status (cmd_end end_example "2025-12-01T21:30:00" store_started) = Ok 0
  /\ exists row,
       final (cmd_end end_example "2025-12-01T21:30:00" store_started)
         = {| active := NoFile; csv := [row] |}
       /\ row !! "id" = Some (VStr "id-1")
       /\ row !! "start_ts" = Some (VStr "2025-12-01T20:00:00")
       /\ row !! "end_ts" = Some (VStr "2025-12-01T21:30:00")
       /\ row !! "bankroll_end" = Some (VFloat 150).
Proof.
  assert (status (cmd_end end_example "2025-12-01T21:30:00" store_started)
          = Ok 0) as Hs by (vm_compute; reflexivity).
  split; [exact Hs|].
  destruct (end_row_content end_example "2025-12-01T21:30:00" store_started
              draft_example eq_refl Hs)
    as (a & errs & row & _ & Hf & Hk & He & Hb & _).
  exists row. split; [exact Hf|].
  split; [|split; [|split]].
  - rewrite Hk by (apply (bool_decide_eq_true_1 (_ ∈ START_KEYS));
                   vm_compute; reflexivity).
    vm_compute. reflexivity.
  - rewrite Hk by (apply (bool_decide_eq_true_1 (_ ∈ START_KEYS));
                   vm_compute; reflexivity).
    vm_compute. reflexivity.
  - exact He.
  - exact Hb.
Defined.

(** A closing note on a draft without a note, and on one with a note. *)
Lemma end_note_rule_witness :
  (end_ready end_example draft_example = true
   /\ exists a errs,
        end_collect end_example "2025-12-01T21:30:00" draft_example
          = Ok (a, errs)
        /\ a !! "note" = Some (VStr "good table"))
  /\ (end_ready end_example draft_noted = true
      /\ exists a errs,
           end_collect end_example "2025-12-01T21:30:00" draft_noted
             = Ok (a, errs)
           /\ a !! "note" = Some (VStr "warm-up | good table")).
Proof.
  assert (end_ready end_example draft_example = true) as H1
    by (vm_compute; reflexivity).
  assert (end_ready end_example draft_noted = true) as H2
    by (vm_compute; reflexivity).
  split; (split; [assumption|]).
  - destruct (end_note_rule end_example "2025-12-01T21:30:00" draft_example H1)
      as (a & errs & Hc & _ & Hn & _).
    exists a, errs. split; [exact Hc|].
    apply Hn; [done|]. vm_compute. reflexivity.
  - destruct (end_note_rule end_example "2025-12-01T21:30:00" draft_noted H2)
      as (a & errs & Hc & _ & _ & Hn).
    exists a, errs. split; [exact Hc|].
    apply (Hn ltac:(done) "warm-up"); [|done]. vm_compute. reflexivity.
Defined.

(** A draft whose note is the number 5. *)
Lemma end_note_not_text_witness :
  status (cmd_end end_example "2025-12-01T21:30:00"
            {| active := Draft draft_numbered; csv := [] |})
  = Raise TypeError
  /\ final (cmd_end end_example "2025-12-01T21:30:00"
              {| active := Draft draft_numbered; csv := [] |})
     = {| active := Draft draft_numbered; csv := [] |}.
Proof.
  refine (proj1 (end_note_not_text end_example "2025-12-01T21:30:00"
                   {| active := Draft draft_numbered; csv := [] |}
                   draft_numbered (VInt 5) "cash" eq_refl _ _ _ _) _).
  - vm_compute. reflexivity.
  - vm_compute. reflexivity.
  - vm_compute. reflexivity.
  - intros t. discriminate.
  - done.
Defined.

(** A zero big blind on the draft of the examples. *)
Lemma end_zero_big_blind_witness :
  end_ready end_zero_bb draft_example = true
  /\ exists a errs,
       end_collect end_zero_bb "2025-12-01T21:30:00" draft_example
         = Ok (a, errs)
       /\ errs = [MsgBbValueZero]
       /\ a !! "bb_value" = Some (VStr "")
       /\ MsgBbValueZero
            ∈ stderr (cmd_end end_zero_bb "2025-12-01T21:30:00" store_started).
Proof.
  assert (end_ready end_zero_bb draft_example = true) as Hr
    by (vm_compute; reflexivity).
  split; [exact Hr|].
  destruct (end_zero_big_blind end_zero_bb "2025-12-01T21:30:00" store_started
              draft_example 0%float eq_refl)
    as (a & errs & Hc & Hz & _);
    [apply insert_non_empty|exact Hr|vm_compute; reflexivity|reflexivity|].
  exists a, errs. split; [exact Hc|].
  destruct Hz as (He & Hb & Hm); [vm_compute; reflexivity|].
  split; [exact He|]. split; [|exact Hm].
  rewrite Hb. vm_compute. reflexivity.
Defined.


(** The empty tracker, one session played from 20:00 to 21:30, and a new
    session started at 22:00. *)
Lemma start_end_start_witness :
  ~ usable_draft store_empty
  /\ status (cmd_end end_example "2025-12-01T21:30:00"
               (final (cmd_start start_example "id-1" "2025-12-01T20:00:00"
                         store_empty))) = Ok 0
  /\ exists row d3,
       final (cmd_start start_example "id-2" "2025-12-01T22:00:00"
                (final (cmd_end end_example "2025-12-01T21:30:00"
                          (final (cmd_start start_example "id-1"
                                    "2025-12-01T20:00:00" store_empty)))))
         = {| active := Draft d3; csv := [row] |}
       /\ row !! "id" = Some (VStr "id-1")
       /\ row !! "end_ts" = Some (VStr "2025-12-01T21:30:00")
       /\ d3 !! "id" = Some (VStr "id-2").
Proof.
  assert (~ usable_draft store_empty) as Hno by (by intros (d & [=] & _)).
  assert (status (cmd_end end_example "2025-12-01T21:30:00"
                    (final (cmd_start start_example "id-1"
                              "2025-12-01T20:00:00" store_empty))) = Ok 0)
    as Hs by (vm_compute; reflexivity).
  split; [exact Hno|]. split; [exact Hs|].
  destruct (start_end_start start_example start_example end_example
              "id-1" "2025-12-01T20:00:00" "2025-12-01T21:30:00"
              "id-2" "2025-12-01T22:00:00" store_empty Hno Hs)
    as (row & d3 & Hf & Hid & _ & _ & Hend & Hid3 & _).
  exists row, d3. split; [rewrite Hf; reflexivity|].
  split; [exact Hid|]. split; [exact Hend|exact Hid3].
Defined.

(** The filter for tournaments from 2 December on keeps the tournament
    row, whose format is written in capitals, and not the cash row. *)
Lemma filter_rows_selects_witness :
  forallb format_ready mixed_rows = true
  /\ exists filt,
       filter_rows (Some "mtt") (Some (ymd2ord 2025 12 2)) None mixed_rows
         = Ok filt
       /\ row_mtt ∈ filt
       /\ row_cash ∉ filt.
Proof.
  assert (forallb format_ready mixed_rows = true) as Hr
    by (vm_compute; reflexivity).
  split; [exact Hr|].
  destruct (filter_rows_selects (Some "mtt") (Some (ymd2ord 2025 12 2)) None
              mixed_rows (or_intror (or_intror Hr)))
    as (filt & Hf & _ & Hin).
  exists filt. split; [exact Hf|]. split.
  - apply Hin. split.
    + apply list_elem_of_further, list_elem_of_here.
    + split.
      * intros f [= <-] _. vm_compute. reflexivity.
      * eexists. split; [vm_compute; reflexivity|].
        split; [|intros t [=]]. intros f [= <-]. vm_compute. discriminate.
  - intros H. apply Hin in H as [_ [H _]].
    specialize (H "mtt" eq_refl ltac:(discriminate)).
    vm_compute in H. discriminate H.
Defined.

(** The totals over the four rows: 315 minutes in all, of which the cash
    rows have 105 and the tournament row 180. *)
Lemma totals_over_all_rows_witness :
  forallb row_ready mixed_rows = true
  /\ exists t,
       aggregate totals_zero mixed_rows = Ok t
       /\ total_minutes t = 315
       /\ (exists a, ag t !! "cash" = Some a
             /\ ag_sessions a = 2 /\ ag_minutes a = 105)
       /\ (exists a, ag t !! "mtt" = Some a
             /\ ag_sessions a = 1 /\ ag_minutes a = 180)
       /\ ag t !! "sng" = None.
Proof.
  assert (forallb row_ready mixed_rows = true) as Hr
    by (vm_compute; reflexivity).
  split; [exact Hr|].
  destruct (totals_over_all_rows mixed_rows Hr)
    as (t & Ht & Hm & _ & Hf & Hother).
  exists t. split; [exact Ht|]. split; [rewrite Hm; vm_compute; reflexivity|].
  split; [|split].
  - destruct (Hf "cash") as (a & Ha & Hs & Hmin & _).
    { apply (bool_decide_eq_true_1 (_ ∈ FORMATS)). vm_compute. reflexivity. }
    exists a. split; [exact Ha|]. rewrite Hs, Hmin.
    split; vm_compute; reflexivity.
  - destruct (Hf "mtt") as (a & Ha & Hs & Hmin & _).
    { apply (bool_decide_eq_true_1 (_ ∈ FORMATS)). vm_compute. reflexivity. }
    exists a. split; [exact Ha|]. rewrite Hs, Hmin.
    split; vm_compute; reflexivity.
  - apply Hother. apply (bool_decide_eq_false_1 (_ ∈ FORMATS)).
    vm_compute. reflexivity.
Defined.

(** Two hours logged at 22:00 on 1 December start at 20:00 of that day,
    although the session date given was 30 November. *)
Lemma log_by_duration_witness :
  status (cmd_log log_two_hours "id-3" store_started) = Ok 0
  /\ exists row,
       final (cmd_log log_two_hours "id-3" store_started)
         = {| active := Draft draft_example; csv := [row] |}
       /\ row !! "start_ts" = Some (VStr "2025-12-01T20:00:00")
       /\ row !! "end_ts" = Some (VStr "2025-12-01T22:00:00")
       /\ row !! "duration_min" = Some (VInt 120).
Proof.
  assert (status (cmd_log log_two_hours "id-3" store_started) = Ok 0) as Hs
    by (vm_compute; reflexivity).
  split; [exact Hs|].
  destruct (log_by_duration log_two_hours "id-3" store_started
              (ymd2ord 2025 11 30) 120
              (mk_datetime (ymd2ord 2025 12 1) 22 0 0) eq_refl eq_refl)
    as (_ & _ & H).
  destruct (H Hs) as (_ & row & Hf & Ha & Hb & Hc).
  exists row. split; [exact Hf|].
  split; [|split; [|exact Hc]].
  - rewrite Ha. vm_compute. reflexivity.
  - rewrite Hb. vm_compute. reflexivity.
Defined.


(** The receipt of the cash example is printed. *)
Lemma receipt_after_metrics_witness :
  exists s',
    compute_metrics cash_session = Ok s'
    /\ _print_session_receipt s' = Ok tt.
Proof.
  destruct (compute_metrics_returns cash_session) as [s' Hs];
    [vm_compute; reflexivity|].
  exists s'. split; [exact Hs|].
  apply (receipt_after_metrics cash_session s' Hs). split.
  - destruct (compute_metrics_keeps _ _ Hs) as [_ Hd].
    unfold get. rewrite Hd by (vm_compute; reflexivity).
    vm_compute. reflexivity.
  - intros Ht. vm_compute in Ht. discriminate Ht.
Defined.

(** [status] at 21:30 on the session started at 20:00. *)
Lemma status_report_witness :
  fromisoformat "2025-12-01T21:30:00"
  = Some (mk_datetime (ymd2ord 2025 12 1) 21 30 0)
  /\ exists lines,
       (cmd_status (mk_datetime (ymd2ord 2025 12 1) 21 30 0) store_started).2
       = Some lines
       /\ sl_elapsed lines = 90.
Proof.
  assert (fromisoformat "2025-12-01T21:30:00"
          = Some (mk_datetime (ymd2ord 2025 12 1) 21 30 0)) as Hnow
    by (vm_compute; reflexivity).
  split; [exact Hnow|].
  destruct (status_report _ _ store_started Hnow) as (_ & _ & _ & _ & H).
  destruct (H draft_example eq_refl) as (lines & Hl & _ & He);
    [apply insert_non_empty|].
  exists lines. split; [exact Hl|]. rewrite He. vm_compute. reflexivity.
Defined.

(** Options that are refused when there are rows pass unnoticed on an
    empty file; with rows, the bad date is reported and the bad format is
    not. *)
Lemma stats_options_witness :
  cmd_stats Ascii_dates.parse_date args_refused []
  = Ok {| so_status := 0; so_stderr := []; so_report := None |}
  /\ cmd_stats Ascii_dates.parse_date args_refused mixed_rows
     = Ok {| so_status := 2; so_stderr := [MsgBadFrom]; so_report := None |}.
Proof.
  destruct (stats_options Ascii_dates.parse_date args_refused [])
    as (H1 & _).
  destruct (stats_options Ascii_dates.parse_date args_refused mixed_rows)
    as (_ & H2 & _).
  split; [by apply H1|]. apply H2; [done|]. vm_compute. reflexivity.
Defined.


(** The draft with an empty start stamp is ended without a duration; on
    the draft with the damaged start stamp [end] dies. *)
Lemma end_without_start_stamp_witness :
  (status (cmd_end end_example "2025-12-01T21:30:00"
             {| active := Draft draft_unstamped; csv := [] |}) = Ok 0
   /\ exists row,
        final (cmd_end end_example "2025-12-01T21:30:00"
                 {| active := Draft draft_unstamped; csv := [] |})
          = {| active := NoFile; csv := [row] |}
        /\ row !! "duration_min" = Some (VStr ""))
  /\ status (cmd_end end_example "2025-12-01T21:30:00" store_damaged)
     = Raise ValueError.
Proof.
  split.
  - assert (status (cmd_end end_example "2025-12-01T21:30:00"
                      {| active := Draft draft_unstamped; csv := [] |}) = Ok 0)
      as Hs by (vm_compute; reflexivity).
    split; [exact Hs|].
    destruct (end_without_start_stamp end_example "2025-12-01T21:30:00"
                {| active := Draft draft_unstamped; csv := [] |}
                draft_unstamped eq_refl) as [H _];
      [apply insert_non_empty|vm_compute; reflexivity ..|].
    destruct (H ltac:(vm_compute; reflexivity) Hs) as (row & Hf & Hd & _).
    exists row. split; [exact Hf|]. rewrite Hd. vm_compute. reflexivity.
  - destruct (end_without_start_stamp end_example "2025-12-01T21:30:00"
                store_damaged
                (<["start_ts" := VStr "yesterday evening"]> draft_example)
                eq_refl) as [_ H];
      [apply insert_non_empty|vm_compute; reflexivity ..|].
    apply (H "yesterday evening").
    + apply lookup_insert_eq.
    + discriminate.
    + discriminate.
    + vm_compute. reflexivity.
    + exists "cash". vm_compute. reflexivity.
Defined.

(** A tournament session ended with buy-ins of 10 and prizes of 25: the
    profit is 15 and the ROI 150, while the bankroll went from 100 to
    150. *)
Lemma end_tournament_witness :
  status (cmd_end end_mtt "2025-12-01T21:30:00"
            {| active := Draft draft_mtt; csv := [] |}) = Ok 0
  /\ exists row,
       final (cmd_end end_mtt "2025-12-01T21:30:00"
                {| active := Draft draft_mtt; csv := [] |})
         = {| active := NoFile; csv := [row] |}
       /\ row !! "profit" = Some (VFloat 15)
       /\ row !! "roi" = Some (VFloat 150).
Proof.
  assert (status (cmd_end end_mtt "2025-12-01T21:30:00"
                    {| active := Draft draft_mtt; csv := [] |}) = Ok 0)
    as Hs by (vm_compute; reflexivity).
  split; [exact Hs|].
  destruct (end_tournament end_mtt "2025-12-01T21:30:00"
              {| active := Draft draft_mtt; csv := [] |} draft_mtt "mtt"
              10%float 25%float eq_refl)
    as (row & Hf & _ & _ & Hp & Hr);
    [vm_compute; reflexivity|reflexivity|reflexivity|exact Hs|].
  exists row. split; [exact Hf|]. split.
  - rewrite Hp. vm_compute. reflexivity.
  - rewrite Hr by reflexivity. vm_compute. reflexivity.
Defined.

#[local] Existing Instance Ascii_text.text.

(** At the prompt for a bankroll of at least 0, a word and a negative
    number are rejected and [nan] is accepted. *)
Lemma prompt_float_result_witness :
  prompt_float None (Some 0%float) typed_bankroll
  = ([MsgNotNumber; MsgBelowMin], Some (PrimFloat.nan, ["100"]))
  /\ (PrimFloat.nan <? 0)%float = false
  /\ (0 <=? PrimFloat.nan)%float = false.
Proof.
  assert (prompt_float None (Some 0%float) typed_bankroll
          = ([MsgNotNumber; MsgBelowMin], Some (PrimFloat.nan, ["100"])))
    as H by (vm_compute; reflexivity).
  split; [exact H|].
  destruct (prompt_float_result _ _ _ _ _ H) as [Hmin _].
  split; [exact (Hmin 0%float eq_refl)|]. vm_compute. reflexivity.
Defined.

(** At the prompt for the format, an unknown word and a blank line
    without a default are rejected, and [MTT] is read as [mtt]. *)
Lemma prompt_choice_result_witness :
  prompt_choice FORMATS None typed_format
  = ([MsgBadChoice; MsgEmptyValue], Some ("mtt", []))
  /\ "mtt" ∈ FORMATS.
Proof.
  assert (prompt_choice FORMATS None typed_format
          = ([MsgBadChoice; MsgEmptyValue], Some ("mtt", []))) as H
    by (vm_compute; reflexivity).
  split; [exact H|].
  exact (proj1 (prompt_choice_result _ _ _ _ _ H)).
Defined.

(** The questions of [start]: a blank line takes the default format, a
    blank stake is rejected, and so are an answer that is neither yes nor
    no and a number of tables below 1. *)
Lemma ask_start_answers_witness :
  exists inp,
    ask_start typed_start
    = ([MsgEmptyValue; MsgYesOrNo; MsgBelowMin], Some (inp, ["next"]))
    /\ si_format inp = "cash"
    /\ si_tables inp = Some 2
    /\ si_stake inp ≠ ""
    /\ (si_bankroll_start inp <? 0)%float = false.
Proof.
  assert (exists inp,
            ask_start typed_start
            = ([MsgEmptyValue; MsgYesOrNo; MsgBelowMin], Some (inp, ["next"]))
            /\ si_format inp = "cash" /\ si_tables inp = Some 2)
    as (inp & H & Hf & Ht).
  { vm_compute. eexists. split; [reflexivity|]. split; reflexivity. }
  exists inp. split; [exact H|]. split; [exact Hf|]. split; [exact Ht|].
  destruct (ask_start_answers _ _ _ _ H) as (_ & Hs & Hb & _).
  split; [exact Hs|exact Hb].
Defined.

(** Ninety seconds are two minutes. *)
Lemma duration_rounds_half_even_witness :
  duration_minutes (VStr "2025-12-01T20:00:00") (VStr "2025-12-01T20:01:30")
  = Ok 2.
Proof.
  assert (fromisoformat "2025-12-01T20:00:00"
          = Some (mk_datetime (ymd2ord 2025 12 1) 20 0 0)) as Hs
    by (vm_compute; reflexivity).
  assert (fromisoformat "2025-12-01T20:01:30"
          = Some (mk_datetime (ymd2ord 2025 12 1) 20 1 30)) as He
    by (vm_compute; reflexivity).
  rewrite (duration_rounds_half_even _ _ _ _ 90 Hs He eq_refl eq_refl);
    [vm_compute; reflexivity|vm_compute; reflexivity|lia].
Defined.

(** At the prompt for at least one table, a word and a zero are rejected
    and 2 is accepted. *)
Lemma prompt_int_result_witness :
  prompt_int None (Some 1) ["two"; "0"; " 2 "; "3"]
  = ([MsgNotInteger; MsgBelowMin], Some (2, ["3"]))
  /\ 1 <= 2.
Proof.
  assert (prompt_int None (Some 1) ["two"; "0"; " 2 "; "3"]
          = ([MsgNotInteger; MsgBelowMin], Some (2, ["3"]))) as H
    by (vm_compute; reflexivity).
  split; [exact H|].
  destruct (prompt_int_result _ _ _ _ _ H) as [Hmin _].
  exact (Hmin 1 eq_refl).
Defined.
